(** * El_Pais: the feed-to-EPUB pipeline of [run.py]

    A shallow embedding of [run.py] and the properties of its
    retry-and-degrade pipeline.

    - Python [str] values are lists of Unicode code points ([list N]), so
      that comparison ([list.sort]) and whitespace ([str.strip]) follow the
      code points as Python's do.
    - The network, the clock and the libraries the script calls
      ([requests], [newspaper], [bs4], [ebooklib]) are an oracle [World].
    - The interpreter state a run changes (working directory, random
      generator, what was requested, slept and logged) is threaded through a
      state-and-exception monad [M]. *)

From Stdlib Require Import NArith String Ascii.
From stdpp Require Import base option list gmap sorting.

Open Scope N_scope.
Open Scope list_scope.

(** ** Python strings *)

Module PyStr.

Definition char := N.
Definition str := list char.

(** A literal of the script. *)
Definition py (s : string) : str :=
  map N_of_ascii (list_ascii_of_string s).

Definition LF : char := 10.
Definition SPACE : char := 32.

(** [str.isspace] on one code point (CPython's [_PyUnicode_IsWhitespace]). *)
Definition isspace (c : char) : bool :=
  ((9 <=? c) && (c <=? 13)) || ((28 <=? c) && (c <=? 32))
  || (c =? 133) || (c =? 160) || (c =? 5760)
  || ((8192 <=? c) && (c <=? 8202))
  || (c =? 8232) || (c =? 8233) || (c =? 8239) || (c =? 8287)
  || (c =? 12288).

(** [s.lstrip()], [s.rstrip()] and [s.strip()]. *)
Fixpoint lstrip (s : str) : str :=
  match s with
  | c :: s' => if isspace c then lstrip s' else s
  | [] => []
  end.

Definition rstrip (s : str) : str := rev (lstrip (rev s)).

Definition strip (s : str) : str := rstrip (lstrip s).

(** Truth value of a string: [if s:]. *)
Definition truthy (s : str) : bool :=
  match s with [] => false | _ :: _ => true end.

(** [s.startswith(p)]. *)
Fixpoint startswith (p s : str) : bool :=
  match p, s with
  | [], _ => true
  | _ :: _, [] => false
  | a :: p', b :: s' => (a =? b) && startswith p' s'
  end.

(** [s.split(sep)] for a non-empty [sep]: a left-to-right scan for
    non-overlapping occurrences. [skip] counts the characters of an
    occurrence still to pass over, [cur] is the piece being read, in
    reverse. *)
Fixpoint split_go (sep s : str) (skip : nat) (cur : str) : list str :=
  match s with
  | [] => [rev cur]
  | c :: s' =>
      match skip with
      | S k => split_go sep s' k cur
      | O =>
          if startswith sep s
          then rev cur :: split_go sep s' (length sep - 1)%nat []
          else split_go sep s' O (c :: cur)
      end
  end.

Definition split (sep s : str) : list str := split_go sep s O [].

(** [sep.join(l)]. *)
Fixpoint join (sep : str) (l : list str) : str :=
  match l with
  | [] => []
  | [x] => x
  | x :: l' => x ++ sep ++ join sep l'
  end.

(** [s.replace(a, b)] for single characters [a] and [b]. *)
Definition replace (a b : char) (s : str) : str :=
  map (fun c => if c =? a then b else c) s.

(** [s[:n]]. *)
Definition slice_to (n : nat) (s : str) : str := take n s.

(** [<], [>] on strings: lexicographic on code points. *)
Fixpoint compare (a b : str) : comparison :=
  match a, b with
  | [], [] => Eq
  | [], _ :: _ => Lt
  | _ :: _, [] => Gt
  | x :: a', y :: b' =>
      match N.compare x y with
      | Eq => compare a' b'
      | c => c
      end
  end.

Definition gtb (a b : str) : bool :=
  match compare a b with Gt => true | _ => false end.

(** [a >= b]. *)
Definition geb (a b : str) : bool := negb (gtb b a).

End PyStr.

Import PyStr.

(** ** Data the script handles *)

Definition bytes := list N.

(** A calendar day, and a [datetime] with its [.date()]. *)
Definition date := N.
Record datetime := { dt_date : date; dt_seconds : N }.

(** What [newspaper.Article] exposes after [download()] and [parse()].
    [publish_date] is [None] when the page carries no date. *)
Record Article := {
  title : str;
  article_html : str;
  text : str;
  publish_date : option datetime;
  top_img : str
}.

(** An [<item>] of the feed as [bs4] shows it: [item.find('link')] and
    [item.find('category')] are [None] when the element is missing,
    otherwise a tag with its [.text]. *)
Record FeedItem := { link : option str; category : option str }.

Record Response := { status_code : N; content : bytes }.

(** Outcome of sending one HTTP request: a response, with its body, or a
    failure below HTTP (no connection, a reset, a timeout), which
    [urllib3] counts against the retries. *)
Inductive attempt :=
| Answer (r : Response)
| RequestFailed.

(** The [Retry-After] header of a response, as [urllib3] reads it:
    absent, present with an empty value, present but neither a number of
    seconds nor a date, or a wait in seconds (a date counts as the whole
    seconds until it). *)
Inductive retry_after_header :=
| NoRetryAfter
| RetryAfterEmpty
| RetryAfterInvalid
| RetryAfter (secs : N).

(** What becomes of [open(path, 'wb')] and of
    [shutil.copyfileobj(response.raw, out_file)]: the file cannot be
    opened, the stream breaks after some bytes were copied, or the body is
    copied whole. *)
Inductive copy :=
| CopyWhole
| OpenFails
| StreamBreaks (copied : nat).

(** [epub.EpubHtml]. *)
Record EpubHtml := {
  chap_title : str;
  chap_file_name : str;
  chap_lang : str;
  chap_content : str
}.

Inductive item :=
| EpubItem (uid file_name media_type : str) (body : bytes)
| HtmlItem (chap : EpubHtml)
| EpubNcx
| EpubNav.

Inductive spine_entry :=
| SpineName (name : str)
| SpineChapter (chap : EpubHtml).

(** [epub.EpubBook]; [toc] is a list of (section title, chapters). *)
Record EpubBook := {
  identifier : str;
  book_title : str;
  language : str;
  authors : list str;
  items : list item;
  toc : list (str * list EpubHtml);
  spine : list spine_entry
}.

Definition add_item (i : item) (b : EpubBook) : EpubBook :=
  {| identifier := identifier b; book_title := book_title b;
     language := language b; authors := authors b;
     items := items b ++ [i]; toc := toc b; spine := spine b |}.

Definition set_toc (t : list (str * list EpubHtml)) (b : EpubBook) : EpubBook :=
  {| identifier := identifier b; book_title := book_title b;
     language := language b; authors := authors b;
     items := items b; toc := t; spine := spine b |}.

Definition set_spine (s : list spine_entry) (b : EpubBook) : EpubBook :=
  {| identifier := identifier b; book_title := book_title b;
     language := language b; authors := authors b;
     items := items b; toc := toc b; spine := s |}.

(** A file of the working directory. *)
Inductive file :=
| Bytes (b : bytes)
| Epub (book : EpubBook).

(** ** Exceptions, state and the monad *)

Inductive exn :=
| RequestException   (* requests.exceptions.RequestException and subclasses *)
| AttributeError
| TypeError
| OSError
| ValueError
| ProtocolError.     (* urllib3's errors of a broken stream; no RequestException *)

Definition is_RequestException (e : exn) : bool :=
  match e with RequestException => true | _ => false end.

(** [except Exception] catches every exception of the model. *)
Definition is_Exception (e : exn) : bool := true.

Inductive level := INFO | WARNING | ERROR | STDOUT.

Inductive event :=
| EvRequest (url : str)       (* one HTTP request sent *)
| EvArticle (url : str)       (* one Article(url).download(); parse() *)
| EvSleep (secs : N)          (* time.sleep, or the adapter's backoff *)
| EvLog (l : level)           (* a logger call or a print *)
| EvWrite (path : str) (book : EpubBook).   (* epub.write_epub(path, book) called *)

Record State := {
  fs : gmap str file;         (* the working directory *)
  rng : nat -> nat;           (* the draws random.choice will make *)
  trace : list event          (* what happened so far, oldest first *)
}.

Inductive result (A : Type) :=
| Val (a : A)
| Exc (e : exn).
Arguments Val {A} a.
Arguments Exc {A} e.

Definition M (A : Type) : Type := State -> result A * State.

#[export] Instance M_ret : MRet M := fun A a st => (Val a, st).

#[export] Instance M_bind : MBind M := fun A B f m st =>
  match m st with
  | (Val a, st') => f a st'
  | (Exc e, st') => (Exc e, st')
  end.

Definition raise {A} (e : exn) : M A := fun st => (Exc e, st).

(** [try: body except <catches> : handler]. An exception the clause
    does not catch goes on. The state is the one at the raise. *)
Definition try_except {A} (body : M A) (catches : exn -> bool)
    (handler : exn -> M A) : M A := fun st =>
  match body st with
  | (Val a, st') => (Val a, st')
  | (Exc e, st') => if catches e then handler e st' else (Exc e, st')
  end.

Definition emit (e : event) : M unit := fun st =>
  (Val tt, {| fs := fs st; rng := rng st; trace := trace st ++ [e] |}).

Definition log (l : level) : M unit := emit (EvLog l).
Definition sleep (secs : N) : M unit := emit (EvSleep secs).

Definition write_file (path : str) (f : file) : M unit := fun st =>
  (Val tt, {| fs := <[path := f]> (fs st); rng := rng st; trace := trace st |}).

(** [random.choice(seq)]: the next draw picks the index. *)
Definition random_choice (seq : str) : M char := fun st =>
  (Val (nth (rng st O mod length seq)%nat seq 0),
   {| fs := fs st; rng := fun i => rng st (S i); trace := trace st |}).

Definition ascii_letters : str :=
  py "abcdefghijklmnopqrstuvwxyzABCDEFGHIJKLMNOPQRSTUVWXYZ".

(** [''.join(random.choice(string.ascii_letters) for x in range(n))]. *)
Fixpoint random_letters (n : nat) : M str :=
  match n with
  | O => mret []
  | S n' => c ← random_choice ascii_letters; s ← random_letters n'; mret (c :: s)
  end.

(** ** The sessions of [requests] *)

(** [urllib3.util.retry.Retry], with the fields the script sets. *)
Record Retry := {
  total : nat;                 (* number of retries *)
  backoff_factor : N;
  status_forcelist : list N    (* retry on these status codes *)
}.

Record HTTPAdapter := { max_retries : Retry }.

(** [Session.adapters], an ordered dictionary from prefix to adapter. *)
Record Session := { adapters : list (str * HTTPAdapter) }.

(** [HTTPAdapter()] as [requests] builds it: no retry. *)
Definition default_adapter : HTTPAdapter :=
  {| max_retries := {| total := 0; backoff_factor := 0; status_forcelist := [] |} |}.

(** [requests.Session()]. *)
Definition requests_Session : Session :=
  {| adapters := [(py "https://", default_adapter); (py "http://", default_adapter)] |}.

Definition str_eqb (a b : str) : bool := bool_decide (a = b).

(** [session.mount(prefix, adapter)]: set the entry (in place when the
    prefix is there, else at the end), then move the shorter prefixes
    behind it. *)
Definition mount (prefix : str) (adapter : HTTPAdapter) (s : Session) : Session :=
  let set :=
    if existsb (fun kv => str_eqb kv.1 prefix) (adapters s)
    then map (fun kv => if str_eqb kv.1 prefix then (prefix, adapter) else kv) (adapters s)
    else adapters s ++ [(prefix, adapter)] in
  {| adapters :=
       List.filter (fun kv => negb (length kv.1 <? length prefix)%nat) set
       ++ List.filter (fun kv => (length kv.1 <? length prefix)%nat) set |}.

(** [s.lower()], on the ASCII letters. *)
Definition lower (s : str) : str :=
  map (fun c => if (65 <=? c) && (c <=? 90) then c + 32 else c) s.

(** [PreparedRequest.prepare_url]: leading whitespace is removed before
    the URL is looked at. *)
Definition prepare_url (url : str) : str := lstrip url.

(** [session.get_adapter(url)], on the prepared URL: the first prefix
    the URL starts with. *)
Definition get_adapter (s : Session) (url : str) : option HTTPAdapter :=
  snd <$> List.find (fun kv => startswith (lower kv.1) (lower url)) (adapters s).

(** [Retry.RETRY_AFTER_STATUS_CODES] and [Retry.DEFAULT_BACKOFF_MAX]. *)
Definition RETRY_AFTER_STATUS_CODES : list N := [413; 429; 503].
Definition DEFAULT_BACKOFF_MAX : N := 120.

(** [bool(response.headers.get("Retry-After"))]. *)
Definition has_retry_after (h : retry_after_header) : bool :=
  match h with
  | NoRetryAfter | RetryAfterEmpty => false
  | RetryAfterInvalid | RetryAfter _ => true
  end.

(** [Retry.is_retry] for a GET, with [left] retries to go: the status is
    of the forcelist, or retries are left and the response carries a
    [Retry-After] header with a status of [RETRY_AFTER_STATUS_CODES]. *)
Definition is_retry (retries : Retry) (left : nat) (status : N)
    (h : retry_after_header) : bool :=
  bool_decide (status ∈ status_forcelist retries)
  || (negb (left =? 0)%nat && has_retry_after h
      && bool_decide (status ∈ RETRY_AFTER_STATUS_CODES)).

(** [Retry.get_backoff_time] after [errors] requests in a row have
    failed: nothing after the first, then
    [backoff_factor * 2 ^ (errors - 1)], at most [DEFAULT_BACKOFF_MAX]. *)
Definition get_backoff_time (retries : Retry) (errors : nat) : N :=
  if (errors <=? 1)%nat then 0
  else N.min DEFAULT_BACKOFF_MAX (backoff_factor retries * 2 ^ N.of_nat (errors - 1)).

(** [create_session_with_retries()]. *)
Definition create_session_with_retries : Session :=
  let session := requests_Session in
  let retries :=
    {| total := 5; backoff_factor := 1; status_forcelist := [500; 502; 503; 504] |} in
  let adapter := {| max_retries := retries |} in
  let session := mount (py "http://") adapter session in
  let session := mount (py "https://") adapter session in
  session.

(** ** The world outside the script

    What the script cannot decide is asked of a [World]. A world answers
    alike when asked alike: the feed and the articles do not change
    during a run. What a world leaves out:
    - the run does not span midnight ([today] is one day);
    - a URL of the http or https scheme is one [requests] can send, and
      no answer is a redirect: a [get] is the exchanges of one URL;
    - [epub.write_epub] either raises or has written the archive:
      [ebooklib] catches an I/O error met while the file itself is
      written and returns as after a good write, and a disk that fails
      at that point is not part of a world. *)

Record World := {
  (** the answer to the [k]-th request sent for a URL within one [get] *)
  http : str -> nat -> attempt;
  (** the [Retry-After] header of that answer, when it is a response *)
  retry_after : str -> nat -> retry_after_header;
  (** what becomes of the copy of the response for a URL to its scratch file *)
  copyfile : str -> copy;
  (** [BeautifulSoup(content, features="xml").find_all('item')] *)
  find_all_item : bytes -> list FeedItem;
  (** [Article(url)], [download()], [parse()] at the given attempt *)
  newspaper : str -> nat -> result Article;
  (** [datetime.today().date()] *)
  today : date;
  (** the [get_text()] of the [<p>] elements of an HTML fragment *)
  find_all_p : str -> list str;
  (** the exception [epub.write_epub] raises for a path, if it raises *)
  write_epub_error : str -> option exn;
  (** the truncated file a raising [epub.write_epub] leaves at the path, if any *)
  write_epub_partial : str -> option bytes;
  (** the bytes of a written archive *)
  zip_bytes : EpubBook -> bytes
}.

Section Script.

Variable w : World.

(** [Retry._sleep_backoff]: no call of [time.sleep] for a backoff of 0. *)
Definition sleep_backoff (retries : Retry) (errors : nat) : M unit :=
  if get_backoff_time retries errors =? 0 then mret tt
  else sleep (get_backoff_time retries errors).

(** [Retry.sleep(response)]: the wait of a [Retry-After] header when it
    gives one, else the backoff; a header that cannot be read is an
    [InvalidHeader]. *)
Definition Retry_sleep (retries : Retry) (errors : nat) (h : retry_after_header)
    : M unit :=
  match h with
  | NoRetryAfter => sleep_backoff retries errors
  | RetryAfterEmpty | RetryAfterInvalid => raise RequestException
  | RetryAfter secs =>
      if secs =? 0 then sleep_backoff retries errors else sleep secs
  end.

(** The adapter's send, [urllib3]'s [urlopen] with its [Retry]: [left]
    is the number of retries left ([total] at first), [sent] the number
    of requests made before this one, all of them failed. A failed
    request, and a response [is_retry] holds of, are followed by a retry
    after the wait of [Retry.sleep]; out of retries, the adapter raises
    ([MaxRetryError], for [requests] a [RequestException]). *)
Fixpoint urlopen (retries : Retry) (url : str) (left sent : nat) : M Response :=
  emit (EvRequest url);;
  match http w url sent with
  | Answer r =>
      if is_retry retries left (status_code r) (retry_after w url sent)
      then match left with
           | O => raise RequestException
           | S left' =>
               Retry_sleep retries (S sent) (retry_after w url sent);;
               urlopen retries url left' (S sent)
           end
      else mret r
  | RequestFailed =>
      match left with
      | O => raise RequestException
      | S left' =>
          sleep_backoff retries (S sent);;
          urlopen retries url left' (S sent)
      end
  end.

(** [session.get(url)]. The adapter is looked up for the prepared URL;
    none for it is [InvalidSchema] (or, without a scheme,
    [MissingSchema]), and nothing is sent. *)
Definition session_get (s : Session) (url : str) : M Response :=
  match get_adapter s (prepare_url url) with
  | None => raise RequestException
  | Some adapter => urlopen (max_retries adapter) url (total (max_retries adapter)) O
  end.

(** [requests.get(url)]: a session of its own. *)
Definition requests_get (url : str) : M Response :=
  session_get requests_Session url.

(** [response.raise_for_status()]: [HTTPError] on 4xx and 5xx. *)
Definition raise_for_status (r : Response) : M unit :=
  if (400 <=? status_code r) && (status_code r <? 600)
  then raise RequestException else mret tt.

(** [open(path, 'rb').read()]. [open(None, ...)] is a [TypeError]. *)
Definition open_rb (path : option str) : M bytes := fun st =>
  match path with
  | None => (Exc TypeError, st)
  | Some p =>
      match fs st !! p with
      | Some (Bytes b) => (Val b, st)
      | Some (Epub book) => (Val (zip_bytes w book), st)
      | None => (Exc OSError, st)
      end
  end.

(** Lines 28-29: [with open(path, 'wb') as out_file:
    shutil.copyfileobj(response.raw, out_file)]. An [open] that fails
    creates no file; a stream that breaks leaves what was copied and
    raises an error of [urllib3]. *)
Definition copyfileobj (url path : str) (response : Response) : M unit :=
  match copyfile w url with
  | CopyWhole => write_file path (Bytes (content response))
  | OpenFails => raise OSError
  | StreamBreaks copied =>
      write_file path (Bytes (take copied (content response)));;
      raise ProtocolError
  end.

(** [download_image(url)]. Falling off the [except] clause returns
    [None]; the clause catches a [RequestException] only. *)
Definition download_image (url : str) : M (option str) :=
  try_except
    (response ← requests_get url;
     raise_for_status response;;
     filename ← random_letters 10;
     copyfileobj url (filename ++ py ".jpeg") response;;
     mret (Some (filename ++ py ".jpeg")))
    is_RequestException
    (fun e => log STDOUT;; mret None).

(** [article = Article(url); article.download(); article.parse()]. *)
Definition Article_download_parse (url : str) (attempt : nat) : M Article :=
  fun st =>
    (newspaper w url attempt,
     {| fs := fs st; rng := rng st; trace := trace st ++ [EvArticle url] |}).

(** The loop of [download_article_with_retry] over [range(max_retries)].
    The body gives [Some v] to return [v] and [None] to go on. *)
Fixpoint for_attempt (url : str) (max_retries : nat) (range : list nat)
    : M (option Article) :=
  match range with
  | [] => mret None
  | attempt :: range' =>
      r ← try_except
            (article ← Article_download_parse url attempt;
             mret (Some (Some article)))
            is_Exception
            (fun e =>
               if bool_decide (attempt = (max_retries - 1)%nat)
               then log ERROR;; log ERROR;; mret (Some None)
               else log WARNING;; sleep (2 ^ N.of_nat attempt);; mret None);
      match r with
      | Some v => mret v
      | None => for_attempt url max_retries range'
      end
  end.

(** [download_article_with_retry(url, max_retries)]. *)
Definition download_article_with_retry (url : str) (max_retries : nat)
    : M (option Article) :=
  for_attempt url max_retries (seq 0 max_retries).

(** ** [create_epub] *)

Definition QUOTE : char := 34.

(** A line break and the indentation that follows it in a literal. *)
Definition nl (indent : nat) : str := LF :: repeat SPACE indent.

(** The list comprehension over the feed's items:
    [(item.find('link').text, item.find('category').text)]. The [.text]
    of [None] is an [AttributeError]. *)
Definition tag_text (tag : option str) : M str :=
  match tag with
  | Some t => mret t
  | None => raise AttributeError
  end.

Fixpoint link_category (items : list FeedItem) : M (list (str * str)) :=
  match items with
  | [] => mret []
  | item :: items' =>
      l ← tag_text (link item);
      c ← tag_text (category item);
      rest ← link_category items';
      mret ((l, c) :: rest)
  end.

(** [articles.sort(key=lambda x: x[1], reverse=True)]: Python's sort is
    stable, also with [reverse=True]; the stable sort is this insertion
    from the right, each pair going before the first one whose key is
    not greater. *)
Fixpoint insert_desc (x : str * str) (l : list (str * str)) : list (str * str) :=
  match l with
  | [] => [x]
  | y :: l' => if gtb y.2 x.2 then y :: insert_desc x l' else x :: l
  end.

Definition sort_reverse (l : list (str * str)) : list (str * str) :=
  foldr insert_desc [] l.

(** The body of an article: lines 117-124. *)
Definition paragraph (p : str) : str := py "<p>" ++ p ++ py "</p>".

Definition article_content (article : Article) : str :=
  if truthy (article_html article)
  then join [LF] (map paragraph (find_all_p w (article_html article)))
  else
    let paragraphs := split [LF; LF] (text article) in
    join [LF]
      (map (fun p => paragraph (strip p))
           (List.filter (fun p => truthy (strip p)) paragraphs)).

(** [article.title.replace(' ', '_').replace('/', '_')[:30]] *)
Definition chapter_name (article : Article) : str :=
  slice_to 30 (replace 47 95 (replace SPACE 95 (title article))).

(** How an f-string prints a path that may be [None]. *)
Definition fmt_path (path : option str) : str :=
  match path with
  | Some p => p
  | None => py "None"
  end.

(** The f-string of [chap.content]. *)
Definition content_of (article : Article) (cat : str) (path : option str)
    (body : str) : str :=
  nl 12 ++ py "<html>" ++
  nl 16 ++ py "<head>" ++
  nl 20 ++ py "<title>" ++ title article ++ py "</title>" ++
  nl 16 ++ py "</head>" ++
  nl 16 ++ py "<body>" ++
  nl 20 ++ py "<h1>" ++ title article ++ py "</h1>" ++
  nl 20 ++ py "<h3>" ++ cat ++ py "</h3>" ++
  nl 20 ++ py "<img src=" ++ [QUOTE] ++ fmt_path path ++ [QUOTE] ++
           py " alt=" ++ [QUOTE] ++ top_img article ++ [QUOTE] ++ py "/>  " ++
           body ++
  nl 16 ++ py "</body>" ++
  nl 12 ++ py "</html>" ++
  nl 12.

Definition chapter_of (article : Article) (cat : str) (path : option str)
    : EpubHtml :=
  {| chap_title := title article;
     chap_file_name := chapter_name article ++ py ".xhtml";
     chap_lang := py "es";
     chap_content := content_of article cat path (article_content article) |}.

(** [article.publish_date.date()]; [None.date()] is an [AttributeError]. *)
Definition publish_date_date (article : Article) : M date :=
  match publish_date article with
  | Some d => mret (dt_date d)
  | None => raise AttributeError
  end.

(** Lines 115-169: the guarded part of the loop body. *)
Definition build_chapter (url cat : str) (article : Article)
    (book : EpubBook) (chapters : list EpubHtml)
    : M (EpubBook * list EpubHtml) :=
  try_except
    (epubtop_image_path ← download_image (top_img article);
     let chap := chapter_of article cat epubtop_image_path in
     b_image1 ← open_rb epubtop_image_path;
     (* past [open] the path is a name: [fmt_path] gives it back *)
     let image1_item :=
       EpubItem (fmt_path epubtop_image_path) (fmt_path epubtop_image_path)
                (py "image/jpeg") b_image1 in
     let book := add_item image1_item book in
     let book := add_item (HtmlItem chap) book in
     mret (book, chapters ++ [chap]))
    is_Exception
    (fun e => log ERROR;; mret (book, chapters)).

(** Lines 93-169: one turn of [for url, cat in articles]. *)
Definition loop_body (url cat : str) (book : EpubBook)
    (chapters : list EpubHtml) : M (EpubBook * list EpubHtml) :=
  article ← download_article_with_retry url 3;
  match article with
  | None => log WARNING;; mret (book, chapters)
  | Some article =>
      pub ← publish_date_date article;
      log STDOUT;;
      if bool_decide (pub ≠ today w)
      then mret (book, chapters)
      else build_chapter url cat article book chapters
  end.

Fixpoint for_articles (articles : list (str * str)) (book : EpubBook)
    (chapters : list EpubHtml) : M (EpubBook * list EpubHtml) :=
  match articles with
  | [] => mret (book, chapters)
  | (url, cat) :: articles' =>
      bc ← loop_body url cat book chapters;
      for_articles articles' bc.1 bc.2
  end.

(** [epub.EpubBook()] with the metadata of lines 84-88. *)
Definition new_book : EpubBook :=
  {| identifier := py "id123456";
     book_title := py "El Pa" ++ [8730; 8800] ++ py "s Articles";
     language := py "es";
     authors := [py "RSS Feed Generator"];
     items := []; toc := []; spine := [] |}.

(** The stylesheet of lines 183-199. *)
Definition style : str :=
  nl 8 ++ py "@namespace epub " ++ [QUOTE] ++ py "http://www.idpf.org/2007/ops"
       ++ [QUOTE] ++ py ";" ++
  nl 8 ++ py "body {" ++
  nl 12 ++ py "font-family: Arial, sans-serif;" ++
  nl 12 ++ py "line-height: 1.6;" ++
  nl 12 ++ py "margin: 2em;" ++
  nl 8 ++ py "}" ++
  nl 8 ++ py "h1 {" ++
  nl 12 ++ py "text-align: center;" ++
  nl 12 ++ py "padding: 20px;" ++
  nl 12 ++ py "margin-bottom: 1.5em;" ++
  nl 8 ++ py "}" ++
  nl 8 ++ py "p {" ++
  nl 12 ++ py "margin-bottom: 1em;" ++
  nl 12 ++ py "text-align: justify;" ++
  nl 8 ++ py "}" ++
  nl 4.

Definition nav_css : item :=
  EpubItem (py "style_nav") (py "style/nav.css") (py "text/css") style.

(** [epub.write_epub(path, book, {})]. When it raises, the path holds
    no archive: nothing new, or a truncated file. When it returns, the
    archive is at the path (a world has no I/O error at this point, the
    one case in which [ebooklib] returns without the archive). *)
Definition write_epub (path : str) (book : EpubBook) : M unit := fun st =>
  match write_epub_error w path with
  | Some e =>
      (Exc e,
       {| fs := match write_epub_partial w path with
                | Some b => <[path := Bytes b]> (fs st)
                | None => fs st
                end;
          rng := rng st; trace := trace st ++ [EvWrite path book] |})
  | None =>
      (Val tt, {| fs := <[path := Epub book]> (fs st); rng := rng st;
                  trace := trace st ++ [EvWrite path book] |})
  end.

(** Lines 175-219: what follows the loop when there are chapters. *)
Definition finalize (book : EpubBook)
    (chapters : list EpubHtml) : EpubBook :=
  let book := set_toc [(py "Articles", chapters)] book in
  let book := add_item EpubNcx book in
  let book := add_item EpubNav book in
  let book := add_item nav_css book in
  set_spine (SpineName (py "nav") :: map SpineChapter chapters) book.

(** [create_epub(rss_feed, output_filename)]. *)
Definition create_epub (rss_feed output_filename : str) : M bool :=
  let session := create_session_with_retries in
  fetched ← try_except
              (r ← session_get session rss_feed;
               raise_for_status r;;
               mret (Some r))
              is_RequestException
              (fun e => log ERROR;; mret None);
  match fetched with
  | None => mret false
  | Some r =>
      let items := find_all_item w (content r) in
      articles ← link_category items;
      let articles := sort_reverse articles in
      log INFO;;
      bc ← for_articles articles new_book [];
      match bc.2 with
      | [] => log ERROR;; mret false
      | _ :: _ =>
          try_except
            (write_epub output_filename (finalize bc.1 bc.2);;
             log INFO;;
             mret true)
            is_Exception
            (fun e => log ERROR;; mret false)
      end
  end.

End Script.

(** ** Reading a run *)

(** The waits of a run, and the requests it sent, oldest first. *)
Definition sleeps (t : list event) : list N :=
  omap (fun e => match e with EvSleep n => Some n | _ => None end) t.

Definition requests (t : list event) : list str :=
  omap (fun e => match e with EvRequest u => Some u | _ => None end) t.

Definition article_downloads (t : list event) : list str :=
  omap (fun e => match e with EvArticle u => Some u | _ => None end) t.

Definition writes (t : list event) : list str :=
  omap (fun e => match e with EvWrite p _ => Some p | _ => None end) t.

(** The chapters among the items of a book, in the order added. *)
Definition chapters_of_items (l : list item) : list EpubHtml :=
  omap (fun i => match i with HtmlItem c => Some c | _ => None end) l.

Definition chapters_of_spine (l : list spine_entry) : list EpubHtml :=
  omap (fun e => match e with SpineChapter c => Some c | _ => None end) l.

(** A state to start from: an empty directory, nothing logged. *)
Definition fresh (draws : nat -> nat) : State :=
  {| fs := ∅; rng := draws; trace := [] |}.

(** ** The plain-text fallback of the normalizer, in the spec's words

    These definitions follow the specification, not the script: what a
    blank-line boundary is, what it is to split a text on such
    boundaries, to trim a segment, to wrap it as a paragraph element and
    to join by newlines. None of them uses the [split], [strip] or
    [join] the script calls. *)

(** A text has a blank-line boundary where a line feed directly follows a
    line feed. *)
Definition has_blank_line (s : str) : Prop :=
  exists before after, s = before ++ [10; 10] ++ after.

(** The segments of a text split on its blank-line boundaries, read from
    the left: a text without boundary is one segment; otherwise the first
    segment ends where the first boundary begins, and the segments of
    what follows that boundary come after it. *)
Inductive blank_line_segments : str -> list str -> Prop :=
| segments_end (s : str) :
    ~ has_blank_line s -> blank_line_segments s [s]
| segments_cut (first rest : str) (segs : list str) :
    ~ has_blank_line (first ++ [10]) ->
    blank_line_segments rest segs ->
    blank_line_segments (first ++ [10; 10] ++ rest) (first :: segs).

(** A whitespace character, a run of them, and a text that neither
    begins nor ends with one. *)
Definition whitespace (c : char) : Prop := isspace c = true.

Definition blank (s : str) : Prop := Forall whitespace s.

Definition no_space_at_ends (s : str) : Prop :=
  (forall c, head s = Some c -> ~ whitespace c)
  /\ (forall c, last s = Some c -> ~ whitespace c).

(** [trimmed] is [segment] without the whitespace at its two ends. *)
Definition trim_of (segment trimmed : str) : Prop :=
  exists leading trailing,
    segment = leading ++ trimmed ++ trailing
    /\ blank leading /\ blank trailing /\ no_space_at_ends trimmed.

(** The paragraph element of a text: the text between the tags [<p>]
    and [</p>]. *)
Definition p_element (body : str) : str :=
  [60; 112; 62] ++ body ++ [60; 47; 112; 62].

Definition non_empty (s : str) : bool :=
  match s with [] => false | _ :: _ => true end.

(** Texts joined by newlines: a line feed between each two. *)
Definition newline_joined (l : list str) : str :=
  match l with
  | [] => []
  | x :: rest => x ++ concat (map (fun y => 10 :: y) rest)
  end.

(** The fallback body made of the trimmed segments of a plain text: the
    paragraph elements of those that are not empty, in the order of the
    text, joined by newlines. *)
Definition paragraphs_of (trimmed_segments : list str) : str :=
  newline_joined (map p_element (List.filter non_empty trimmed_segments)).

(** The state with more events behind its trace. *)
Definition add_trace (st : State) (t : list event) : State :=
  {| fs := fs st; rng := rng st; trace := trace st ++ t |}.

(** The wait [download_article_with_retry] makes after failed attempt [j]
    (from 0). *)
Definition backoff (j : nat) : N := 2 ^ N.of_nat j.

(** ** Sample worlds *)

Definition feed_url : str := py "https://feeds.example/rss".
Definition out_path : str := py "el_pais.epub".

(** A world from its parts: the answers to the feed's requests, the items
    of the feed, the extractor, the answer to an image request, and the
    error of the archive write. No response carries a [Retry-After]
    header and every image is copied whole. *)
Definition world_of (feed : nat -> attempt) (feed_items : list FeedItem)
    (news : str -> nat -> result Article) (image : str -> attempt)
    (write_error : option exn) : World :=
  {| http := fun url k => if str_eqb url feed_url then feed k else image url;
     retry_after := fun _ _ => NoRetryAfter;
     copyfile := fun _ => CopyWhole;
     find_all_item := fun _ => feed_items;
     newspaper := news;
     today := 20000;
     find_all_p := fun _ => [];
     write_epub_error := fun _ => write_error;
     write_epub_partial := fun _ => None;
     zip_bytes := fun _ => [] |}.

Definition ok (body : bytes) : attempt :=
  Answer {| status_code := 200; content := body |}.

Definition status (code : N) : attempt :=
  Answer {| status_code := code; content := [] |}.

Definition feed_item (l c : string) : FeedItem :=
  {| link := Some (py l); category := Some (py c) |}.

(** A plain-text article titled after its URL, with a lead image there. *)
Definition sample_article (url : str) (d : option date) : Article :=
  {| title := py "About " ++ url;
     article_html := [];
     text := py "First." ++ [LF; LF] ++ py "  Second. " ++ [LF; LF; LF];
     publish_date := (fun day => {| dt_date := day; dt_seconds := 3600 |}) <$> d;
     top_img := py "https://img.example/" ++ url |}.

(** Nothing answers: every request and every extraction fails. *)
Definition w_offline : World :=
  world_of (fun _ => RequestFailed) [] (fun _ _ => Exc OSError)
           (fun _ => RequestFailed) None.

(** The feed server answers 503 to every request. *)
Definition w_unavailable : World :=
  world_of (fun _ => status 503) [] (fun _ _ => Exc OSError)
           (fun _ => RequestFailed) None.

(** One article of today whose lead image is answered with 404. *)
Definition w_image_404 : World :=
  world_of (fun _ => ok [1]) [feed_item "a1" "mundo"]
           (fun url _ => Val (sample_article url (Some 20000)))
           (fun _ => status 404) None.

(** One article that carries no publish date. *)
Definition w_no_date : World :=
  world_of (fun _ => ok [1]) [feed_item "a1" "mundo"]
           (fun url _ => Val (sample_article url None))
           (fun _ => ok [255; 216]) None.

(** One article of today, all requests answered; [epub.write_epub]
    raises a [ValueError]. *)
Definition w_write_fails : World :=
  world_of (fun _ => ok [1]) [feed_item "a1" "mundo"]
           (fun url _ => Val (sample_article url (Some 20000)))
           (fun _ => ok [255; 216]) (Some ValueError).

(** Five articles: [a2] is of yesterday and [a4] cannot be extracted. *)
Definition w_five : World :=
  world_of (fun k => if (k <? 2)%nat then status 502 else ok [1])
           [feed_item "a1" "mundo"; feed_item "a2" "sociedad";
            feed_item "a3" "sociedad"; feed_item "a4" "mundo";
            feed_item "a5" "mundo"]
           (fun url k =>
              if str_eqb url (py "a4") then Exc OSError
              else if str_eqb url (py "a2") then Val (sample_article url (Some 19999))
              else if (k <? 1)%nat then Exc OSError
              else Val (sample_article url (Some 20000)))
           (fun _ => ok [255; 216]) None.

(** The second item of the feed has no [<link>]. *)
Definition w_missing_link : World :=
  world_of (fun _ => ok [1])
           [feed_item "a1" "mundo"; {| link := None; category := Some (py "mundo") |}]
           (fun url _ => Val (sample_article url (Some 20000)))
           (fun _ => ok [255; 216]) None.

(** An article without structured HTML. *)
Definition plain_article : Article := sample_article (py "a1") (Some 20000).

(** ** Reading the retry policy of the feed's session *)

(** An attempt the adapter follows with a retry while retries are left,
    whatever the headers of the response: a failed request, or a status
    of the forcelist. *)
Definition retried (retries : Retry) (a : attempt) : bool :=
  match a with
  | Answer r => bool_decide (status_code r ∈ status_forcelist retries)
  | RequestFailed => true
  end.

(** The waits of the adapter before the retries that follow requests
    [sent], ..., [sent + n - 1] (from 0), when no response carries a
    [Retry-After] header: the backoffs that are not 0. *)
Definition waits (retries : Retry) (sent n : nat) : list N :=
  List.filter (fun x => negb (x =? 0))
    (map (fun j => get_backoff_time retries (S j)) (seq sent n)).

(** What a [get] gives after its last request. *)
Definition answer_of (retries : Retry) (a : attempt) : result Response :=
  match a with
  | Answer r => if retried retries a then Exc RequestException else Val r
  | RequestFailed => Exc RequestException
  end.

(** No response to a request for the URL carries a [Retry-After] header. *)
Definition no_retry_after (w : World) (url : str) : Prop :=
  forall k, retry_after w url k = NoRetryAfter.

(** What [Retry._sleep_backoff] and [Retry.sleep] add to the trace, and
    whether [Retry.sleep] returns. *)
Definition backoff_events (retries : Retry) (errors : nat) : list event :=
  if get_backoff_time retries errors =? 0 then []
  else [EvSleep (get_backoff_time retries errors)].

Definition sleep_events (retries : Retry) (errors : nat) (h : retry_after_header)
    : list event :=
  match h with
  | NoRetryAfter => backoff_events retries errors
  | RetryAfterEmpty | RetryAfterInvalid => []
  | RetryAfter secs =>
      if secs =? 0 then backoff_events retries errors else [EvSleep secs]
  end.

Definition sleep_returns (h : retry_after_header) : bool :=
  match h with
  | RetryAfterEmpty | RetryAfterInvalid => false
  | NoRetryAfter | RetryAfter _ => true
  end.

(** The [Retry] and the adapter [create_session_with_retries] builds. *)
Definition feed_retries : Retry :=
  {| total := 5; backoff_factor := 1; status_forcelist := [500; 502; 503; 504] |}.

Definition feed_adapter : HTTPAdapter := {| max_retries := feed_retries |}.

(** The URL, as [requests] prepares it, is of the http or of the https
    scheme. *)
Definition http_or_https (url : str) : bool :=
  startswith (py "http://") (lower (prepare_url url))
  || startswith (py "https://") (lower (prepare_url url)).

(** ** Reading an item of the feed *)

(** The record the extractor ends with: the first of the three attempts
    that succeeds. *)
Definition extracted (w : World) (url : str) : option Article :=
  match newspaper w url 0 with
  | Val a => Some a
  | Exc _ =>
      match newspaper w url 1 with
      | Val a => Some a
      | Exc _ =>
          match newspaper w url 2 with
          | Val a => Some a
          | Exc _ => None
          end
      end
  end.

(** The request for the lead image is answered, and not with a 4xx or
    5xx status. *)
Definition image_answered (w : World) (url : str) : bool :=
  match get_adapter requests_Session (prepare_url url) with
  | None => false
  | Some _ =>
      match http w url 0 with
      | Answer r => negb ((400 <=? status_code r) && (status_code r <? 600))
      | RequestFailed => false
      end
  end.

(** The lead image is captured: its request is answered so, and the
    response is copied whole to the scratch file. *)
Definition image_ok (w : World) (url : str) : bool :=
  image_answered w url
  && match copyfile w url with CopyWhole => true | _ => false end.

Definition image_body (w : World) (url : str) : bytes :=
  match http w url 0 with
  | Answer r => content r
  | RequestFailed => []
  end.

(** What a capture whose request was answered leaves in its scratch
    file; no file when it could not be opened. *)
Definition capture_file (w : World) (url : str) : option bytes :=
  match copyfile w url with
  | CopyWhole => Some (image_body w url)
  | StreamBreaks copied => Some (take copied (image_body w url))
  | OpenFails => None
  end.

(** The directory with the scratch file of a capture, if it left one. *)
Definition with_scratch (name : str) (body : option bytes) (files : gmap str file)
    : gmap str file :=
  match body with
  | Some b => <[name := Bytes b]> files
  | None => files
  end.

(** The letters [n] draws give, and the generator after them. *)
Fixpoint letters (n : nat) (draws : nat -> nat) : str :=
  match n with
  | O => []
  | S n' =>
      nth (draws O mod length ascii_letters)%nat ascii_letters 0
      :: letters n' (fun i => draws (S i))
  end.

Fixpoint advance (n : nat) (draws : nat -> nat) : nat -> nat :=
  match n with
  | O => draws
  | S n' => advance n' (fun i => draws (S i))
  end.

Definition scratch_name (draws : nat -> nat) : str :=
  letters 10 draws ++ py ".jpeg".

(** What becomes of an item: no chapter, an exception out of the loop, or
    a chapter of the article. *)
Inductive verdict :=
| Skipped
| Crashed
| Kept (article : Article).

Definition classify (w : World) (url : str) : verdict :=
  match extracted w url with
  | None => Skipped
  | Some article =>
      match publish_date article with
      | None => Crashed
      | Some d =>
          if bool_decide (dt_date d ≠ today w) then Skipped
          else if image_ok w (top_img article) then Kept article
          else Skipped
      end
  end.

Definition is_crashed (v : verdict) : bool :=
  match v with Crashed => true | _ => false end.

(** The articles that become chapters, with their categories, in order. *)
Definition kept (w : World) (articles : list (str * str)) : list (Article * str) :=
  omap (fun uc => match classify w uc.1 with
                  | Kept a => Some (a, uc.2)
                  | _ => None
                  end) articles.

Definition crashes (w : World) (articles : list (str * str)) : bool :=
  existsb (fun uc => is_crashed (classify w uc.1)) articles.

(** From [st] to [st'] no archive was written: [write_epub] was not
    called and the directory has no new archive. *)
Definition quiet (st st' : State) : Prop :=
  writes (trace st') = writes (trace st)
  /\ forall p book, fs st' !! p = Some (Epub book) -> fs st !! p = Some (Epub book).

(** A chapter of the article, whatever the name of its scratch image. *)
Definition chapter_from (w : World) (ac : Article * str) (chap : EpubHtml) : Prop :=
  exists path, chap = chapter_of w ac.1 ac.2 (Some path).

(** The pairs the list comprehension over the items gives, when every item
    has its link and its category. *)
Definition pair_of (i : FeedItem) : option (str * str) :=
  match link i, category i with
  | Some l, Some c => Some (l, c)
  | _, _ => None
  end.

Fixpoint pairs_of (items : list FeedItem) : option (list (str * str)) :=
  match items with
  | [] => Some []
  | i :: items' =>
      match pair_of i, pairs_of items' with
      | Some p, Some ps => Some (p :: ps)
      | _, _ => None
      end
  end.

(** ** Reading a run of [create_epub] *)

(** The feed document the run works on: the response the session ends
    with, unless it is an error status. The requests a [get] sends and
    their answers do not depend on the state it starts from. *)
Definition feed_doc (w : World) (rss_feed : str) : option Response :=
  match (session_get w create_session_with_retries rss_feed (fresh (fun _ => O))).1 with
  | Val r =>
      if (400 <=? status_code r) && (status_code r <? 600) then None else Some r
  | Exc _ => None
  end.

(** How a run ends. *)
Inductive run_outcome :=
| FeedFailed                 (* the feed could not be fetched *)
| FeedMalformed              (* an item without link or category *)
| ItemCrashed                (* an article without publish date *)
| NoChapters                 (* no article became a chapter *)
| WriteFailed                (* epub.write_epub raised *)
| Written (articles : list (Article * str)).

Definition outcome (w : World) (rss_feed output_filename : str) : run_outcome :=
  match feed_doc w rss_feed with
  | None => FeedFailed
  | Some r =>
      match pairs_of (find_all_item w (content r)) with
      | None => FeedMalformed
      | Some articles =>
          if crashes w (sort_reverse articles) then ItemCrashed
          else
            match kept w (sort_reverse articles) with
            | [] => NoChapters
            | a :: l =>
                match write_epub_error w output_filename with
                | Some _ => WriteFailed
                | None => Written (a :: l)
                end
            end
      end
  end.

(** What [create_epub] gives for each: a boolean, or the exception that
    leaves it. *)
Definition returned (o : run_outcome) : result bool :=
  match o with
  | FeedFailed | NoChapters | WriteFailed => Val false
  | FeedMalformed | ItemCrashed => Exc AttributeError
  | Written _ => Val true
  end.

(** The archive at a path holds these chapters, in this order, in its
    items, its table of contents and its spine. *)
Definition archive_has (st : State) (path : str) (chapters : list EpubHtml) : Prop :=
  exists book,
    fs st !! path = Some (Epub book)
    /\ chapters_of_items (items book) = chapters
    /\ toc book = [(py "Articles", chapters)]
    /\ spine book = SpineName (py "nav") :: map SpineChapter chapters.

(** The run did nothing but log and request: the directory is as it was
    and no article was downloaded. *)
Definition untouched (st st' : State) : Prop :=
  exists t, st' = add_trace st t /\ article_downloads t = [] /\ writes t = [].

(** [x] may stand before [y] in the sorted list: its category is not less. *)
Definition desc (x y : str * str) : Prop := geb x.2 y.2 = true.

(** The fetch of the feed fails: the session raises, or the response has
    an error status and [raise_for_status] raises. *)
Definition fetch_fails (w : World) (rss_feed : str) (st : State) : Prop :=
  match (session_get w create_session_with_retries rss_feed st).1 with
  | Exc _ => True
  | Val r => (400 <=? status_code r) && (status_code r <? 600) = true
  end.

(** Two chapters of one article and category: at most the name of the
    scratch image differs. *)
Definition same_chapter (w : World) (c1 c2 : EpubHtml) : Prop :=
  exists article cat path1 path2,
    c1 = chapter_of w article cat (Some path1)
    /\ c2 = chapter_of w article cat (Some path2).

(** An item of the feed without its link or its category. *)
Definition lacks_tag (i : FeedItem) : Prop := link i = None \/ category i = None.

(** * More of the script *)

(** ** Reading costs and contents *)

(** The seconds a trace sleeps, in all. *)
Definition total_sleep (t : list event) : N := foldr N.add 0 (sleeps t).

(** A character of a paragraph that is not whitespace. *)
Definition solid (c : option char) : Prop :=
  forall x, c = Some x -> isspace x = false.

(** A paragraph as the fallback keeps it: not empty, no whitespace at
    either end. *)
Definition trimmed (p : str) : Prop :=
  p <> [] /\ solid (head p) /\ solid (last p).

(** One article of today whose page has no lead image: [top_img] is the
    empty string. *)
Definition bare_article : Article :=
  {| title := py "Sin imagen";
     article_html := [];
     text := py "Texto.";
     publish_date := Some {| dt_date := 20000; dt_seconds := 0 |};
     top_img := [] |}.

Definition w_no_image : World :=
  world_of (fun _ => ok [1]) [feed_item "a1" "mundo"]
           (fun _ _ => Val bare_article)
           (fun _ => ok [255; 216]) None.

(** The feed server answers 404. *)
Definition w_feed_404 : World :=
  world_of (fun _ => status 404) [] (fun _ _ => Exc OSError)
           (fun _ => RequestFailed) None.

(** ** What the loop builds *)

(** The image a turn of the loop draws a scratch name for: the lead
    image of the article, when the article is extracted and dated today
    and the request for the image is answered without an error status. *)
Definition captured (w : World) (url : str) : option str :=
  match extracted w url with
  | None => None
  | Some article =>
      match publish_date article with
      | None => None
      | Some d =>
          if bool_decide (dt_date d ≠ today w) then None
          else if image_answered w (top_img article) then Some (top_img article)
               else None
      end
  end.

(** The generator and the directory after a turn: a capture takes 10
    draws for its name and leaves what it copied under that name. *)
Definition next_draws (w : World) (url : str) (draws : nat -> nat) : nat -> nat :=
  match captured w url with
  | Some _ => advance 10 draws
  | None => draws
  end.

Definition next_files (w : World) (url : str) (draws : nat -> nat)
    (files : gmap str file) : gmap str file :=
  match captured w url with
  | Some image => with_scratch (scratch_name draws) (capture_file w image) files
  | None => files
  end.

(** The generator after the turns of a list of articles. *)
Fixpoint draws_after (w : World) (articles : list (str * str)) (draws : nat -> nat)
    : nat -> nat :=
  match articles with
  | [] => draws
  | (url, cat) :: l => draws_after w l (next_draws w url draws)
  end.

(** The chapters, the items and the files the loop makes of a list of
    articles, from the draws it starts with. *)
Fixpoint chapters_from (w : World) (draws : nat -> nat) (articles : list (str * str))
    : list EpubHtml :=
  match articles with
  | [] => []
  | (url, cat) :: l =>
      match classify w url with
      | Kept a => [chapter_of w a cat (Some (scratch_name draws))]
      | _ => []
      end ++ chapters_from w (next_draws w url draws) l
  end.

Fixpoint items_from (w : World) (draws : nat -> nat) (articles : list (str * str))
    : list item :=
  match articles with
  | [] => []
  | (url, cat) :: l =>
      match classify w url with
      | Kept a =>
          [EpubItem (scratch_name draws) (scratch_name draws) (py "image/jpeg")
                    (image_body w (top_img a));
           HtmlItem (chapter_of w a cat (Some (scratch_name draws)))]
      | _ => []
      end ++ items_from w (next_draws w url draws) l
  end.

Fixpoint files_from (w : World) (draws : nat -> nat) (articles : list (str * str))
    (files : gmap str file) : gmap str file :=
  match articles with
  | [] => files
  | (url, cat) :: l =>
      files_from w (next_draws w url draws) l (next_files w url draws files)
  end.

(** The book [create_epub] hands to [epub.write_epub] for the sorted
    articles of the feed. *)
Definition archive_of (w : World) (draws : nat -> nat) (articles : list (str * str))
    : EpubBook :=
  {| identifier := py "id123456";
     book_title := py "El Pa" ++ [8730; 8800] ++ py "s Articles";
     language := py "es";
     authors := [py "RSS Feed Generator"];
     items := items_from w draws articles ++ [EpubNcx; EpubNav; nav_css];
     toc := [(py "Articles", chapters_from w draws articles)];
     spine := SpineName (py "nav") :: map SpineChapter (chapters_from w draws articles) |}.

(** The calls of [epub.write_epub] in a trace, each with its path and
    the book it was handed, oldest first. *)
Definition written (t : list event) : list (str * EpubBook) :=
  omap (fun e => match e with EvWrite p b => Some (p, b) | _ => None end) t.

(** [book.add_item] for each item of a list, in order. *)
Definition add_items (l : list item) (book : EpubBook) : EpubBook :=
  foldl (fun b i => add_item i b) book l.

(** What [n] turns of the loop may cost: no archive write, at most 3
    downloads and one image request a turn, at most 3 seconds of sleep a
    turn. *)
Definition loop_cost (n : nat) (t : list event) : Prop :=
  writes t = []
  /\ (length (article_downloads t) <= 3 * n)%nat
  /\ (length (requests t) <= n)%nat
  /\ total_sleep t <= 3 * N.of_nat n.

(** The number of items of the feed a run works on; 0 when the feed
    could not be fetched. *)
Definition item_count (w : World) (rss_feed : str) : nat :=
  match feed_doc w rss_feed with
  | Some r => length (find_all_item w (content r))
  | None => O
  end.

(** The feed is fetched and has no item. *)
Definition w_empty_feed : World :=
  world_of (fun _ => ok [1]) [] (fun _ _ => Exc OSError) (fun _ => RequestFailed) None.

(** ** The entry point: lines 222-228

    The keys of [fs] are the paths of the files, relative to the working
    directory; a key without a slash is a file of the directory itself.
    The directory holds files only, and its own path has no wildcard. *)

Definition RSS_FEED : str :=
  py "https://feeds.elpais.com/mrss-s/pages/ep/site/elpais.com/section/internacional/portada".

Definition el_pais_epub : str := py "el_pais.epub".

(** [s.endswith(suffix)]. *)
Definition endswith (suffix s : str) : bool := startswith (rev suffix) (rev s).

(** A name [glob.glob(f'{os.getcwd()}/*.jpeg')] lists: a file of the
    working directory itself whose name ends with [.jpeg] and does not
    start with a dot ([glob] skips hidden files). *)
Definition matches_jpeg (name : str) : bool :=
  endswith (py ".jpeg") name
  && negb (startswith (py ".") name)
  && negb (existsb (N.eqb 47) name).

(** The files [glob] lists, in the order of the directory. *)
Definition glob_jpeg : M (list str) := fun st =>
  (Val (List.filter matches_jpeg (map_to_list (fs st)).*1), st).

(** [os.remove(path)]; a missing file is a [FileNotFoundError]. *)
Definition os_remove (path : str) : M unit := fun st =>
  match fs st !! path with
  | Some _ =>
      (Val tt, {| fs := delete path (fs st); rng := rng st; trace := trace st |})
  | None => (Exc OSError, st)
  end.

(** [for i in removing_files: os.remove(i)]. *)
Fixpoint for_remove (removing_files : list str) : M unit :=
  match removing_files with
  | [] => mret tt
  | i :: rest => os_remove i;; for_remove rest
  end.

(** The block under [if __name__ == "__main__":]. The value of
    [create_epub] is dropped. *)
Definition main (w : World) : M unit :=
  _ ← create_epub w RSS_FEED el_pais_epub;
  removing_files ← glob_jpeg;
  for_remove removing_files.

(** Two articles of today; the second one, lower in the sorted feed,
    carries no publish date. *)
Definition w_late_crash : World :=
  world_of (fun _ => ok [1])
           [feed_item "a1" "sociedad"; feed_item "a2" "mundo"]
           (fun url _ =>
              if str_eqb url (py "a2") then Val (sample_article url None)
              else Val (sample_article url (Some 20000)))
           (fun _ => ok [255; 216]) None.

(** A world with another fate for the copies of the images. *)
Definition with_copyfile (c : copy) (w : World) : World :=
  {| http := http w; retry_after := retry_after w; copyfile := fun _ => c;
     find_all_item := find_all_item w; newspaper := newspaper w; today := today w;
     find_all_p := find_all_p w; write_epub_error := write_epub_error w;
     write_epub_partial := write_epub_partial w; zip_bytes := zip_bytes w |}.

(** The articles of [w_five]; the stream of every image breaks after
    one byte. *)
Definition w_broken_stream : World := with_copyfile (StreamBreaks 1) w_five.

(** Three articles of today, sorted as listed: the image of the first
    is answered with 404, the third carries no publish date. *)
Definition w_skip_keep_crash : World :=
  world_of (fun _ => ok [1])
           [feed_item "a1" "sociedad"; feed_item "a2" "mundo"; feed_item "a3" "deportes"]
           (fun url _ =>
              if str_eqb url (py "a3") then Val (sample_article url None)
              else Val (sample_article url (Some 20000)))
           (fun url => if str_eqb url (py "https://img.example/a1") then status 404
                       else ok [255; 216])
           None.

(** The feed server answers 429 with [Retry-After: 7], then 200. *)
Definition w_retry_after : World :=
  {| http := fun url k => if (k <? 1)%nat then status 429 else ok [1];
     retry_after := fun url k => if (k <? 1)%nat then RetryAfter 7 else NoRetryAfter;
     copyfile := fun _ => CopyWhole;
     find_all_item := fun _ => [];
     newspaper := fun _ _ => Exc OSError;
     today := 20000;
     find_all_p := fun _ => [];
     write_epub_error := fun _ => None;
     write_epub_partial := fun _ => None;
     zip_bytes := fun _ => [] |}.

(** As [w_write_fails]; the raising write leaves two bytes at the path. *)
Definition w_write_truncated : World :=
  {| http := http w_write_fails; retry_after := retry_after w_write_fails;
     copyfile := copyfile w_write_fails; find_all_item := find_all_item w_write_fails;
     newspaper := newspaper w_write_fails; today := today w_write_fails;
     find_all_p := find_all_p w_write_fails;
     write_epub_error := write_epub_error w_write_fails;
     write_epub_partial := fun _ => Some [80; 75];
     zip_bytes := zip_bytes w_write_fails |}.

(** A directory with a photo of the user's and a file of notes. *)
Definition used_directory : State :=
  {| fs := <[py "vacaciones.jpeg" := Bytes [255; 216; 1]]>
             (<[py "notas.txt" := Bytes [104; 105]]> ∅);
     rng := fun i => (3 * i)%nat;
     trace := [] |}.

(** * Properties *)

(** ** Strings *)

Example split_blank_lines :
  split (py (String "010" (String "010" EmptyString)))
        [97; 10; 10; 98; 10; 10; 10; 99; 10; 10]
  = [[97]; [98]; [10; 99]; []].
Proof. reflexivity. Qed.

Example strip_both : strip [32; 9; 97; 32; 98; 160; 10] = [97; 32; 98].
Proof. reflexivity. Qed.

Lemma startswith_app (p s : str) :
  startswith p s = true -> exists r, s = p ++ r.
Proof.
  revert s. induction p as [|a p IH]; intros s H.
  - exists s. reflexivity.
  - destruct s as [|b s]; [discriminate|].
    simpl in H. apply andb_prop in H as [Hab Hps].
    apply N.eqb_eq in Hab. subst b.
    destruct (IH s Hps) as [r ->]. exists r. reflexivity.
Qed.

Lemma split_go_nonempty (sep s : str) k cur : split_go sep s k cur <> [].
Proof.
  revert k cur. induction s as [|c s IH]; intros k cur; simpl.
  - discriminate.
  - destruct k; [|apply IH].
    destruct (startswith sep (c :: s)); [discriminate|apply IH].
Qed.

Lemma join_cons (sep x : str) (l : list str) :
  l <> [] -> join sep (x :: l) = x ++ sep ++ join sep l.
Proof. destruct l; [congruence|reflexivity]. Qed.

(** The pieces of [split], joined by the separator, are the text again.
    While [k] characters of an occurrence remain to pass over, they come
    back with the separator. *)
Lemma join_split_go (sep : str) :
  sep <> [] ->
  forall (s : str) (k : nat) (cur : str),
    (k <= length s)%nat ->
    join sep (split_go sep s k cur) = rev cur ++ drop k s.
Proof.
  intros Hsep s. induction s as [|c s IH]; intros k cur Hk.
  - simpl in *. assert (k = O) by lia. subst. simpl. by rewrite app_nil_r.
  - destruct k as [|k].
    + simpl split_go. destruct (startswith sep (c :: s)) eqn:Hp.
      * apply startswith_app in Hp as [r Hr].
        destruct sep as [|a sep]; [congruence|].
        simpl in Hr. injection Hr as -> ->.
        rewrite join_cons by apply split_go_nonempty.
        rewrite IH.
        -- replace (length (a :: sep) - 1)%nat with (length sep) by (simpl; lia).
           rewrite drop_app_length. reflexivity.
        -- simpl length. rewrite length_app. lia.
      * rewrite IH by lia. simpl. rewrite <- app_assoc. reflexivity.
    + simpl split_go. simpl in Hk. rewrite IH by lia. reflexivity.
Qed.

Lemma join_split (sep s : str) : sep <> [] -> join sep (split sep s) = s.
Proof.
  intros Hsep. unfold split. rewrite join_split_go by (done || simpl; lia).
  reflexivity.
Qed.

Lemma filter_map_strip (l : list str) :
  map (fun p => paragraph (strip p)) (List.filter (fun p => truthy (strip p)) l)
  = map paragraph (List.filter truthy (map strip l)).
Proof.
  induction l as [|p l IH]; simpl; [reflexivity|].
  destruct (truthy (strip p)); simpl; by rewrite IH.
Qed.

(** *** Splitting on blank lines *)

Lemma has_blank_line_cons (c : char) (s : str) :
  has_blank_line (c :: s) -> (c = 10 /\ exists s', s = 10 :: s') \/ has_blank_line s.
Proof.
  intros ([|x before] & after & H); simpl in H; injection H as -> ->.
  - left. eauto.
  - right. by exists before, after.
Qed.

Lemma has_blank_line_tail (c : char) (s : str) :
  has_blank_line s -> has_blank_line (c :: s).
Proof. intros (before & after & ->). by exists (c :: before), after. Qed.

Lemma startswith_blank_line (c : char) (s : str) :
  startswith [LF; LF] (c :: s) = true <-> c = 10 /\ exists s', s = 10 :: s'.
Proof.
  split.
  - intros H. apply startswith_app in H as [r Hr]. injection Hr as -> ->. eauto.
  - intros [-> [s' ->]]. reflexivity.
Qed.

(** A text without blank line is one piece. *)
Lemma split_go_no_blank_line (s : str) :
  forall cur, ~ has_blank_line s -> split_go [LF; LF] s 0 cur = [rev cur ++ s].
Proof.
  induction s as [|c s IH]; intros cur Hno; cbn [split_go].
  - by rewrite app_nil_r.
  - destruct (startswith [LF; LF] (c :: s)) eqn:Hp.
    + apply startswith_blank_line in Hp as [-> [s' ->]].
      destruct Hno. by exists [], s'.
    + rewrite IH; [|by intros H; apply Hno, has_blank_line_tail].
      simpl. by rewrite <- app_assoc.
Qed.

(** The first piece ends where the first blank line begins. *)
Lemma split_go_first_blank_line (first rest : str) :
  forall cur,
    ~ has_blank_line (first ++ [10]) ->
    split_go [LF; LF] (first ++ [10; 10] ++ rest) 0 cur
    = (rev cur ++ first) :: split_go [LF; LF] rest 0 [].
Proof.
  induction first as [|c first IH]; intros cur Hno.
  - rewrite app_nil_r. reflexivity.
  - cbn [app split_go].
    destruct (startswith [LF; LF] (c :: first ++ 10 :: 10 :: rest)) eqn:Hp.
    + apply startswith_blank_line in Hp as [-> [s' Hs']].
      destruct Hno. destruct first as [|x first]; simpl in *.
      * by exists [], [].
      * injection Hs' as -> _. by exists [], (first ++ [10]).
    + rewrite IH; [|by intros H; apply Hno, (has_blank_line_tail c)].
      simpl. by rewrite <- app_assoc.
Qed.

(** The segments of the specification are the pieces [split] gives. *)
Lemma blank_line_segments_split (s : str) (segs : list str) :
  blank_line_segments s segs -> split [LF; LF] s = segs.
Proof.
  unfold split. induction 1 as [s Hno|first rest segs Hno _ IH].
  - by rewrite split_go_no_blank_line.
  - by rewrite split_go_first_blank_line, IH.
Qed.

(** Every text has a first blank line, or none. *)
Lemma first_blank_line (s : str) :
  ~ has_blank_line s
  \/ exists first rest, s = first ++ [10; 10] ++ rest /\ ~ has_blank_line (first ++ [10]).
Proof.
  induction s as [|c s IH].
  - left. intros ([|x before] & after & H); discriminate.
  - destruct (startswith [LF; LF] (c :: s)) eqn:Hp.
    + apply startswith_blank_line in Hp as [-> [s' ->]].
      right. exists [], s'. split; [done|].
      intros ([|x [|y before]] & after & H); discriminate.
    + assert (~ (c = 10 /\ exists s', s = 10 :: s')) as Hc.
      { intros H. apply startswith_blank_line in H. congruence. }
      destruct IH as [Hno|(first & rest & -> & Hno)].
      * left. by intros [H|H]%has_blank_line_cons.
      * right. exists (c :: first), rest. split; [done|].
        intros [[-> [s' Hs']]|H]%has_blank_line_cons; [|done].
        apply Hc. split; [done|].
        destruct first as [|x first]; [by eexists|].
        injection Hs' as -> _. by eexists.
Qed.

(** Every text has its segments. *)
Lemma blank_line_segments_exist (s : str) :
  exists segs, blank_line_segments s segs.
Proof.
  remember (length s) as n eqn:Hn. revert s Hn.
  induction n as [n IH] using lt_wf_ind. intros s ->.
  destruct (first_blank_line s) as [Hno|(first & rest & -> & Hno)].
  - exists [s]. by constructor.
  - destruct (IH (length rest)) with (s := rest) as [segs Hsegs]; [|done|].
    { rewrite !length_app. simpl. lia. }
    exists (first :: segs). by constructor.
Qed.

(** *** Trimming *)

Lemma lstrip_blank (s : str) :
  Forall (fun c => isspace c = true) s -> lstrip s = [].
Proof. induction 1 as [|c s Hc _ IH]; simpl; [done|]. by rewrite Hc. Qed.

Lemma lstrip_head (s : str) : solid (head (lstrip s)).
Proof.
  induction s as [|c s IH]; simpl; [by intros x|].
  destruct (isspace c) eqn:Hc; [done|]. intros x [= <-]. done.
Qed.

Lemma lstrip_snoc (l : str) (c : char) :
  isspace c = false -> exists l', lstrip (l ++ [c]) = l' ++ [c].
Proof.
  intros Hc. induction l as [|x l IH]; simpl.
  - rewrite Hc. by exists [].
  - destruct (isspace x); [done|]. by exists (x :: l).
Qed.

Lemma last_rev_head (s : str) : last (rev s) = head s.
Proof. destruct s as [|c s]; [done|]. simpl. apply last_snoc. Qed.

Lemma strip_trimmed (s : str) : strip s <> [] -> trimmed (strip s).
Proof.
  unfold strip, rstrip. intros Hne. split; [done|].
  assert (solid (last (rev (lstrip (rev (lstrip s)))))) as Hlast.
  { rewrite last_rev_head. apply lstrip_head. }
  split; [|done].
  pose proof (lstrip_head s) as Hhead.
  destruct (lstrip s) as [|c u]; [done|].
  assert (isspace c = false) as Hc by (by apply Hhead).
  simpl rev. destruct (lstrip_snoc (rev u) c Hc) as [l' ->].
  rewrite rev_app_distr. simpl. by intros x [= <-].
Qed.

(** Leading whitespace goes, and nothing else. *)
Lemma lstrip_app_blank (l x : str) :
  blank l -> (forall c, head x = Some c -> ~ whitespace c) -> lstrip (l ++ x) = x.
Proof.
  intros Hl Hx. induction Hl as [|c l Hc _ IH]; simpl.
  - destruct x as [|c x]; [done|]. simpl.
    destruct (isspace c) eqn:Hc; [|done]. by destruct (Hx c).
  - by rewrite Hc.
Qed.

Lemma lstrip_split (s : str) : exists l, s = l ++ lstrip s /\ blank l.
Proof.
  induction s as [|c s (l & Hs & Hl)]; simpl.
  - exists []. split; [done|constructor].
  - destruct (isspace c) eqn:Hc.
    + exists (c :: l). split; [simpl; by rewrite <- Hs|by constructor].
    + exists []. split; [done|constructor].
Qed.

(** The trimmed text of the specification is what [strip] gives. *)
Lemma trim_of_strip (s m : str) : trim_of s m -> strip s = m.
Proof.
  intros (l & r & -> & Hl & Hr & Hhead & Hlast). unfold strip, rstrip.
  destruct m as [|c m].
  - rewrite (lstrip_blank (l ++ [] ++ r)); [done|]. by apply Forall_app_2.
  - rewrite (lstrip_app_blank l) by done.
    rewrite rev_app_distr, lstrip_app_blank; [apply rev_involutive|by apply Forall_rev|].
    intros x Hx. apply Hlast.
    by rewrite <- (last_rev_head (rev (c :: m))), rev_involutive in Hx.
Qed.

Lemma strip_trim_of (s : str) : trim_of s (strip s).
Proof.
  destruct (lstrip_split s) as (l & Hs & Hl).
  destruct (lstrip_split (rev (lstrip s))) as (r & Hr & Hrb).
  exists l, (rev r). split; [|split; [done|split; [by apply Forall_rev|]]].
  - unfold strip, rstrip. rewrite <- rev_app_distr, <- Hr, rev_involutive. exact Hs.
  - destruct (strip s) as [|c m] eqn:Hm; [by split|].
    destruct (strip_trimmed s) as (_ & Hhead & Hlast); [by rewrite Hm|].
    rewrite Hm in Hhead, Hlast.
    split; intros x Hx Hws; [apply Hhead in Hx|apply Hlast in Hx]; congruence.
Qed.

Lemma Forall2_trim_of (segs trims : list str) :
  Forall2 trim_of segs trims -> trims = map strip segs.
Proof.
  induction 1 as [|s m segs trims Hsm _ IH]; [done|].
  simpl. by rewrite (trim_of_strip s m Hsm), IH.
Qed.

(** *** Paragraph elements joined by newlines *)

Lemma join_newline_joined (l : list str) : join [LF] l = newline_joined l.
Proof.
  destruct l as [|x l]; [done|]. revert x.
  induction l as [|y l IH]; intros x.
  - simpl. by rewrite app_nil_r.
  - rewrite join_cons by done. rewrite IH. reflexivity.
Qed.

Lemma paragraph_p_element (p : str) : paragraph p = p_element p.
Proof. reflexivity. Qed.

(** The fallback of the script, in the words of the specification. *)
Lemma article_content_fallback (w : World) (article : Article)
    (segs trims : list str) :
  truthy (article_html article) = false ->
  blank_line_segments (text article) segs ->
  Forall2 trim_of segs trims ->
  article_content w article = paragraphs_of trims.
Proof.
  intros Habsent Hsegs Htrims.
  apply blank_line_segments_split in Hsegs. apply Forall2_trim_of in Htrims.
  unfold article_content, paragraphs_of.
  rewrite Habsent, filter_map_strip, join_newline_joined, Hsegs, <- Htrims.
  reflexivity.
Qed.

(** C6: for an article record whose structured body HTML is absent, the
    plain text has its segments (split on blank-line boundaries) and
    these their trimmed texts, and the normalizer gives exactly the
    paragraph elements of the trimmed segments that are not empty,
    joined by newlines, in the order of the text. *)
Theorem C6_plain_text_fallback (w : World) (article : Article) :
  truthy (article_html article) = false ->
  (exists segs trims,
     blank_line_segments (text article) segs /\ Forall2 trim_of segs trims)
  /\ forall segs trims,
       blank_line_segments (text article) segs ->
       Forall2 trim_of segs trims ->
       article_content w article
       = newline_joined (map p_element (List.filter non_empty trims)).
Proof.
  intros Habsent. split.
  - destruct (blank_line_segments_exist (text article)) as [segs Hsegs].
    exists segs, (map strip segs). split; [done|].
    clear Hsegs. induction segs as [|s segs IH]; constructor; [|done].
    apply strip_trim_of.
  - intros segs trims Hsegs Htrims.
    by apply (article_content_fallback w article segs trims).
Qed.

(** ** Running the monad *)

Lemma add_trace_nil st : add_trace st [] = st.
Proof. destruct st. unfold add_trace. simpl. by rewrite app_nil_r. Qed.

Lemma add_trace_app st t1 t2 :
  add_trace (add_trace st t1) t2 = add_trace st (t1 ++ t2).
Proof. unfold add_trace. simpl. by rewrite app_assoc. Qed.

Lemma emit_run e st : emit e st = (Val tt, add_trace st [e]).
Proof. reflexivity. Qed.

Lemma bind_run {A B} (m : M A) (f : A -> M B) st :
  (m ≫= f) st =
  match m st with
  | (Val a, st') => f a st'
  | (Exc e, st') => (Exc e, st')
  end.
Proof. reflexivity. Qed.

Lemma ret_run {A} (a : A) st : (mret a : M A) st = (Val a, st).
Proof. reflexivity. Qed.

Ltac run :=
  repeat (progress
            (rewrite ?bind_run, ?emit_run, ?ret_run;
             unfold log, sleep, raise, try_except;
             cbn beta iota;
             cbn [fst snd is_Exception is_RequestException])).

Lemma sleeps_app t1 t2 : sleeps (t1 ++ t2) = sleeps t1 ++ sleeps t2.
Proof. apply omap_app. Qed.

Lemma requests_app t1 t2 : requests (t1 ++ t2) = requests t1 ++ requests t2.
Proof. apply omap_app. Qed.

Lemma article_downloads_app t1 t2 :
  article_downloads (t1 ++ t2) = article_downloads t1 ++ article_downloads t2.
Proof. apply omap_app. Qed.

Lemma writes_app t1 t2 : writes (t1 ++ t2) = writes t1 ++ writes t2.
Proof. apply omap_app. Qed.

(** ** The article extractor *)

Section Extractor.

Variable w : World.
Variable url : str.

(** What the loop over [range(i, i + m)] of a call with [max_retries = n]
    does: [k] attempts, a wait of [2 ^ j] after each failed attempt [j]
    but the last one made, and the record of the last attempt if it
    succeeded. *)
Lemma for_attempt_spec (n : nat) :
  forall (m i : nat) (st : State),
    (i + m = n)%nat ->
    exists (k : nat) (r : option Article) (t : list event),
      for_attempt w url n (seq i m) st = (Val r, add_trace st t)
      /\ (k <= m)%nat /\ (0 < m -> 0 < k)%nat
      /\ article_downloads t = repeat url k
      /\ sleeps t = map backoff (seq i (k - 1))
      /\ (forall j, (i <= j < i + (k - 1))%nat -> exists e, newspaper w url j = Exc e)
      /\ r = match k with
             | O => None
             | S k' => match newspaper w url (i + k') with
                       | Val a => Some a
                       | Exc _ => None
                       end
             end
      /\ (r = None -> k = m).
Proof.
  induction m as [|m IH]; intros i st Him.
  - exists O, None, []. simpl. rewrite add_trace_nil.
    repeat split; auto with lia; intros; lia.
  - simpl seq. simpl for_attempt. run.
    unfold Article_download_parse at 1. fold (add_trace st [EvArticle url]).
    destruct (newspaper w url i) as [a|e] eqn:Hi.
    + exists 1%nat, (Some a), [EvArticle url]. run.
      replace (i + 0)%nat with i by lia. rewrite Hi.
      repeat split; auto with lia; try discriminate; simpl; intros; lia.
    + run. case_bool_decide as Hlast.
      * run. rewrite !add_trace_app. simpl app.
        exists 1%nat, None, [EvArticle url; EvLog ERROR; EvLog ERROR].
        replace (i + 0)%nat with i by lia. rewrite Hi.
        repeat split; auto with lia; simpl; intros; lia.
      * run. rewrite !add_trace_app. simpl app.
        destruct (IH (S i) (add_trace st [EvArticle url; EvLog WARNING;
                                          EvSleep (2 ^ N.of_nat i)]))
          as (k & r & t & Hrun & Hk & Hpos & Hdl & Hsl & Hfail & Hr & Hnone);
          [lia|].
        assert (0 < m)%nat as Hm by lia. specialize (Hpos Hm).
        exists (S k), r,
          ([EvArticle url; EvLog WARNING; EvSleep (2 ^ N.of_nat i)] ++ t).
        rewrite Hrun, add_trace_app.
        split; [reflexivity|].
        split; [lia|]. split; [lia|].
        split; [rewrite article_downloads_app, Hdl; reflexivity|].
        split.
        { rewrite sleeps_app, Hsl. simpl.
          destruct k as [|k]; [lia|]. simpl. rewrite Nat.sub_0_r. reflexivity. }
        split.
        { intros j Hj. destruct (decide (j = i)) as [->|Hne]; [eauto|].
          apply Hfail. lia. }
        split.
        { destruct k as [|k]; [lia|]. rewrite Hr.
          replace (i + S k)%nat with (S i + k)%nat by lia. reflexivity. }
        intros Hn. rewrite (Hnone Hn). reflexivity.
Qed.

End Extractor.

(** Three attempts at most, a wait of [2 ^ attempt] after each failed
    attempt but the third, [None] when the third fails: never an exception. *)
Lemma download_article_with_retry_spec (w : World) (url : str) (st : State) :
  exists (k : nat) (r : option Article) (t : list event),
    download_article_with_retry w url 3 st = (Val r, add_trace st t)
    /\ (1 <= k <= 3)%nat
    /\ article_downloads t = repeat url k
    /\ sleeps t = map backoff (seq 0 (k - 1))
    /\ (forall j, (j < k - 1)%nat -> exists e, newspaper w url j = Exc e)
    /\ r = match newspaper w url (k - 1) with
           | Val a => Some a
           | Exc _ => None
           end
    /\ (r = None -> k = 3%nat).
Proof.
  destruct (for_attempt_spec w url 3 3 0 st eq_refl)
    as (k & r & t & Hrun & Hk & Hpos & Hdl & Hsl & Hfail & Hr & Hnone).
  exists k, r, t. unfold download_article_with_retry.
  assert (0 < k)%nat as Hk1 by (apply Hpos; lia).
  repeat split; try assumption; try lia.
  - intros j Hj. apply Hfail. lia.
  - destruct k as [|k]; [lia|]. simpl in Hr. rewrite Hr.
    replace (S k - 1)%nat with k by lia. reflexivity.
Qed.

(** C3, as the code has it: the extractor makes up to 3 attempts per URL,
    each an independent fetch and parse, and any exception is a failed
    attempt; after failed attempt number [attempt] (counted from 0) other
    than the last it waits [2 ^ attempt] seconds, so the waits are 1 s and
    then 2 s, with no wait after the third attempt; when the third attempt
    fails it returns [None], and it never raises. *)
Theorem C3_extractor_retry (w : World) (url : str) (st : State) :
  exists (k : nat) (r : option Article) (t : list event),
    download_article_with_retry w url 3 st = (Val r, add_trace st t)
    /\ (1 <= k <= 3)%nat
    /\ article_downloads t = repeat url k
    /\ sleeps t = take (k - 1) [1; 2]
    /\ (forall j, (j < k - 1)%nat -> exists e, newspaper w url j = Exc e)
    /\ r = match newspaper w url (k - 1) with
           | Val a => Some a
           | Exc _ => None
           end
    /\ (r = None -> k = 3%nat).
Proof.
  destruct (download_article_with_retry_spec w url st)
    as (k & r & t & Hrun & Hk & Hdl & Hsl & Hfail & Hr & Hnone).
  exists k, r, t. repeat split; try assumption; try lia.
  rewrite Hsl. destruct Hk as [Hk1 Hk3].
  destruct k as [|[|[|[|k]]]]; try lia; reflexivity.
Qed.

(** C3 as stated fails: when all three attempts fail the waits are 1 s and
    2 s, not 0 s, 2 s and 4 s; the first retry is not immediate. *)
Lemma C3_waits_counterexample :
  let t := trace (download_article_with_retry w_offline (py "a1") 3
                    (fresh (fun _ => O))).2 in
  sleeps t = [1; 2] /\ head (sleeps t) <> Some 0 /\ sleeps t <> [0; 2; 4].
Proof. vm_compute. repeat split; discriminate. Qed.

(** ** The retrying fetcher *)

Lemma sleep_backoff_run (retries : Retry) (errors : nat) (st : State) :
  sleep_backoff retries errors st = (Val tt, add_trace st (backoff_events retries errors)).
Proof.
  unfold sleep_backoff, backoff_events.
  destruct (get_backoff_time retries errors =? 0); [|reflexivity].
  by rewrite ret_run, add_trace_nil.
Qed.

Lemma Retry_sleep_run (retries : Retry) (errors : nat) (h : retry_after_header)
    (st : State) :
  Retry_sleep retries errors h st
  = (if sleep_returns h then Val tt else Exc RequestException,
     add_trace st (sleep_events retries errors h)).
Proof.
  destruct h as [| | |secs]; cbn [Retry_sleep sleep_events sleep_returns].
  - apply sleep_backoff_run.
  - unfold raise. by rewrite add_trace_nil.
  - unfold raise. by rewrite add_trace_nil.
  - destruct (secs =? 0); [apply sleep_backoff_run|reflexivity].
Qed.

Lemma backoff_events_quiet (retries : Retry) (errors : nat) :
  requests (backoff_events retries errors) = []
  /\ article_downloads (backoff_events retries errors) = []
  /\ writes (backoff_events retries errors) = [].
Proof. unfold backoff_events. by destruct (_ =? _). Qed.

Lemma sleep_events_quiet (retries : Retry) (errors : nat) (h : retry_after_header) :
  requests (sleep_events retries errors h) = []
  /\ article_downloads (sleep_events retries errors h) = []
  /\ writes (sleep_events retries errors h) = [].
Proof.
  destruct h as [| | |secs]; cbn [sleep_events]; try done.
  - apply backoff_events_quiet.
  - destruct (secs =? 0); [apply backoff_events_quiet|done].
Qed.

(** Whatever the server answers: with [left] retries to go the adapter
    sends at least one and at most [left + 1] requests, downloads and
    writes nothing, and raises nothing but a [RequestException]; what it
    gives does not depend on the state it starts from. *)
Lemma urlopen_indep (w : World) (retries : Retry) (url : str) :
  forall (left sent : nat) (st st0 : State),
    exists (t : list event) (k : nat),
      urlopen w retries url left sent st
      = ((urlopen w retries url left sent st0).1, add_trace st t)
      /\ article_downloads t = [] /\ writes t = []
      /\ (forall e, (urlopen w retries url left sent st0).1 = Exc e ->
                    e = RequestException)
      /\ requests t = repeat url k /\ (1 <= k <= S left)%nat.
Proof.
  assert (forall st : State, exists t k,
            (@Exc Response RequestException, add_trace st [EvRequest url])
            = (Exc RequestException, add_trace st t)
            /\ article_downloads t = [] /\ writes t = []
            /\ (forall e, @Exc Response RequestException = Exc e -> e = RequestException)
            /\ requests t = repeat url k /\ (1 <= k <= 1)%nat) as Hraise.
  { intros st. exists [EvRequest url], 1%nat.
    repeat split; try done. by intros e [= <-]. }
  assert (forall (st : State) (r : Response), exists t k,
            (Val r, add_trace st [EvRequest url]) = (Val r, add_trace st t)
            /\ article_downloads t = [] /\ writes t = []
            /\ (forall e, Val r = Exc e -> e = RequestException)
            /\ requests t = repeat url k /\ (1 <= k <= 1)%nat) as Hval.
  { intros st r. exists [EvRequest url], 1%nat. repeat split; done. }
  induction left as [|left IH]; intros sent st st0; cbn [urlopen]; run.
  - destruct (http w url sent) as [r|]; [destruct (is_retry _ _ _ _)|]; run.
    + destruct (Hraise st) as (t & k & ? & ? & ? & ? & ? & ?).
      exists t, k. repeat split; auto; lia.
    + destruct (Hval st r) as (t & k & ? & ? & ? & ? & ? & ?).
      exists t, k. repeat split; auto; lia.
    + destruct (Hraise st) as (t & k & ? & ? & ? & ? & ? & ?).
      exists t, k. repeat split; auto; lia.
  - assert (forall (ev : list event) (st1 st2 : State),
              requests ev = [] -> article_downloads ev = [] -> writes ev = [] ->
              st1 = add_trace (add_trace st [EvRequest url]) ev ->
              st2 = add_trace (add_trace st0 [EvRequest url]) ev ->
              exists t k,
                urlopen w retries url left (S sent) st1
                = ((urlopen w retries url left (S sent) st2).1, add_trace st t)
                /\ article_downloads t = [] /\ writes t = []
                /\ (forall e, (urlopen w retries url left (S sent) st2).1 = Exc e ->
                              e = RequestException)
                /\ requests t = repeat url k /\ (1 <= k <= S (S left))%nat) as Hnext.
    { intros ev st1 st2 Hr Hd Hw -> ->.
      destruct (IH (S sent) (add_trace (add_trace st [EvRequest url]) ev)
                  (add_trace (add_trace st0 [EvRequest url]) ev))
        as (t & k & Hrun & Hdl & Hwr & Hexc & Hreq & Hk).
      exists ([EvRequest url] ++ ev ++ t), (S k).
      split; [by rewrite Hrun, !add_trace_app|].
      rewrite !article_downloads_app, !writes_app, !requests_app, Hd, Hw, Hr, Hdl, Hwr, Hreq.
      simpl. repeat split; auto; lia. }
    destruct (http w url sent) as [r|]; [destruct (is_retry _ _ _ _)|]; run.
    + rewrite !Retry_sleep_run.
      destruct (sleep_events_quiet retries (S sent) (retry_after w url sent))
        as (Hr & Hd & Hw).
      destruct (sleep_returns (retry_after w url sent)).
      * by eapply Hnext.
      * exists ([EvRequest url] ++ sleep_events retries (S sent) (retry_after w url sent)),
          1%nat.
        rewrite add_trace_app. split; [reflexivity|].
        rewrite article_downloads_app, writes_app, requests_app, Hr, Hd, Hw.
        repeat split; auto; try lia. by intros e [= <-].
    + destruct (Hval st r) as (t & k & ? & ? & ? & ? & ? & ?).
      exists t, k. repeat split; auto; lia.
    + rewrite !sleep_backoff_run.
      destruct (backoff_events_quiet retries (S sent)) as (Hr & Hd & Hw).
      by eapply Hnext.
Qed.

(** One request of the adapter, and what follows it. *)
Lemma urlopen_eq (w : World) (retries : Retry) (url : str) (left sent : nat) :
  urlopen w retries url left sent =
  (emit (EvRequest url);;
   match http w url sent with
   | Answer r =>
       if is_retry retries left (status_code r) (retry_after w url sent)
       then match left with
            | O => raise RequestException
            | S left' =>
                Retry_sleep retries (S sent) (retry_after w url sent);;
                urlopen w retries url left' (S sent)
            end
       else mret r
   | RequestFailed =>
       match left with
       | O => raise RequestException
       | S left' =>
           sleep_backoff retries (S sent);; urlopen w retries url left' (S sent)
       end
   end).
Proof. destruct left; reflexivity. Qed.

(** The adapter begins with a request. *)
Lemma urlopen_first (w : World) (retries : Retry) (url : str) (left sent : nat)
    (st : State) :
  exists t, trace (urlopen w retries url left sent st).2 = trace st ++ EvRequest url :: t.
Proof.
  rewrite urlopen_eq. run.
  assert (forall (ev : list event) (left' : nat),
            exists t,
              trace (urlopen w retries url left' (S sent)
                       (add_trace (add_trace st [EvRequest url]) ev)).2
              = trace st ++ EvRequest url :: t) as Hnext.
  { intros ev left'.
    destruct (urlopen_indep w retries url left' (S sent)
                (add_trace (add_trace st [EvRequest url]) ev) (fresh (fun _ => O)))
      as (t & k & -> & _).
    exists (ev ++ t). cbn [snd add_trace trace]. by rewrite <- !app_assoc. }
  destruct (http w url sent) as [r|]; [destruct (is_retry _ _ _ _)|];
    [destruct left as [|left']|
    |destruct left as [|left']]; run; try by exists [].
  - rewrite Retry_sleep_run. destruct (sleep_returns _); [apply Hnext|].
    eexists. cbn [snd add_trace trace]. by rewrite <- !app_assoc.
  - rewrite sleep_backoff_run. apply Hnext.
Qed.

Lemma is_retry_no_header (retries : Retry) (left : nat) (status : N) :
  is_retry retries left status NoRetryAfter
  = bool_decide (status ∈ status_forcelist retries).
Proof.
  unfold is_retry. cbn [has_retry_after].
  by rewrite andb_false_r, orb_false_r.
Qed.

Lemma urlopen_unfold (w : World) (retries : Retry) (url : str) (left sent : nat) :
  retry_after w url sent = NoRetryAfter ->
  urlopen w retries url left sent =
  (emit (EvRequest url);;
   if retried retries (http w url sent)
   then match left with
        | O => raise RequestException
        | S left' =>
            sleep_backoff retries (S sent);; urlopen w retries url left' (S sent)
        end
   else match http w url sent with
        | Answer r => mret r
        | RequestFailed => raise RequestException
        end).
Proof.
  intros Hh. destruct left; cbn [urlopen]; unfold retried;
    destruct (http w url sent) as [r|]; try reflexivity;
    rewrite Hh, is_retry_no_header; cbn [Retry_sleep];
    destruct (bool_decide _); reflexivity.
Qed.

Lemma waits_S (retries : Retry) (sent n : nat) :
  waits retries sent (S n)
  = sleeps (backoff_events retries (S sent)) ++ waits retries (S sent) n.
Proof.
  unfold waits, backoff_events. cbn [seq map List.filter].
  by destruct (get_backoff_time retries (S sent) =? 0).
Qed.

(** Against a server that sends no [Retry-After] header: with [left]
    retries to go, the adapter sends [k <= left + 1] requests, waits the
    backoff before each retry, and stops at the first attempt that is not
    to be retried, or when the retries are spent. *)
Lemma urlopen_spec (w : World) (retries : Retry) (url : str) :
  no_retry_after w url ->
  forall (left sent : nat) (st : State),
    exists (k : nat) (t : list event),
      urlopen w retries url left sent st
      = (answer_of retries (http w url (sent + (k - 1))), add_trace st t)
      /\ (1 <= k <= S left)%nat
      /\ requests t = repeat url k
      /\ sleeps t = waits retries sent (k - 1)
      /\ (forall j, (sent <= j < sent + (k - 1))%nat ->
                    retried retries (http w url j) = true)
      /\ (retried retries (http w url (sent + (k - 1))) = true -> k = S left).
Proof.
  intros Hh.
  induction left as [|left IH]; intros sent st;
    rewrite (urlopen_unfold w retries url _ sent (Hh sent)); run.
  - exists 1%nat, [EvRequest url].
    replace (sent + (1 - 1))%nat with sent by lia.
    destruct (retried retries (http w url sent)) eqn:Hre.
    + split.
      { unfold answer_of. rewrite Hre. by destruct (http w url sent). }
      repeat split; auto with lia; simpl; intros; lia.
    + split.
      { unfold answer_of. rewrite Hre. by destruct (http w url sent). }
      repeat split; auto with lia; simpl; intros; try lia; discriminate.
  - destruct (retried retries (http w url sent)) eqn:Hre.
    + run. rewrite sleep_backoff_run, add_trace_app.
      destruct (IH (S sent)
                  (add_trace st ([EvRequest url] ++ backoff_events retries (S sent))))
        as (k & t & Hrun & Hk & Hreq & Hsl & Hfail & Hlast).
      exists (S k), (([EvRequest url] ++ backoff_events retries (S sent)) ++ t).
      destruct k as [|k]; [lia|].
      replace (sent + (S (S k) - 1))%nat with (S sent + (S k - 1))%nat by lia.
      rewrite Hrun, add_trace_app.
      destruct (backoff_events_quiet retries (S sent)) as (Hbr & _ & _).
      split; [reflexivity|]. split; [lia|].
      split; [rewrite !requests_app, Hreq, Hbr; reflexivity|].
      split.
      { rewrite !sleeps_app, Hsl. simpl sleeps at 1.
        replace (S (S k) - 1)%nat with (S (S k - 1)) by lia.
        by rewrite waits_S. }
      split.
      { intros j Hj. destruct (decide (j = sent)) as [->|Hne]; [done|].
        apply Hfail. lia. }
      intros Hr. rewrite (Hlast Hr). reflexivity.
    + exists 1%nat, [EvRequest url].
      replace (sent + (1 - 1))%nat with sent by lia.
      split.
      { unfold answer_of. rewrite Hre. by destruct (http w url sent). }
      repeat split; auto with lia; simpl; intros; try lia; congruence.
Qed.

Lemma adapters_of_feed_session :
  adapters create_session_with_retries
  = [(py "https://", feed_adapter); (py "http://", feed_adapter)].
Proof. reflexivity. Qed.

(** A session with the two mounts has an adapter for the URLs of the
    two schemes, and for no other. *)
Lemma get_adapter_scheme (s : Session) (url : str) (a : HTTPAdapter) :
  adapters s = [(py "https://", a); (py "http://", a)] ->
  get_adapter s (prepare_url url) = if http_or_https url then Some a else None.
Proof.
  intros Hs. unfold get_adapter, http_or_https. rewrite Hs.
  cbn [List.find fst snd].
  change (lower (py "https://")) with (py "https://").
  change (lower (py "http://")) with (py "http://").
  destruct (startswith (py "https://") (lower (prepare_url url)));
    [by rewrite orb_true_r|].
  rewrite orb_false_r.
  by destruct (startswith (py "http://") (lower (prepare_url url))).
Qed.

Lemma get_adapter_feed_session (url : str) :
  http_or_https url = true ->
  get_adapter create_session_with_retries (prepare_url url) = Some feed_adapter.
Proof.
  intros H.
  by rewrite (get_adapter_scheme _ url feed_adapter adapters_of_feed_session), H.
Qed.

(** The waits of the feed's session: none before the first retry, then
    2, 4, 8 and 16 s. *)
Lemma waits_feed_retries (k : nat) :
  (1 <= k <= 6)%nat -> waits feed_retries 0 (k - 1) = take (k - 2) [2; 4; 8; 16].
Proof.
  intros [Hk1 Hk6].
  destruct k as [|[|[|[|[|[|[|k]]]]]]]; try lia; reflexivity.
Qed.

(** The [get] of the feed's session against a server that sends no
    [Retry-After] header: up to 6 requests (5 retries). *)
Lemma session_get_spec (w : World) (url : str) (st : State) :
  http_or_https url = true ->
  no_retry_after w url ->
  exists (k : nat) (t : list event),
    session_get w create_session_with_retries url st
    = (answer_of feed_retries (http w url (k - 1)), add_trace st t)
    /\ (1 <= k <= 6)%nat
    /\ requests t = repeat url k
    /\ sleeps t = take (k - 2) [2; 4; 8; 16]
    /\ (forall j, (j < k - 1)%nat -> retried feed_retries (http w url j) = true)
    /\ (retried feed_retries (http w url (k - 1)) = true -> k = 6%nat).
Proof.
  intros Hurl Hh. unfold session_get. rewrite (get_adapter_feed_session url Hurl).
  change (max_retries feed_adapter) with feed_retries.
  change (total feed_retries) with 5%nat.
  destruct (urlopen_spec w feed_retries url Hh 5 0 st)
    as (k & t & Hrun & Hk & Hreq & Hsl & Hfail & Hlast).
  exists k, t. rewrite Nat.add_0_l in Hrun, Hlast. rewrite Hrun.
  split; [reflexivity|]. split; [lia|]. split; [assumption|].
  split; [by rewrite Hsl, waits_feed_retries|].
  split; [|exact Hlast].
  intros j Hj. apply Hfail. lia.
Qed.

(** Whatever the server answers, the [get] of the feed's session sends
    at most 6 requests, and none for a URL of another scheme. *)
Lemma session_get_bound (w : World) (url : str) (st : State) :
  exists (t : list event) (k : nat),
    (session_get w create_session_with_retries url st).2 = add_trace st t
    /\ requests t = repeat url k
    /\ (k <= 6)%nat
    /\ (http_or_https url = true -> 1 <= k)%nat
    /\ (http_or_https url = false -> k = O).
Proof.
  unfold session_get.
  rewrite (get_adapter_scheme _ url feed_adapter adapters_of_feed_session).
  destruct (http_or_https url).
  - change (max_retries feed_adapter) with feed_retries.
    change (total feed_retries) with 5%nat.
    destruct (urlopen_indep w feed_retries url 5 0 st (fresh (fun _ => O)))
      as (t & k & -> & _ & _ & _ & Hreq & Hk).
    exists t, k. repeat split; auto; try lia; discriminate.
  - exists [], O. unfold raise. cbn [snd]. rewrite add_trace_nil.
    repeat split; auto; try lia; discriminate.
Qed.

(** C8, as the code has it: the session the feed is fetched with has one
    retrying adapter mounted for both the http and the https scheme,
    configured with 5 retries, [backoff_factor = 1] and the statuses 500,
    502, 503 and 504; a [get] makes up to 5 retries, that is up to 6
    attempts in total, whatever the server answers; and against a server
    that sends no [Retry-After] header it retries after a failed request
    and after a response with one of these statuses, and after no other
    response: it stops at the first attempt that is neither, giving that
    response, and raises when the sixth attempt is still one of them. *)
Theorem C8_fetcher_retry (w : World) (url : str) (st : State) :
  http_or_https url = true ->
  (adapters create_session_with_retries
   = [(py "https://", feed_adapter); (py "http://", feed_adapter)]
   /\ total feed_retries = 5%nat
   /\ backoff_factor feed_retries = 1
   /\ status_forcelist feed_retries = [500; 502; 503; 504])
  /\ (forall a, retried feed_retries a = true <->
                a = RequestFailed
                \/ exists r, a = Answer r /\ status_code r ∈ [500; 502; 503; 504])
  /\ (exists (t : list event) (k : nat),
        (session_get w create_session_with_retries url st).2 = add_trace st t
        /\ requests t = repeat url k
        /\ (1 <= k <= 6)%nat)
  /\ (no_retry_after w url ->
      exists (k : nat) (t : list event),
        session_get w create_session_with_retries url st
        = (answer_of feed_retries (http w url (k - 1)), add_trace st t)
        /\ (1 <= k <= 6)%nat
        /\ requests t = repeat url k
        /\ (forall j, (j < k - 1)%nat -> retried feed_retries (http w url j) = true)
        /\ (retried feed_retries (http w url (k - 1)) = true -> k = 6%nat)).
Proof.
  intros Hurl.
  split; [by split; [apply adapters_of_feed_session|]|].
  split.
  { intros [r|]; simpl.
    - rewrite bool_decide_eq_true. split.
      + intros Hin. right. eauto.
      + intros [Hno|(r' & Hr' & Hin)]; [discriminate|]. by injection Hr' as ->.
    - split; auto. }
  split.
  { destruct (session_get_bound w url st) as (t & k & Hrun & Hreq & Hk & Hpos & _).
    exists t, k. specialize (Hpos Hurl). repeat split; auto. }
  intros Hh.
  destruct (session_get_spec w url st Hurl Hh)
    as (k & t & Hrun & Hk & Hreq & _ & Hfail & Hlast).
  exists k, t. repeat split; try assumption; lia.
Qed.

Lemma C8_fetcher_retry_witness :
  http_or_https feed_url = true
  /\ no_retry_after w_five feed_url
  /\ exists (k : nat) (t : list event),
      session_get w_five create_session_with_retries feed_url (fresh (fun _ => O))
      = (answer_of feed_retries (http w_five feed_url (k - 1)),
         add_trace (fresh (fun _ => O)) t)
      /\ (1 <= k <= 6)%nat
      /\ requests t = repeat feed_url k
      /\ (forall j, (j < k - 1)%nat ->
                    retried feed_retries (http w_five feed_url j) = true)
      /\ (retried feed_retries (http w_five feed_url (k - 1)) = true -> k = 6%nat).
Proof.
  split; [reflexivity|]. split; [intros k; reflexivity|].
  exact (proj2 (proj2 (proj2
    (C8_fetcher_retry w_five feed_url (fresh (fun _ => O)) eq_refl)))
    (fun k => eq_refl)).
Defined.

(** C8 as stated fails: against a server that always answers 503 the
    session sends 6 requests, not at most 5. *)
Lemma C8_attempts_counterexample :
  let t := trace (session_get w_unavailable create_session_with_retries
                    feed_url (fresh (fun _ => O))).2 in
  requests t = repeat feed_url 6
  /\ length (requests t) = 6%nat
  /\ ~ (length (requests t) <= 5)%nat.
Proof. vm_compute. repeat split; try reflexivity. intros H. lia. Qed.

(** ** One item *)

Lemma quiet_refl st : quiet st st.
Proof. split; auto. Qed.

Lemma quiet_trans st1 st2 st3 : quiet st1 st2 -> quiet st2 st3 -> quiet st1 st3.
Proof. intros [H1 H2] [H3 H4]. split; [congruence|auto]. Qed.

Lemma quiet_add_trace st t : writes t = [] -> quiet st (add_trace st t).
Proof.
  intros Ht. split; simpl; [|auto]. by rewrite writes_app, Ht, app_nil_r.
Qed.

Lemma article_parse_run (w : World) (url : str) (attempt : nat) (st : State) :
  Article_download_parse w url attempt st
  = (newspaper w url attempt, add_trace st [EvArticle url]).
Proof. reflexivity. Qed.

Lemma download_article_run (w : World) (url : str) (st : State) :
  exists t,
    download_article_with_retry w url 3 st = (Val (extracted w url), add_trace st t)
    /\ writes t = [] /\ requests t = [].
Proof.
  unfold download_article_with_retry, extracted. simpl seq. simpl for_attempt.
  run. rewrite article_parse_run.
  destruct (newspaper w url 0); run; [eexists [_]; repeat split|].
  rewrite article_parse_run.
  destruct (newspaper w url 1); run;
    [rewrite !add_trace_app; eexists; repeat split; reflexivity|].
  rewrite article_parse_run.
  destruct (newspaper w url 2); run;
    rewrite !add_trace_app; eexists; repeat split; reflexivity.
Qed.

Lemma random_letters_run (n : nat) :
  forall st,
    random_letters n st
    = (Val (letters n (rng st)),
       {| fs := fs st; rng := advance n (rng st); trace := trace st |}).
Proof.
  induction n as [|n IH]; intros st; simpl.
  - rewrite ret_run. by destruct st.
  - rewrite bind_run. unfold random_choice at 1. rewrite bind_run, IH.
    reflexivity.
Qed.

Lemma get_adapter_default (url : str) (a : HTTPAdapter) :
  get_adapter requests_Session url = Some a -> a = default_adapter.
Proof.
  unfold get_adapter, requests_Session. cbn [adapters List.find fst snd].
  destruct (startswith (lower (py "https://")) (lower url)); [by intros [= <-]|].
  destruct (startswith (lower (py "http://")) (lower url)); [by intros [= <-]|].
  discriminate.
Qed.

(** The request of a capture: no retry, no wait. The one request is
    answered with a status that is not an error, or the capture returns
    [None] after at most that request. *)
Lemma image_request_run (w : World) (url : str) (st : State) :
  match get_adapter requests_Session (prepare_url url) with
  | None => requests_get w url st = (Exc RequestException, st)
  | Some _ =>
      requests_get w url st
      = (match http w url 0 with
         | Answer r => Val r
         | RequestFailed => Exc RequestException
         end, add_trace st [EvRequest url])
  end.
Proof.
  unfold requests_get, session_get.
  destruct (get_adapter requests_Session (prepare_url url)) as [a|] eqn:Ha;
    [|reflexivity].
  apply get_adapter_default in Ha. subst a.
  change (max_retries default_adapter)
    with {| total := 0; backoff_factor := 0; status_forcelist := [] |}.
  cbn [total urlopen]. run.
  destruct (http w url 0) as [r|]; [|reflexivity].
  unfold is_retry. cbn [status_forcelist Nat.eqb negb andb].
  rewrite bool_decide_eq_false_2 by (intros Hin; inversion Hin).
  reflexivity.
Qed.

(** The capture, case by case: [None] after at most one request when
    the request fails; else, after the name was drawn, the name of the
    scratch file it wrote, or the exception of a copy that fails. *)
Lemma download_image_eq (w : World) (url : str) (st : State) :
  download_image w url st
  = if image_answered w url
    then (match copyfile w url with
          | CopyWhole => Val (Some (scratch_name (rng st)))
          | OpenFails => Exc OSError
          | StreamBreaks _ => Exc ProtocolError
          end,
          {| fs := with_scratch (scratch_name (rng st)) (capture_file w url) (fs st);
             rng := advance 10 (rng st);
             trace := trace st ++ [EvRequest url] |})
    else (Val None,
          add_trace st
            match get_adapter requests_Session (prepare_url url) with
            | Some _ => [EvRequest url; EvLog STDOUT]
            | None => [EvLog STDOUT]
            end).
Proof.
  unfold image_answered, capture_file, image_body, download_image.
  unfold try_except at 1. rewrite bind_run.
  pose proof (image_request_run w url st) as Hreq.
  destruct (get_adapter requests_Session (prepare_url url)) as [a|]; rewrite Hreq;
    [|by run].
  destruct (http w url 0) as [r|]; [|run; by rewrite add_trace_app].
  unfold raise_for_status.
  destruct ((400 <=? status_code r) && (status_code r <? 600)); run;
    [by rewrite add_trace_app|].
  rewrite random_letters_run. unfold copyfileobj.
  destruct (copyfile w url) as [| |copied]; run; unfold write_file; run; reflexivity.
Qed.

Lemma download_image_run (w : World) (url : str) (st : State) :
  (image_ok w url = true ->
   download_image w url st
   = (Val (Some (scratch_name (rng st))),
      {| fs := <[scratch_name (rng st) := Bytes (image_body w url)]> (fs st);
         rng := advance 10 (rng st);
         trace := trace st ++ [EvRequest url] |}))
  /\ (image_answered w url = false ->
      exists t, download_image w url st = (Val None, add_trace st t)
                /\ (t = [EvLog STDOUT] \/ t = [EvRequest url; EvLog STDOUT]))
  /\ (image_answered w url = true -> image_ok w url = false ->
      exists e,
        download_image w url st
        = (Exc e,
           {| fs := with_scratch (scratch_name (rng st)) (capture_file w url) (fs st);
              rng := advance 10 (rng st);
              trace := trace st ++ [EvRequest url] |})
        /\ (e = OSError \/ e = ProtocolError)).
Proof.
  rewrite download_image_eq. unfold image_ok, capture_file.
  destruct (image_answered w url); cbn [andb].
  - split; [|split; [discriminate|]].
    + by destruct (copyfile w url).
    + intros _. destruct (copyfile w url); [discriminate|..]; intros _; eauto.
  - split; [discriminate|]. split; [|discriminate]. intros _.
    eexists. split; [reflexivity|].
    destruct (get_adapter _ _); auto.
Qed.

Lemma quiet_scratch st name body t :
  writes t = [] ->
  quiet st {| fs := with_scratch name body (fs st); rng := advance 10 (rng st);
              trace := trace st ++ t |}.
Proof.
  intros Ht. split; simpl.
  - by rewrite writes_app, Ht, app_nil_r.
  - intros p book. destruct body as [b|]; [|done]. simpl.
    destruct (decide (name = p)) as [->|Hne].
    + rewrite lookup_insert_eq. discriminate.
    + by rewrite lookup_insert_ne.
Qed.

Lemma open_rb_scratch (w : World) name body files draws t :
  open_rb w (Some name)
    {| fs := <[name := Bytes body]> files; rng := draws; trace := t |}
  = (Val body, {| fs := <[name := Bytes body]> files; rng := draws; trace := t |}).
Proof. unfold open_rb. cbn [fs]. by rewrite lookup_insert_eq. Qed.

Lemma open_rb_None (w : World) st : open_rb w None st = (Exc TypeError, st).
Proof. reflexivity. Qed.

(** The guarded part of the loop body: a chapter when the image was
    captured; when it was not, [open(None)] raises, the handler logs, and
    the book and the chapter list stay as they were. *)
Lemma build_chapter_run (w : World) (url cat : str) (a : Article)
    (book : EpubBook) (chapters : list EpubHtml) (st : State) :
  (image_ok w (top_img a) = true ->
   exists st' path body,
     build_chapter w url cat a book chapters st
     = (Val (add_item (HtmlItem (chapter_of w a cat (Some path)))
               (add_item (EpubItem path path (py "image/jpeg") body) book),
             chapters ++ [chapter_of w a cat (Some path)]), st')
     /\ quiet st st')
  /\ (image_ok w (top_img a) = false ->
      exists st',
        build_chapter w url cat a book chapters st = (Val (book, chapters), st')
        /\ quiet st st').
Proof.
  unfold build_chapter. run.
  destruct (download_image_run w (top_img a) st) as (Hok & Hfail & Hcopy).
  split; intros Himg.
  - rewrite (Hok Himg). run. rewrite open_rb_scratch. run.
    eexists _, _, _. split; [reflexivity|].
    by apply (quiet_scratch st _ (Some _)).
  - destruct (image_answered w (top_img a)) eqn:Hans.
    + destruct (Hcopy eq_refl Himg) as (e & -> & _). run.
      eexists. split; [reflexivity|].
      unfold add_trace. cbn [fs rng trace]. rewrite <- app_assoc.
      by apply quiet_scratch.
    + destruct (Hfail eq_refl) as (t & -> & Ht).
      run. rewrite open_rb_None. run. eexists. split; [reflexivity|].
      rewrite add_trace_app. apply quiet_add_trace.
      by destruct Ht as [-> | ->].
Qed.

(** One turn of the loop, by the verdict on its item. *)
Lemma loop_body_run (w : World) (url cat : str) (book : EpubBook)
    (chapters : list EpubHtml) (st : State) :
  match classify w url with
  | Skipped =>
      exists st', loop_body w url cat book chapters st = (Val (book, chapters), st')
                  /\ quiet st st'
  | Crashed =>
      exists st', loop_body w url cat book chapters st = (Exc AttributeError, st')
                  /\ quiet st st'
  | Kept a =>
      exists st' path body,
        loop_body w url cat book chapters st
        = (Val (add_item (HtmlItem (chapter_of w a cat (Some path)))
                  (add_item (EpubItem path path (py "image/jpeg") body) book),
                chapters ++ [chapter_of w a cat (Some path)]), st')
        /\ quiet st st'
  end.
Proof.
  unfold classify, loop_body. rewrite bind_run.
  destruct (download_article_run w url st) as (t & -> & Hw & _).
  destruct (extracted w url) as [a|].
  - unfold publish_date_date. destruct (publish_date a) as [d|]; run.
    + case_bool_decide as Hday.
      * run. eexists. split; [reflexivity|].
        rewrite add_trace_app. apply quiet_add_trace. by rewrite writes_app, Hw.
      * assert (quiet st (add_trace (add_trace st t) [EvLog STDOUT])) as Hq.
        { rewrite add_trace_app. apply quiet_add_trace. by rewrite writes_app, Hw. }
        destruct (build_chapter_run w url cat a book chapters
                    (add_trace (add_trace st t) [EvLog STDOUT])) as [Hok Hfail].
        destruct (image_ok w (top_img a)).
        -- destruct (Hok eq_refl) as (st' & path & body & -> & Hq').
           eexists _, _, _. split; [reflexivity|]. by eapply quiet_trans.
        -- destruct (Hfail eq_refl) as (st' & -> & Hq').
           eexists. split; [reflexivity|]. by eapply quiet_trans.
    + eexists. split; [reflexivity|]. by apply quiet_add_trace.
  - run. eexists. split; [reflexivity|].
    rewrite add_trace_app. apply quiet_add_trace. by rewrite writes_app, Hw.
Qed.

(** ** The loop over the articles *)

Lemma chapters_of_items_add (i : item) (book : EpubBook) :
  chapters_of_items (items (add_item i book))
  = chapters_of_items (items book)
    ++ match i with HtmlItem c => [c] | _ => [] end.
Proof.
  unfold chapters_of_items. simpl. rewrite omap_app. by destruct i.
Qed.

(** When an item crashes, the loop raises: nothing catches the exception. *)
Lemma for_articles_crash (w : World) :
  forall (articles : list (str * str)) (book : EpubBook)
         (chapters : list EpubHtml) (st : State),
    crashes w articles = true ->
    exists st',
      for_articles w articles book chapters st = (Exc AttributeError, st')
      /\ quiet st st'.
Proof.
  induction articles as [|[url cat] articles IH]; intros book chapters st Hc;
    [discriminate|].
  simpl in Hc. simpl for_articles. rewrite bind_run.
  pose proof (loop_body_run w url cat book chapters st) as Hbody.
  destruct (classify w url) as [| |a] eqn:Hv; simpl in Hc.
  - destruct Hbody as (st1 & -> & Hq1).
    destruct (IH book chapters st1 Hc) as (st' & Hrun & Hq).
    simpl. rewrite Hrun. eexists. split; [reflexivity|]. by eapply quiet_trans.
  - destruct Hbody as (st1 & -> & Hq1). eauto.
  - destruct Hbody as (st1 & path & body & -> & Hq1).
    edestruct IH as (st' & Hrun & Hq); [exact Hc|].
    simpl. rewrite Hrun. eexists. split; [reflexivity|]. by eapply quiet_trans.
Qed.

Lemma kept_cons (w : World) (url cat : str) (articles : list (str * str)) :
  kept w ((url, cat) :: articles)
  = match classify w url with
    | Kept a => (a, cat) :: kept w articles
    | _ => kept w articles
    end.
Proof. unfold kept. simpl. by destruct (classify w url). Qed.

(** When no item crashes, the loop appends one chapter for each kept
    article, in the order of the list, and adds them to the book in that
    order. *)
Lemma for_articles_kept (w : World) :
  forall (articles : list (str * str)) (book : EpubBook)
         (chapters : list EpubHtml) (st : State),
    crashes w articles = false ->
    exists st' book' new,
      for_articles w articles book chapters st = (Val (book', chapters ++ new), st')
      /\ quiet st st'
      /\ Forall2 (chapter_from w) (kept w articles) new
      /\ chapters_of_items (items book') = chapters_of_items (items book) ++ new.
Proof.
  induction articles as [|[url cat] articles IH]; intros book chapters st Hc.
  - exists st, book, []. simpl. rewrite !app_nil_r.
    repeat split; auto using quiet_refl.
  - simpl in Hc. apply orb_false_elim in Hc as [Hhd Htl].
    simpl for_articles. rewrite bind_run, kept_cons.
    pose proof (loop_body_run w url cat book chapters st) as Hbody.
    destruct (classify w url) as [| |a] eqn:Hv; [|discriminate|].
    + destruct Hbody as (st1 & -> & Hq1).
      destruct (IH book chapters st1 Htl) as (st' & book' & new & Hrun & Hq & Hch & Hit).
      simpl. rewrite Hrun. exists st', book', new.
      split; [reflexivity|]. split; [by eapply quiet_trans|]. by split.
    + destruct Hbody as (st1 & path & body & -> & Hq1).
      edestruct IH as (st' & book' & new & Hrun & Hq & Hch & Hit); [exact Htl|].
      simpl. rewrite Hrun.
      exists st', book', (chapter_of w a cat (Some path) :: new).
      split; [by rewrite <- app_assoc|].
      split; [by eapply quiet_trans|].
      split; [constructor; [by exists path|exact Hch]|].
      rewrite Hit, !chapters_of_items_add, app_nil_r, <- app_assoc. reflexivity.
Qed.

Lemma link_category_run (items : list FeedItem) (st : State) :
  link_category items st
  = (match pairs_of items with
     | Some l => Val l
     | None => Exc AttributeError
     end, st).
Proof.
  induction items as [|i items IH]; [reflexivity|].
  simpl. unfold pair_of, tag_text.
  destruct (link i); run; [|reflexivity].
  destruct (category i); run; [|reflexivity].
  rewrite IH. by destruct (pairs_of items).
Qed.

(** ** The whole run *)

Lemma fetch_run (w : World) (rss_feed : str) (st : State) :
  exists t,
    try_except
      (r ← session_get w create_session_with_retries rss_feed;
       raise_for_status r;; mret (Some r))
      is_RequestException
      (fun e => log ERROR;; mret None) st
    = (Val (feed_doc w rss_feed), add_trace st t)
    /\ article_downloads t = [] /\ writes t = []
    /\ (length (requests t) <= 6)%nat.
Proof.
  unfold feed_doc, session_get.
  rewrite (get_adapter_scheme _ rss_feed feed_adapter adapters_of_feed_session).
  destruct (http_or_https rss_feed).
  - change (max_retries feed_adapter) with feed_retries.
    change (total feed_retries) with 5%nat.
    destruct (urlopen_indep w feed_retries rss_feed 5 0 st (fresh (fun _ => O)))
      as (t & k & Hrun & Hdl & Hwr & Hexc & Hreq & Hk).
    assert (length (requests t) <= 6)%nat as Hlen
      by (rewrite Hreq, repeat_length; lia).
    unfold try_except at 1. rewrite bind_run, Hrun.
    destruct ((urlopen w feed_retries rss_feed 5 0 (fresh (fun _ => O))).1) as [r|e].
    + unfold raise_for_status.
      destruct ((400 <=? status_code r) && (status_code r <? 600)); run.
      * rewrite add_trace_app. eexists. split; [reflexivity|].
        rewrite article_downloads_app, writes_app, requests_app, Hdl, Hwr.
        simpl. by rewrite app_nil_r.
      * eauto.
    + rewrite (Hexc e eq_refl). run. rewrite add_trace_app.
      eexists. split; [reflexivity|].
      rewrite article_downloads_app, writes_app, requests_app, Hdl, Hwr.
      simpl. by rewrite app_nil_r.
  - run. eexists. repeat split; try reflexivity. simpl. lia.
Qed.

Lemma untouched_quiet st st' : untouched st st' -> quiet st st'.
Proof. intros (t & -> & _ & Hw). by apply quiet_add_trace. Qed.

Lemma untouched_add st t1 t2 :
  article_downloads t1 = [] -> writes t1 = [] ->
  article_downloads t2 = [] -> writes t2 = [] ->
  untouched st (add_trace (add_trace st t1) t2).
Proof.
  intros H1 H2 H3 H4. exists (t1 ++ t2). rewrite add_trace_app.
  by rewrite article_downloads_app, writes_app, H1, H2, H3, H4.
Qed.

Lemma finalize_facts (book : EpubBook) (chapters : list EpubHtml) :
  chapters_of_items (items (finalize book chapters)) = chapters_of_items (items book)
  /\ toc (finalize book chapters) = [(py "Articles", chapters)]
  /\ spine (finalize book chapters) = SpineName (py "nav") :: map SpineChapter chapters.
Proof.
  split; [|done]. unfold finalize, chapters_of_items. cbn [items set_spine set_toc add_item].
  rewrite !omap_app. simpl. by rewrite !app_nil_r.
Qed.

(** [create_epub] ends as [outcome] says, for every world and from every
    state. *)
Lemma create_epub_run (w : World) (rss_feed output_filename : str) (st : State) :
  exists st',
    create_epub w rss_feed output_filename st
    = (returned (outcome w rss_feed output_filename), st')
    /\ match outcome w rss_feed output_filename with
       | FeedFailed | FeedMalformed => untouched st st'
       | ItemCrashed | NoChapters => quiet st st'
       | WriteFailed =>
           forall p book, fs st' !! p = Some (Epub book) -> fs st !! p = Some (Epub book)
       | Written articles =>
           exists chapters,
             Forall2 (chapter_from w) articles chapters
             /\ archive_has st' output_filename chapters
             /\ writes (trace st') = writes (trace st) ++ [output_filename]
       end.
Proof.
  unfold create_epub, outcome. cbv zeta. rewrite bind_run.
  destruct (fetch_run w rss_feed st) as (t & -> & Hdl & Hwr & _).
  destruct (feed_doc w rss_feed) as [r|]; run.
  2:{ exists (add_trace st t). split; [reflexivity|]. by exists t. }
  rewrite link_category_run.
  destruct (pairs_of (find_all_item w (content r))) as [articles|].
  2:{ exists (add_trace st t). split; [reflexivity|]. by exists t. }
  run. set (st1 := add_trace (add_trace st t) [EvLog INFO]).
  assert (quiet st st1) as Hq1.
  { apply untouched_quiet, untouched_add; auto. }
  destruct (crashes w (sort_reverse articles)) eqn:Hcrash.
  - destruct (for_articles_crash w (sort_reverse articles) new_book [] st1 Hcrash)
      as (st' & -> & Hq).
    exists st'. split; [reflexivity|]. by eapply quiet_trans.
  - destruct (for_articles_kept w (sort_reverse articles) new_book [] st1 Hcrash)
      as (st2 & book & chapters & -> & Hq & Hch & Hit).
    cbn [fst snd app].
    destruct Hch as [|a c l chapters Hac Hl].
    + run. eexists. split; [reflexivity|].
      eapply quiet_trans; [exact Hq1|]. eapply quiet_trans; [exact Hq|].
      by apply quiet_add_trace.
    + unfold write_epub.
      destruct (write_epub_error w output_filename) as [e|]; run.
      * eexists. split; [reflexivity|]. simpl.
        intros p b Hp. apply Hq1, Hq.
        destruct (write_epub_partial w output_filename) as [partial|]; [|done].
        destruct (decide (output_filename = p)) as [->|Hne].
        -- by rewrite lookup_insert_eq in Hp.
        -- by rewrite lookup_insert_ne in Hp.
      * eexists. split; [reflexivity|].
        exists (c :: chapters). split; [by constructor|]. split.
        -- eexists. split; [simpl; apply lookup_insert_eq|].
           destruct (finalize_facts book (c :: chapters)) as (Hi & Ht & Hs).
           rewrite Hi, Ht, Hs. by split.
        -- simpl. rewrite !writes_app. simpl.
           destruct Hq as [-> _]. destruct Hq1 as [-> _].
           by rewrite app_nil_r.
Qed.

(** ** The order of the articles *)

Lemma compare_refl (a : str) : PyStr.compare a a = Eq.
Proof. induction a as [|x a IH]; simpl; [done|]. by rewrite N.compare_refl. Qed.

Lemma compare_antisym (a b : str) :
  PyStr.compare b a = CompOpp (PyStr.compare a b).
Proof.
  revert b. induction a as [|x a IH]; intros [|y b]; simpl; try done.
  rewrite (N.compare_antisym x y). destruct (x ?= y); simpl; auto.
Qed.

Lemma compare_eq (a b : str) : PyStr.compare a b = Eq -> a = b.
Proof.
  revert b. induction a as [|x a IH]; intros [|y b]; simpl; try done.
  destruct (N.compare_spec x y) as [->| |]; try done.
  intros H. by rewrite (IH b H).
Qed.

Lemma compare_Gt_trans (a b c : str) :
  PyStr.compare a b = Gt -> PyStr.compare b c = Gt -> PyStr.compare a c = Gt.
Proof.
  revert b c. induction a as [|x a IH]; intros [|y b] [|z c]; simpl; try done.
  destruct (N.compare_spec x y) as [->| |]; try done.
  - destruct (N.compare_spec y z) as [->| |]; try done. apply IH.
  - intros _. destruct (N.compare_spec y z) as [->| |]; try done.
    + intros _. by rewrite (proj2 (N.compare_gt_iff _ _)).
    + intros _. rewrite (proj2 (N.compare_gt_iff x z)); [done|lia].
Qed.

Lemma gtb_irrefl (a : str) : gtb a a = false.
Proof. unfold gtb. by rewrite compare_refl. Qed.

Lemma gtb_geb (a b : str) : gtb a b = true -> geb a b = true.
Proof.
  unfold geb, gtb. rewrite (compare_antisym a b).
  by destruct (PyStr.compare a b).
Qed.

Lemma geb_trans (a b c : str) : geb a b = true -> geb b c = true -> geb a c = true.
Proof.
  unfold geb, gtb. intros Hab Hbc.
  destruct (PyStr.compare c a) eqn:Hca; try done. exfalso.
  destruct (PyStr.compare b a) eqn:Hba; [| |done].
  - apply compare_eq in Hba. subst b. by rewrite Hca in Hbc.
  - destruct (PyStr.compare c b) eqn:Hcb; [| |done].
    + apply compare_eq in Hcb. subst c. congruence.
    + assert (PyStr.compare a b = Gt) as Hab'
        by (by rewrite (compare_antisym b a), Hba).
      assert (PyStr.compare b c = Gt) as Hbc'
        by (by rewrite (compare_antisym c b), Hcb).
      pose proof (compare_Gt_trans _ _ _ Hab' Hbc') as Hac.
      rewrite (compare_antisym a c), Hac in Hca. done.
Qed.

(** Inserting keeps every pair, once. *)
Lemma insert_desc_perm (x : str * str) (l : list (str * str)) :
  insert_desc x l ≡ₚ x :: l.
Proof.
  induction l as [|y l IH]; simpl; [done|].
  destruct (gtb y.2 x.2); [|done].
  rewrite IH. apply Permutation_swap.
Qed.

Lemma sort_reverse_perm (l : list (str * str)) : sort_reverse l ≡ₚ l.
Proof.
  induction l as [|x l IH]; simpl; [done|].
  by rewrite insert_desc_perm, IH.
Qed.

Lemma insert_desc_sorted (x : str * str) (l : list (str * str)) :
  StronglySorted desc l -> StronglySorted desc (insert_desc x l).
Proof.
  induction l as [|y l IH]; simpl; intros Hs.
  - repeat constructor.
  - apply StronglySorted_cons in Hs as [Hy Hl].
    destruct (gtb y.2 x.2) eqn:Hyx.
    + apply StronglySorted_cons. split; [|by apply IH].
      rewrite insert_desc_perm. constructor; [|done].
      by apply gtb_geb.
    + apply StronglySorted_cons. split.
      * assert (desc x y) as Hxy by (unfold desc, geb; by rewrite Hyx).
        constructor; [done|].
        eapply Forall_impl; [exact Hy|].
        intros z Hyz. unfold desc in *. by eapply geb_trans.
      * apply StronglySorted_cons. by split.
Qed.

Lemma sort_reverse_sorted (l : list (str * str)) :
  StronglySorted desc (sort_reverse l).
Proof.
  induction l as [|x l IH]; simpl; [constructor|].
  by apply insert_desc_sorted.
Qed.

(** Inserting leaves the pairs of one category in their order, the new
    one first. *)
Lemma insert_desc_stable (c : str) (x : str * str) (l : list (str * str)) :
  filter (fun y => y.2 = c) (insert_desc x l)
  = filter (fun y => y.2 = c) (x :: l).
Proof.
  induction l as [|y l IH]; simpl; [done|].
  destruct (gtb y.2 x.2) eqn:Hyx; [|done].
  rewrite (filter_cons _ y), IH, !filter_cons.
  destruct (decide (y.2 = c)) as [Hy|Hy]; [|done].
  destruct (decide (x.2 = c)) as [Hx|Hx]; [|done].
  rewrite Hy, Hx, gtb_irrefl in Hyx. done.
Qed.

Lemma sort_reverse_stable (c : str) (l : list (str * str)) :
  filter (fun y => y.2 = c) (sort_reverse l) = filter (fun y => y.2 = c) l.
Proof.
  induction l as [|x l IH]; simpl; [done|].
  by rewrite insert_desc_stable, !filter_cons, IH.
Qed.

Example sort_reverse_sample :
  sort_reverse [(py "1", py "b"); (py "2", py "c"); (py "3", py "b");
                (py "4", py "a"); (py "5", py "c")]
  = [(py "2", py "c"); (py "5", py "c"); (py "1", py "b"); (py "3", py "b");
     (py "4", py "a")].
Proof. reflexivity. Qed.

(** ** The claims on the whole run *)

Lemma session_get_indep (w : World) (s : Session) (url : str) (st st0 : State) :
  (session_get w s url st).1 = (session_get w s url st0).1.
Proof.
  unfold session_get. destruct (get_adapter s (prepare_url url)) as [a|]; [|done].
  destruct (urlopen_indep w (max_retries a) url (total (max_retries a)) 0 st st0)
    as (t & k & -> & _). done.
Qed.

Lemma fetch_fails_feed_doc (w : World) (rss_feed : str) (st : State) :
  fetch_fails w rss_feed st -> feed_doc w rss_feed = None.
Proof.
  unfold fetch_fails, feed_doc.
  rewrite (session_get_indep w _ rss_feed st (fresh (fun _ => O))).
  destruct (session_get _ _ _ _).1 as [r|e]; [|done]. by intros ->.
Qed.

Lemma pairs_of_lacks (l : list FeedItem) :
  Exists lacks_tag l -> pairs_of l = None.
Proof.
  induction 1 as [i l [Hl|Hc]|i l _ IH]; simpl; unfold pair_of.
  - by rewrite Hl.
  - rewrite Hc. by destruct (link i).
  - rewrite IH. by destruct (link i), (category i).
Qed.

Lemma pairs_of_length (l : list FeedItem) (articles : list (str * str)) :
  pairs_of l = Some articles -> length articles = length l.
Proof.
  revert articles. induction l as [|i l IH]; intros articles; simpl.
  - by intros [= <-].
  - destruct (pair_of i); [|done]. destruct (pairs_of l); [|done].
    intros [= <-]. simpl. by rewrite (IH _ eq_refl).
Qed.

Lemma kept_length (w : World) (l : list (str * str)) :
  (length (kept w l) <= length l)%nat.
Proof.
  induction l as [|[url cat] l IH]; [done|]. rewrite kept_cons.
  destruct (classify w url); simpl; lia.
Qed.

Lemma kept_elem (w : World) (l : list (str * str)) url cat a :
  (url, cat) ∈ l -> classify w url = Kept a -> kept w l <> [].
Proof.
  intros Hin Hk Hnil.
  assert ((a, cat) ∈ kept w l) as Hel.
  { apply list_elem_of_omap. exists (url, cat). simpl. by rewrite Hk. }
  rewrite Hnil in Hel. by apply not_elem_of_nil in Hel.
Qed.

Lemma kept_none (w : World) (l : list (str * str)) :
  Forall (fun uc => forall a, classify w uc.1 <> Kept a) l -> kept w l = [].
Proof.
  induction 1 as [|[url cat] l Hx _ IH]; [done|]. rewrite kept_cons.
  simpl in Hx. destruct (classify w url) as [| |a]; try done. by destruct (Hx a).
Qed.

(** A run that returns [True] went through every stage. *)
Lemma outcome_true (w : World) (rss_feed output_filename : str) :
  returned (outcome w rss_feed output_filename) = Val true ->
  exists r articles,
    feed_doc w rss_feed = Some r
    /\ pairs_of (find_all_item w (content r)) = Some articles
    /\ crashes w (sort_reverse articles) = false
    /\ write_epub_error w output_filename = None
    /\ outcome w rss_feed output_filename = Written (kept w (sort_reverse articles)).
Proof.
  unfold outcome.
  destruct (feed_doc w rss_feed) as [r|]; [|done].
  destruct (pairs_of _) as [articles|] eqn:Hp; [|done].
  destruct (crashes _ _) eqn:Hc; [done|].
  destruct (kept w _) as [|a l] eqn:Hk; [done|].
  destruct (write_epub_error _ _); [done|].
  intros _. exists r, articles. by rewrite Hk.
Qed.

Lemma same_chapter_of_kept (w : World) (articles : list (Article * str)) :
  forall ch1 ch2,
    Forall2 (chapter_from w) articles ch1 ->
    Forall2 (chapter_from w) articles ch2 ->
    Forall2 (same_chapter w) ch1 ch2.
Proof.
  induction articles as [|[a cat] articles IH]; intros ch1 ch2 H1 H2.
  - inversion H1; inversion H2; subst. constructor.
  - inversion H1 as [|? c1 ? l1 [p1 Hc1] Hl1]; subst.
    inversion H2 as [|? c2 ? l2 [p2 Hc2] Hl2]; subst.
    constructor; [|by apply IH]. by exists a, cat, p1, p2.
Qed.

Lemma same_chapter_names (w : World) (ch1 ch2 : list EpubHtml) :
  Forall2 (same_chapter w) ch1 ch2 ->
  map chap_title ch1 = map chap_title ch2
  /\ map chap_file_name ch1 = map chap_file_name ch2.
Proof.
  induction 1 as [|c1 c2 l1 l2 (a & cat & p1 & p2 & -> & ->) _ [IH1 IH2]];
    [done|].
  simpl. by rewrite IH1, IH2.
Qed.

Lemma crashes_true (w : World) (l : list (str * str)) :
  crashes w l = true <-> exists uc, uc ∈ l /\ classify w uc.1 = Crashed.
Proof.
  unfold crashes. rewrite existsb_exists. split.
  - intros (uc & Hin & Hc). exists uc. split; [by apply list_elem_of_In|].
    by destruct (classify w uc.1).
  - intros (uc & Hin & Hc). exists uc. split; [by apply list_elem_of_In|].
    by rewrite Hc.
Qed.

Lemma crashes_sort (w : World) (l : list (str * str)) :
  crashes w (sort_reverse l) = crashes w l.
Proof.
  apply Bool.eq_iff_eq_true. rewrite !crashes_true.
  by setoid_rewrite (sort_reverse_perm l).
Qed.

(** C7: when the fetch of the feed fails, [create_epub] returns [False];
    the directory is as it was, so no archive is written, and no article
    is downloaded: no per-item processing takes place. *)
Theorem C7_feed_failure (w : World) (rss_feed output_filename : str) (st : State) :
  fetch_fails w rss_feed st ->
  exists st',
    create_epub w rss_feed output_filename st = (Val false, st')
    /\ fs st' = fs st
    /\ writes (trace st') = writes (trace st)
    /\ article_downloads (trace st') = article_downloads (trace st).
Proof.
  intros Hfail. apply fetch_fails_feed_doc in Hfail.
  destruct (create_epub_run w rss_feed output_filename st) as (st' & Hrun & Hst).
  unfold outcome in Hrun, Hst. rewrite Hfail in Hrun, Hst.
  destruct Hst as (t & -> & Hdl & Hwr).
  eexists. split; [exact Hrun|]. simpl.
  by rewrite writes_app, article_downloads_app, Hdl, Hwr, !app_nil_r.
Qed.

Lemma C7_feed_failure_witness :
  fetch_fails w_offline feed_url (fresh (fun _ => O))
  /\ exists st',
      create_epub w_offline feed_url out_path (fresh (fun _ => O)) = (Val false, st')
      /\ fs st' = fs (fresh (fun _ => O))
      /\ writes (trace st') = writes (trace (fresh (fun _ => O)))
      /\ article_downloads (trace st') = article_downloads (trace (fresh (fun _ => O))).
Proof.
  split; [vm_compute; exact I|].
  apply (C7_feed_failure w_offline feed_url out_path (fresh (fun _ => O))).
  vm_compute. exact I.
Defined.

(** C10: when the fetched feed document has an item without a link
    element or without a category element, [create_epub] raises an
    [AttributeError] instead of returning [False]: the list comprehension
    over the items is outside every [try]. Nothing was downloaded or
    written by then. *)
Theorem C10_missing_tag_raises (w : World) (rss_feed output_filename : str)
    (st : State) (r : Response) :
  feed_doc w rss_feed = Some r ->
  Exists lacks_tag (find_all_item w (content r)) ->
  exists st',
    create_epub w rss_feed output_filename st = (Exc AttributeError, st')
    /\ untouched st st'.
Proof.
  intros Hdoc Hlack. apply pairs_of_lacks in Hlack.
  destruct (create_epub_run w rss_feed output_filename st) as (st' & Hrun & Hst).
  unfold outcome in Hrun, Hst. rewrite Hdoc, Hlack in Hrun, Hst.
  by exists st'.
Qed.

Lemma C10_missing_tag_raises_witness :
  feed_doc w_missing_link feed_url = Some {| status_code := 200; content := [1] |}
  /\ Exists lacks_tag (find_all_item w_missing_link [1])
  /\ exists st',
      create_epub w_missing_link feed_url out_path (fresh (fun _ => O))
      = (Exc AttributeError, st')
      /\ untouched (fresh (fun _ => O)) st'.
Proof.
  assert (Exists lacks_tag (find_all_item w_missing_link [1])) as Hlack.
  { right. left. by left. }
  split; [reflexivity|]. split; [exact Hlack|].
  exact (C10_missing_tag_raises w_missing_link feed_url out_path
           (fresh (fun _ => O)) {| status_code := 200; content := [1] |}
           eq_refl Hlack).
Defined.

(** C6 at an article without structured HTML. *)
Lemma C6_plain_text_fallback_witness :
  truthy (article_html plain_article) = false
  /\ (exists segs trims,
        blank_line_segments (text plain_article) segs /\ Forall2 trim_of segs trims)
  /\ forall segs trims,
       blank_line_segments (text plain_article) segs ->
       Forall2 trim_of segs trims ->
       article_content w_offline plain_article
       = newline_joined (map p_element (List.filter non_empty trims)).
Proof.
  split; [reflexivity|].
  apply (C6_plain_text_fallback w_offline plain_article). reflexivity.
Defined.

(** The segments and the trimmed texts of the sample: the blank line
    after the second paragraph leaves a third segment, a line feed, whose
    trimmed text is empty and gives no paragraph. *)
Example plain_article_segments :
  text plain_article
  = py "First." ++ [10; 10] ++ py "  Second. " ++ [10; 10] ++ [10]
  /\ blank_line_segments (text plain_article) [py "First."; py "  Second. "; [10]]
  /\ Forall2 trim_of [py "First."; py "  Second. "; [10]] [py "First."; py "Second."; []]
  /\ article_content w_offline plain_article
     = py "<p>First.</p>" ++ [10] ++ py "<p>Second.</p>".
Proof.
  assert (forall s : str, (forall before after, s <> before ++ [10; 10] ++ after) ->
                          ~ has_blank_line s) as Hno.
  { intros s Hs (before & after & H). by apply (Hs before after). }
  split; [reflexivity|]. split; [|split; [|reflexivity]].
  - apply (segments_cut (py "First.") _ [py "  Second. "; [10]]).
    { apply Hno. intros before after H. vm_compute in H.
      repeat (destruct before as [|? before]; [discriminate|injection H as _ H]).
      by destruct before. }
    apply (segments_cut (py "  Second. ") [10] [[10]]).
    { apply Hno. intros before after H. vm_compute in H.
      repeat (destruct before as [|? before]; [discriminate|injection H as _ H]).
      by destruct before. }
    apply segments_end. apply Hno. intros [|? [|? before]] after H; discriminate.
  - repeat constructor.
    + exists [], []. repeat split; try constructor; intros c [= <-]; discriminate.
    + exists (py "  "), (py " "). vm_compute.
      repeat split; try (repeat constructor; done); intros c [= <-]; discriminate.
    + exists [10], []. repeat split; try (repeat constructor; done); intros c [=].
Qed.

(** C4, as the code has it. For a reachable feed whose items all carry a
    link and a category and whose extracted articles all carry a publish
    date: when no item becomes a chapter the run finalizes with zero
    chapters, [create_epub] returns [False] and no archive is written;
    when at least one item is extracted, dated today and has its image
    captured, and the archive write does not fail, [create_epub] returns
    [True] and the archive holds at least 1 chapter and at most as many
    chapters as the feed has items. *)
Theorem C4_chapter_count (w : World) (rss_feed output_filename : str)
    (st : State) (r : Response) (articles : list (str * str)) :
  feed_doc w rss_feed = Some r ->
  pairs_of (find_all_item w (content r)) = Some articles ->
  crashes w articles = false ->
  (Forall (fun uc => forall a, classify w uc.1 <> Kept a) articles ->
   exists st',
     create_epub w rss_feed output_filename st = (Val false, st')
     /\ quiet st st')
  /\ ((exists url cat a, (url, cat) ∈ articles /\ classify w url = Kept a) ->
      write_epub_error w output_filename = None ->
      exists st' chapters,
        create_epub w rss_feed output_filename st = (Val true, st')
        /\ archive_has st' output_filename chapters
        /\ (1 <= length chapters <= length (find_all_item w (content r)))%nat).
Proof.
  intros Hdoc Hpairs Hcrash. rewrite <- crashes_sort in Hcrash.
  destruct (create_epub_run w rss_feed output_filename st) as (st' & Hrun & Hst).
  unfold outcome in Hrun, Hst. rewrite Hdoc, Hpairs, Hcrash in Hrun, Hst.
  split.
  - intros Hnone. rewrite <- (sort_reverse_perm articles) in Hnone.
    apply kept_none in Hnone. rewrite Hnone in Hrun, Hst. by exists st'.
  - intros (url & cat & a & Hin & Hk) Hwrite.
    rewrite <- (sort_reverse_perm articles) in Hin.
    pose proof (kept_elem w _ url cat a Hin Hk) as Hne.
    pose proof (kept_length w (sort_reverse articles)) as Hlen.
    rewrite (Permutation_length (sort_reverse_perm articles)) in Hlen.
    rewrite (pairs_of_length _ _ Hpairs) in Hlen.
    destruct (kept w (sort_reverse articles)) as [|ac l]; [done|].
    rewrite Hwrite in Hrun, Hst.
    destruct Hst as (chapters & Hch & Harch & _).
    exists st', chapters. split; [exact Hrun|]. split; [exact Harch|].
    apply Forall2_length in Hch. rewrite <- Hch. simpl in *. lia.
Qed.

Lemma C4_chapter_count_witness :
  feed_doc w_five feed_url = Some {| status_code := 200; content := [1] |}
  /\ crashes w_five [(py "a1", py "mundo"); (py "a2", py "sociedad");
                     (py "a3", py "sociedad"); (py "a4", py "mundo");
                     (py "a5", py "mundo")] = false
  /\ exists st' chapters,
      create_epub w_five feed_url out_path (fresh (fun _ => O)) = (Val true, st')
      /\ archive_has st' out_path chapters
      /\ (1 <= length chapters <= 5)%nat.
Proof.
  split; [reflexivity|]. split; [reflexivity|].
  refine (proj2 (C4_chapter_count w_five feed_url out_path (fresh (fun _ => O))
                   {| status_code := 200; content := [1] |}
                   [(py "a1", py "mundo"); (py "a2", py "sociedad");
                    (py "a3", py "sociedad"); (py "a4", py "mundo");
                    (py "a5", py "mundo")]
                   eq_refl eq_refl eq_refl) _ eq_refl).
  exists (py "a1"), (py "mundo"), (sample_article (py "a1") (Some 20000)).
  split; [left|reflexivity].
Defined.

(** C4 as stated fails: a reachable feed whose one item is extracted,
    dated today and has its image captured, and yet the run does not
    succeed: [epub.write_epub] raises (here a [ValueError]), the clause
    at lines 217-219 catches it, and [create_epub] returns [False]. *)
Lemma C4_write_failure_counterexample :
  feed_doc w_write_fails feed_url = Some {| status_code := 200; content := [1] |}
  /\ classify w_write_fails (py "a1") = Kept (sample_article (py "a1") (Some 20000))
  /\ write_epub_error w_write_fails out_path = Some ValueError
  /\ (create_epub w_write_fails feed_url out_path (fresh (fun _ => O))).1 = Val false.
Proof. repeat split; vm_compute; reflexivity. Qed.

(** C5: the pairs of the feed are sorted by category, descending, pairs of
    one category keeping their order in the feed, before the loop; and
    the chapters of the archive (its items, its table of contents and its
    spine) are those of the kept articles of the sorted list, in the
    order of that list. *)
Theorem C5_chapter_order (w : World) (rss_feed output_filename : str) (st : State) :
  (create_epub w rss_feed output_filename st).1 = Val true ->
  exists r articles chapters,
    feed_doc w rss_feed = Some r
    /\ pairs_of (find_all_item w (content r)) = Some articles
    /\ sort_reverse articles ≡ₚ articles
    /\ StronglySorted desc (sort_reverse articles)
    /\ (forall c, filter (fun y => y.2 = c) (sort_reverse articles)
                  = filter (fun y => y.2 = c) articles)
    /\ Forall2 (chapter_from w) (kept w (sort_reverse articles)) chapters
    /\ archive_has (create_epub w rss_feed output_filename st).2
                   output_filename chapters.
Proof.
  intros Htrue.
  destruct (create_epub_run w rss_feed output_filename st) as (st' & Hrun & Hst).
  rewrite Hrun in Htrue |- *. simpl in Htrue.
  destruct (outcome_true _ _ _ Htrue) as (r & articles & Hdoc & Hpairs & _ & _ & Hout).
  rewrite Hout in Hst. destruct Hst as (chapters & Hch & Harch & _).
  exists r, articles, chapters.
  split; [done|]. split; [done|].
  split; [apply sort_reverse_perm|].
  split; [apply sort_reverse_sorted|].
  split; [intros c; apply sort_reverse_stable|].
  by split.
Qed.

Lemma C5_chapter_order_witness :
  (create_epub w_five feed_url out_path (fresh (fun _ => O))).1 = Val true
  /\ exists r articles chapters,
      feed_doc w_five feed_url = Some r
      /\ pairs_of (find_all_item w_five (content r)) = Some articles
      /\ sort_reverse articles ≡ₚ articles
      /\ StronglySorted desc (sort_reverse articles)
      /\ (forall c, filter (fun y => y.2 = c) (sort_reverse articles)
                    = filter (fun y => y.2 = c) articles)
      /\ Forall2 (chapter_from w_five) (kept w_five (sort_reverse articles)) chapters
      /\ archive_has (create_epub w_five feed_url out_path (fresh (fun _ => O))).2
                     out_path chapters.
Proof.
  split; [vm_compute; reflexivity|].
  apply (C5_chapter_order w_five feed_url out_path (fresh (fun _ => O))).
  vm_compute. reflexivity.
Defined.

Example w_five_order :
  map chap_title
    (chapters_of_spine
       match fs (create_epub w_five feed_url out_path (fresh (fun _ => O))).2
             !! out_path with
       | Some (Epub book) => spine book
       | _ => []
       end)
  = [py "About a3"; py "About a1"; py "About a5"].
Proof. vm_compute. reflexivity. Qed.

(** C9: two runs against one world (the same feed, articles and day) end
    alike, whatever the random draws and the directory each starts from;
    when they succeed, the two archives hold chapters of the same
    articles and categories in the same order, with the same titles and
    file names: at most the names of the scratch images differ. *)
Theorem C9_runs_agree (w : World) (rss_feed output_filename : str)
    (st1 st2 : State) :
  (create_epub w rss_feed output_filename st1).1
  = (create_epub w rss_feed output_filename st2).1
  /\ ((create_epub w rss_feed output_filename st1).1 = Val true ->
      exists ch1 ch2,
        archive_has (create_epub w rss_feed output_filename st1).2 output_filename ch1
        /\ archive_has (create_epub w rss_feed output_filename st2).2 output_filename ch2
        /\ Forall2 (same_chapter w) ch1 ch2
        /\ map chap_title ch1 = map chap_title ch2
        /\ map chap_file_name ch1 = map chap_file_name ch2).
Proof.
  destruct (create_epub_run w rss_feed output_filename st1) as (st1' & Hrun1 & Hst1).
  destruct (create_epub_run w rss_feed output_filename st2) as (st2' & Hrun2 & Hst2).
  rewrite Hrun1, Hrun2. simpl. split; [reflexivity|].
  intros Htrue.
  destruct (outcome_true _ _ _ Htrue) as (r & articles & _ & _ & _ & _ & Hout).
  rewrite Hout in Hst1, Hst2.
  destruct Hst1 as (ch1 & Hch1 & Harch1 & _).
  destruct Hst2 as (ch2 & Hch2 & Harch2 & _).
  pose proof (same_chapter_of_kept w _ ch1 ch2 Hch1 Hch2) as Hsame.
  exists ch1, ch2. split; [done|]. split; [done|]. split; [done|].
  by apply (same_chapter_names w).
Qed.

Lemma C9_runs_agree_witness :
  (create_epub w_five feed_url out_path (fresh (fun _ => O))).1 = Val true
  /\ exists ch1 ch2,
      archive_has (create_epub w_five feed_url out_path (fresh (fun _ => O))).2
                  out_path ch1
      /\ archive_has (create_epub w_five feed_url out_path (fresh (fun i => 7 * i)%nat)).2
                     out_path ch2
      /\ Forall2 (same_chapter w_five) ch1 ch2
      /\ map chap_title ch1 = map chap_title ch2
      /\ map chap_file_name ch1 = map chap_file_name ch2.
Proof.
  split; [vm_compute; reflexivity|].
  apply (proj2 (C9_runs_agree w_five feed_url out_path
                  (fresh (fun _ => O)) (fresh (fun i => 7 * i)%nat))).
  vm_compute. reflexivity.
Defined.

(** The scratch names of the two runs do differ. *)
Example scratch_names_differ :
  scratch_name (fun _ => O) = py "aaaaaaaaaa.jpeg"
  /\ scratch_name (fun i => 7 * i)%nat = py "ahovCJQXel.jpeg".
Proof. split; reflexivity. Qed.

(** C1 fails on the code: the article is extracted, dated today, and its
    image is answered with 404; the capture returns [None], [open(None)]
    raises inside the guarded part, and the chapter is dropped: the run
    ends with no chapter and returns [False]. *)
Theorem C1_image_failure_drops_chapter :
  let run := create_epub w_image_404 feed_url out_path (fresh (fun _ => O)) in
  extracted w_image_404 (py "a1") = Some (sample_article (py "a1") (Some 20000))
  /\ (download_image w_image_404 (top_img (sample_article (py "a1") (Some 20000)))
        (fresh (fun _ => O))).1 = Val None
  /\ classify w_image_404 (py "a1") = Skipped
  /\ run.1 = Val false
  /\ writes (trace run.2) = []
  /\ fs run.2 !! out_path = None.
Proof. vm_compute. repeat split; reflexivity. Qed.

(** C2 fails on the code: the extractor returns a record without publish
    date, [article.publish_date.date()] raises outside the guarded part,
    and the [AttributeError] leaves [create_epub]. *)
Theorem C2_missing_date_escapes :
  extracted w_no_date (py "a1") = Some (sample_article (py "a1") None)
  /\ publish_date (sample_article (py "a1") None) = None
  /\ (create_epub w_no_date feed_url out_path (fresh (fun _ => O))).1
     = Exc AttributeError.
Proof. vm_compute. repeat split; reflexivity. Qed.

(** * More properties of the script *)

(** ** The extractor, for any [max_retries] *)

Lemma total_sleep_app t1 t2 : total_sleep (t1 ++ t2) = total_sleep t1 + total_sleep t2.
Proof.
  unfold total_sleep. rewrite sleeps_app.
  induction (sleeps t1) as [|x l IH]; simpl; [done|]. rewrite IH. lia.
Qed.

Lemma sum_backoff (m : nat) :
  foldr N.add 0 (map backoff (seq 0 m)) = 2 ^ N.of_nat m - 1.
Proof.
  induction m as [|m IH]; [done|].
  rewrite seq_S, map_app, foldr_app. simpl.
  assert (forall (l : list N) (a : N), foldr N.add a l = foldr N.add 0 l + a) as Hacc.
  { induction l as [|x l IHl]; intros a; simpl; [lia|]. rewrite IHl. lia. }
  rewrite Hacc, IH. unfold backoff. rewrite Nat2N.inj_succ, N.pow_succ_r'.
  pose proof (N.pow_nonzero 2 (N.of_nat m)). lia.
Qed.

Lemma all_fail_run (w : World) (url : str) (n : nat) (st : State) :
  (forall j, (j < n)%nat -> exists e, newspaper w url j = Exc e) ->
  exists t,
    download_article_with_retry w url n st = (Val None, add_trace st t)
    /\ article_downloads t = repeat url n
    /\ sleeps t = map backoff (seq 0 (n - 1)).
Proof.
  intros Hall.
  destruct (for_attempt_spec w url n n 0 st eq_refl)
    as (k & r & t & Hrun & Hk & Hpos & Hdl & Hsl & Hfail & Hr & Hnone).
  assert (r = None) as ->.
  { destruct k as [|k]; [done|]. rewrite Hr.
    destruct (Hall (0 + k)%nat) as [e ->]; [lia|done]. }
  rewrite (Hnone eq_refl) in *. by exists t.
Qed.

(** X1: When every attempt fails, [download_article_with_retry] with
    [max_retries = n] downloads exactly [n] times, returns [None] without
    raising, and has slept [2 ^ (n - 1) - 1] seconds in all; with
    [max_retries = 0] it returns [None] at once. *)
Theorem X_retry_all_fail (w : World) (url : str) (n : nat) (st : State) :
  (forall j, (j < n)%nat -> exists e, newspaper w url j = Exc e) ->
  exists t,
    download_article_with_retry w url n st = (Val None, add_trace st t)
    /\ article_downloads t = repeat url n
    /\ total_sleep t = 2 ^ N.of_nat (n - 1) - 1
    /\ (n = O -> t = []).
Proof.
  intros Hall. destruct (all_fail_run w url n st Hall) as (t & Hrun & Hdl & Hsl).
  exists t. split; [done|]. split; [done|]. split.
  - unfold total_sleep. rewrite Hsl. apply sum_backoff.
  - intros ->. unfold download_article_with_retry in Hrun. simpl in Hrun.
    rewrite ret_run in Hrun. injection Hrun as Hst.
    apply (f_equal trace) in Hst. simpl in Hst.
    rewrite <- (app_nil_r (trace st)) in Hst at 1.
    by apply app_inv_head in Hst.
Qed.

Lemma X_retry_all_fail_witness :
  (forall j, (j < 5)%nat -> exists e, newspaper w_offline (py "a1") j = Exc e)
  /\ exists t,
      download_article_with_retry w_offline (py "a1") 5 (fresh (fun _ => O))
      = (Val None, add_trace (fresh (fun _ => O)) t)
      /\ article_downloads t = repeat (py "a1") 5
      /\ total_sleep t = 2 ^ N.of_nat (5 - 1) - 1
      /\ (5%nat = O -> t = []).
Proof.
  assert (forall j, (j < 5)%nat -> exists e, newspaper w_offline (py "a1") j = Exc e)
    as Hall by (intros j _; by exists OSError).
  split; [exact Hall|].
  exact (X_retry_all_fail w_offline (py "a1") 5 (fresh (fun _ => O)) Hall).
Defined.

(** X2: The extractor returns the record of the first attempt that succeeds:
    when attempt [j] (from 0) is the first to succeed, it has downloaded
    [j + 1] times and waited [2 ^ i] seconds after each failed attempt
    [i < j]; later attempts are not made. *)
Theorem X_retry_first_success (w : World) (url : str) (n j : nat)
    (a : Article) (st : State) :
  (j < n)%nat ->
  newspaper w url j = Val a ->
  (forall i, (i < j)%nat -> exists e, newspaper w url i = Exc e) ->
  exists t,
    download_article_with_retry w url n st = (Val (Some a), add_trace st t)
    /\ article_downloads t = repeat url (S j)
    /\ sleeps t = map backoff (seq 0 j).
Proof.
  intros Hj Ha Hbefore.
  destruct (for_attempt_spec w url n n 0 st eq_refl)
    as (k & r & t & Hrun & Hk & Hpos & Hdl & Hsl & Hfail & Hr & Hnone).
  assert (0 < k)%nat as Hk1 by (apply Hpos; lia).
  destruct k as [|k]; [lia|]. simpl in Hr.
  assert (k = j) as ->.
  { destruct (Nat.lt_trichotomy k j) as [Hlt|[->|Hgt]]; [|done|].
    - destruct (Hbefore k Hlt) as [e He]. rewrite He in Hr.
      specialize (Hnone Hr). lia.
    - destruct (Hfail j) as [e He]; [lia|]. congruence. }
  rewrite Ha in Hr. subst r. exists t.
  split; [done|]. split; [done|].
  by rewrite Hsl, Nat.sub_succ, Nat.sub_0_r.
Qed.

Lemma X_retry_first_success_witness :
  (1 < 3)%nat
  /\ newspaper w_five (py "a1") 1 = Val (sample_article (py "a1") (Some 20000))
  /\ exists t,
      download_article_with_retry w_five (py "a1") 3 (fresh (fun _ => O))
      = (Val (Some (sample_article (py "a1") (Some 20000))),
         add_trace (fresh (fun _ => O)) t)
      /\ article_downloads t = repeat (py "a1") 2
      /\ sleeps t = map backoff (seq 0 1).
Proof.
  split; [lia|]. split; [reflexivity|].
  apply (X_retry_first_success w_five (py "a1") 3 1); [lia|reflexivity|].
  intros i Hi. assert (i = O) as -> by lia. by exists OSError.
Defined.

(** ** Chapter file names *)

Lemma replace_absent (a b : char) (s : str) : a <> b -> a ∉ replace a b s.
Proof.
  intros Hab Hin. unfold replace in Hin.
  apply list_elem_of_In, in_map_iff in Hin as (c & Hc & _).
  cbv beta in Hc. revert Hc. destruct (N.eqb_spec c a); intros ?; by subst.
Qed.

Lemma replace_keeps_absent (a b x : char) (s : str) :
  x <> b -> x ∉ s -> x ∉ replace a b s.
Proof.
  intros Hxb Hs Hin. unfold replace in Hin.
  apply list_elem_of_In, in_map_iff in Hin as (c & Hc & Hcs).
  apply list_elem_of_In in Hcs.
  cbv beta in Hc. revert Hc. destruct (N.eqb_spec c a); intros ?; by subst.
Qed.

Lemma chapter_name_clean (article : Article) :
  (length (chapter_name article) <= 30)%nat
  /\ (SPACE ∉ chapter_name article)
  /\ (47 ∉ chapter_name article).
Proof.
  unfold chapter_name, slice_to. split; [rewrite length_take; lia|].
  split; intros Hin; apply elem_of_take in Hin as (i & Hin & _);
    apply list_elem_of_lookup_2 in Hin; revert Hin.
  - apply replace_keeps_absent; [done|]. by apply replace_absent.
  - by apply replace_absent.
Qed.

(** X8: The file name of a chapter is at most 36 characters long and has no
    space and no slash in it, whatever the title of the article. *)
Theorem X_file_name_safe (w : World) (article : Article) (cat : str)
    (path : option str) :
  let name := chap_file_name (chapter_of w article cat path) in
  (length name <= 36)%nat /\ (SPACE ∉ name) /\ (47 ∉ name).
Proof.
  destruct (chapter_name_clean article) as (Hlen & Hsp & Hsl).
  simpl. rewrite length_app. split; [simpl; lia|].
  split; intros Hin; apply elem_of_app in Hin as [Hin|Hin]; try done;
    vm_compute in Hin; repeat (apply elem_of_cons in Hin as [Hin|Hin]; [done|]);
    by apply not_elem_of_nil in Hin.
Qed.

(** X9: File names are not deduplicated: two articles whose titles agree on
    their first 30 characters get the same file name. *)
Theorem X_file_name_collision (w : World) (a1 a2 : Article) (cat1 cat2 : str)
    (p1 p2 : option str) :
  take 30 (title a1) = take 30 (title a2) ->
  chap_file_name (chapter_of w a1 cat1 p1) = chap_file_name (chapter_of w a2 cat2 p2).
Proof.
  intros Ht. unfold chapter_of. cbn [chap_file_name]. f_equal.
  unfold chapter_name, slice_to, replace.
  rewrite !firstn_map. do 2 f_equal. exact Ht.
Qed.

Lemma X_file_name_collision_witness :
  take 30 (title (sample_article (py "elecciones-2024-resultados-primera") None))
  = take 30 (title (sample_article (py "elecciones-2024-resultados-segunda") None))
  /\ title (sample_article (py "elecciones-2024-resultados-primera") None)
     <> title (sample_article (py "elecciones-2024-resultados-segunda") None)
  /\ chap_file_name (chapter_of w_five
                       (sample_article (py "elecciones-2024-resultados-primera") None)
                       (py "mundo") None)
     = chap_file_name (chapter_of w_five
                         (sample_article (py "elecciones-2024-resultados-segunda") None)
                         (py "espana") None).
Proof.
  split; [reflexivity|]. split; [discriminate|].
  apply (X_file_name_collision w_five). reflexivity.
Defined.

(** ** The plain-text fallback *)

Lemma fallback_trimmed (l : list str) :
  Forall trimmed (List.filter truthy (map strip l)).
Proof.
  induction l as [|p l IH]; simpl; [constructor|].
  destruct (truthy (strip p)) eqn:Hp; [|done].
  constructor; [|done]. apply strip_trimmed. by destruct (strip p).
Qed.

(** X10: Without structured HTML the body is a newline-joined sequence of
    paragraph elements, none of them empty and none with whitespace at
    either end. *)
Theorem X_fallback_trimmed (w : World) (article : Article) :
  truthy (article_html article) = false ->
  exists ps,
    article_content w article = join [LF] (map paragraph ps)
    /\ Forall trimmed ps.
Proof.
  intros Habsent.
  exists (List.filter truthy (map strip (split [LF; LF] (text article)))).
  split; [|apply fallback_trimmed].
  unfold article_content. by rewrite Habsent, filter_map_strip.
Qed.

Lemma X_fallback_trimmed_witness :
  truthy (article_html plain_article) = false
  /\ exists ps,
      article_content w_offline plain_article = join [LF] (map paragraph ps)
      /\ Forall trimmed ps.
Proof.
  split; [reflexivity|].
  apply (X_fallback_trimmed w_offline plain_article). reflexivity.
Defined.

Lemma split_go_blank (sep : str) :
  forall (s : str) (k : nat) (cur : str),
    Forall (fun c => isspace c = true) s ->
    Forall (fun c => isspace c = true) cur ->
    Forall (Forall (fun c => isspace c = true)) (split_go sep s k cur).
Proof.
  induction s as [|c s IH]; intros k cur Hs Hcur; simpl.
  - constructor; [|constructor]. by apply Forall_rev.
  - apply Forall_cons in Hs as [Hc Hs]. destruct k; [|by apply IH].
    destruct (startswith sep (c :: s)).
    + constructor; [by apply Forall_rev|]. by apply IH.
    + apply IH; [done|]. by constructor.
Qed.

(** X11: A text of whitespace only gives an empty body: no paragraph at all. *)
Theorem X_fallback_blank (w : World) (article : Article) :
  truthy (article_html article) = false ->
  Forall (fun c => isspace c = true) (text article) ->
  article_content w article = [].
Proof.
  intros Habsent Hblank. unfold article_content. rewrite Habsent.
  pose proof (split_go_blank [LF; LF] (text article) 0 [] Hblank (Forall_nil_2 _)) as Hs.
  fold (split [LF; LF] (text article)) in Hs.
  induction Hs as [|p l Hp _ IH]; [done|]. simpl.
  assert (strip p = []) as Hstrip.
  { unfold strip, rstrip. by rewrite (lstrip_blank p Hp). }
  rewrite Hstrip. simpl. exact IH.
Qed.

Lemma X_fallback_blank_witness :
  let article := {| title := py "t"; article_html := [];
                    text := [SPACE; LF; LF; 9; LF; LF; LF; 160];
                    publish_date := None; top_img := [] |} in
  truthy (article_html article) = false
  /\ Forall (fun c => isspace c = true) (text article)
  /\ article_content w_offline article = [].
Proof.
  assert (Forall (fun c => isspace c = true) [SPACE; LF; LF; 9; LF; LF; LF; 160])
    as Hblank by (repeat constructor).
  split; [reflexivity|]. split; [exact Hblank|].
  exact (X_fallback_blank w_offline
           {| title := py "t"; article_html := [];
              text := [SPACE; LF; LF; 9; LF; LF; LF; 160];
              publish_date := None; top_img := [] |} eq_refl Hblank).
Defined.

(** ** Sorting again *)

Lemma sort_reverse_fixed (l : list (str * str)) :
  StronglySorted desc l -> sort_reverse l = l.
Proof.
  induction 1 as [|x l Hl IH Hx]; [done|]. simpl. rewrite IH.
  destruct l as [|y l']; [done|]. simpl.
  apply Forall_cons in Hx as [Hxy _]. unfold desc, geb in Hxy.
  by destruct (gtb y.2 x.2).
Qed.

(** X12: A list of pairs already in descending order of category is left as it
    is, so sorting twice is sorting once. *)
Theorem X_sort_fixed (l : list (str * str)) :
  (StronglySorted desc l -> sort_reverse l = l)
  /\ sort_reverse (sort_reverse l) = sort_reverse l.
Proof.
  split; [apply sort_reverse_fixed|].
  apply sort_reverse_fixed, sort_reverse_sorted.
Qed.

Lemma X_sort_fixed_witness :
  StronglySorted desc [(py "u1", py "sociedad"); (py "u2", py "mundo"); (py "u3", py "mundo")]
  /\ sort_reverse [(py "u1", py "sociedad"); (py "u2", py "mundo"); (py "u3", py "mundo")]
     = [(py "u1", py "sociedad"); (py "u2", py "mundo"); (py "u3", py "mundo")].
Proof.
  assert (StronglySorted desc
            [(py "u1", py "sociedad"); (py "u2", py "mundo"); (py "u3", py "mundo")])
    as Hs by (repeat constructor).
  split; [exact Hs|].
  exact (proj1 (X_sort_fixed _) Hs).
Defined.

(** ** Schemes and statuses *)

(** X6: A feed URL that, leading whitespace apart, is neither an http nor an
    https URL has no adapter in the session: [create_epub] logs the error
    and returns [False] without sending a request. *)
Theorem X_unsupported_scheme (w : World) (rss_feed output_filename : str)
    (st : State) :
  http_or_https rss_feed = false ->
  create_epub w rss_feed output_filename st = (Val false, add_trace st [EvLog ERROR]).
Proof.
  intros Hurl. unfold create_epub. cbv zeta. rewrite bind_run.
  unfold try_except at 1. rewrite bind_run. unfold session_get.
  rewrite (get_adapter_scheme _ rss_feed feed_adapter adapters_of_feed_session), Hurl.
  by run.
Qed.

Lemma X_unsupported_scheme_witness :
  http_or_https (py "ftp://feeds.example/rss") = false
  /\ create_epub w_five (py "ftp://feeds.example/rss") out_path (fresh (fun _ => O))
     = (Val false, add_trace (fresh (fun _ => O)) [EvLog ERROR]).
Proof.
  split; [reflexivity|].
  apply (X_unsupported_scheme w_five). reflexivity.
Defined.

(** Whitespace before the scheme does not count, and the scheme may be in
    capitals. *)
Example http_or_https_prepared :
  http_or_https (py " https://feeds.example/rss") = true
  /\ http_or_https ([9; 10] ++ py "HTTP://feeds.example/rss") = true
  /\ http_or_https (py "feeds.example/rss") = false
  /\ http_or_https [] = false.
Proof. repeat split; reflexivity. Qed.

Lemma is_retry_false (left : nat) (status : N) (h : retry_after_header) :
  status ∉ [500; 502; 503; 504] ->
  has_retry_after h = false \/ status ∉ [413; 429] ->
  is_retry feed_retries left status h = false.
Proof.
  intros Hforce Hafter. unfold is_retry.
  rewrite bool_decide_eq_false_2 by exact Hforce. cbn [orb].
  destruct Hafter as [-> | Hcode]; [by rewrite andb_false_r|].
  rewrite bool_decide_eq_false_2; [by rewrite andb_false_r|].
  unfold RETRY_AFTER_STATUS_CODES. intros Hin.
  apply elem_of_cons in Hin as [->|Hin]; [apply Hcode; left|].
  apply elem_of_cons in Hin as [->|Hin]; [apply Hcode; right; left|].
  apply elem_of_cons in Hin as [->|Hin]; [apply Hforce; do 2 right; left|].
  by apply not_elem_of_nil in Hin.
Qed.

(** X7: A response with an error status (4xx or 5xx) other than 500, 502, 503
    and 504 is not retried, unless it is a 413 or a 429 that carries a
    [Retry-After] header: the session sends one request and gives the
    response, and [create_epub] returns [False] after that one request. *)
Theorem X_status_not_retried (w : World) (rss_feed output_filename : str)
    (st : State) (r : Response) :
  http_or_https rss_feed = true ->
  http w rss_feed 0 = Answer r ->
  (400 <=? status_code r) && (status_code r <? 600) = true ->
  status_code r ∉ [500; 502; 503; 504] ->
  has_retry_after (retry_after w rss_feed 0) = false \/ status_code r ∉ [413; 429] ->
  session_get w create_session_with_retries rss_feed st
  = (Val r, add_trace st [EvRequest rss_feed])
  /\ create_epub w rss_feed output_filename st
     = (Val false, add_trace st [EvRequest rss_feed; EvLog ERROR]).
Proof.
  intros Hurl Hr Herr Hstatus Hafter.
  assert (session_get w create_session_with_retries rss_feed st
          = (Val r, add_trace st [EvRequest rss_feed])) as Hget.
  { unfold session_get. rewrite (get_adapter_feed_session rss_feed Hurl).
    change (max_retries feed_adapter) with feed_retries.
    change (total feed_retries) with 5%nat.
    rewrite urlopen_eq. run. rewrite Hr. by rewrite is_retry_false. }
  split; [exact Hget|].
  unfold create_epub. cbv zeta. rewrite bind_run.
  unfold try_except at 1. rewrite bind_run, Hget. run.
  unfold raise_for_status. rewrite Herr. run.
  by rewrite add_trace_app.
Qed.

Lemma X_status_not_retried_witness :
  http_or_https feed_url = true
  /\ http w_feed_404 feed_url 0 = status 404
  /\ (404 ∉ [500; 502; 503; 504])
  /\ session_get w_feed_404 create_session_with_retries feed_url (fresh (fun _ => O))
     = (Val {| status_code := 404; content := [] |},
        add_trace (fresh (fun _ => O)) [EvRequest feed_url])
  /\ create_epub w_feed_404 feed_url out_path (fresh (fun _ => O))
     = (Val false, add_trace (fresh (fun _ => O)) [EvRequest feed_url; EvLog ERROR]).
Proof.
  assert (404 ∉ [500; 502; 503; 504]) as Hstatus.
  { intros Hin. repeat (apply elem_of_cons in Hin as [Hin|Hin]; [discriminate|]).
    by apply not_elem_of_nil in Hin. }
  split; [reflexivity|]. split; [reflexivity|]. split; [exact Hstatus|].
  exact (X_status_not_retried w_feed_404 feed_url out_path (fresh (fun _ => O))
           {| status_code := 404; content := [] |} eq_refl eq_refl eq_refl Hstatus
           (or_introl eq_refl)).
Defined.

(** X22: Against a server that sends no [Retry-After] header, the session of
    the feed does not wait before its first retry and waits 2, 4, 8 and 16
    seconds before the second to the fifth: between [k] requests it has
    slept the first [k - 2] of these, at most 30 seconds in all. *)
Theorem X_backoff_schedule (w : World) (url : str) (st : State) :
  http_or_https url = true ->
  no_retry_after w url ->
  exists (k : nat) (t : list event),
    (session_get w create_session_with_retries url st).2 = add_trace st t
    /\ (1 <= k <= 6)%nat
    /\ requests t = repeat url k
    /\ sleeps t = take (k - 2) [2; 4; 8; 16]
    /\ total_sleep t <= 30.
Proof.
  intros Hurl Hh.
  destruct (session_get_spec w url st Hurl Hh)
    as (k & t & Hrun & Hk & Hreq & Hsl & _).
  exists k, t. rewrite Hrun. split; [done|]. split; [done|]. split; [done|].
  split; [done|]. unfold total_sleep. rewrite Hsl.
  destruct Hk as [Hk1 Hk6].
  destruct k as [|[|[|[|[|[|[|k]]]]]]]; try lia; vm_compute; discriminate.
Qed.

Lemma X_backoff_schedule_witness :
  http_or_https feed_url = true
  /\ no_retry_after w_unavailable feed_url
  /\ exists (k : nat) (t : list event),
      (session_get w_unavailable create_session_with_retries feed_url
         (fresh (fun _ => O))).2 = add_trace (fresh (fun _ => O)) t
      /\ (1 <= k <= 6)%nat
      /\ requests t = repeat feed_url k
      /\ sleeps t = take (k - 2) [2; 4; 8; 16]
      /\ total_sleep t <= 30.
Proof.
  split; [reflexivity|]. split; [intros k; reflexivity|].
  exact (X_backoff_schedule w_unavailable feed_url (fresh (fun _ => O)) eq_refl
           (fun k => eq_refl)).
Defined.

(** Against a server that always answers 503: six requests, and waits of
    2, 4, 8 and 16 s. *)
Example w_unavailable_waits :
  let t := trace (session_get w_unavailable create_session_with_retries
                    feed_url (fresh (fun _ => O))).2 in
  requests t = repeat feed_url 6 /\ sleeps t = [2; 4; 8; 16].
Proof. vm_compute. split; reflexivity. Qed.

(** X24: A response with status 413, 429 or 503 that carries a [Retry-After]
    header of [secs > 0] seconds is retried after exactly that wait, also
    when the status is outside the forcelist: the second request of the
    session follows a sleep of [secs] seconds. *)
Theorem X_retry_after_honoured (w : World) (url : str) (st : State)
    (r : Response) (secs : N) :
  http_or_https url = true ->
  http w url 0 = Answer r ->
  status_code r ∈ [413; 429; 503] ->
  retry_after w url 0 = RetryAfter secs ->
  secs <> 0 ->
  exists t,
    trace (session_get w create_session_with_retries url st).2
    = trace st ++ [EvRequest url; EvSleep secs; EvRequest url] ++ t.
Proof.
  intros Hurl Hr Hcode Hh Hsecs.
  unfold session_get. rewrite (get_adapter_feed_session url Hurl).
  change (max_retries feed_adapter) with feed_retries.
  change (total feed_retries) with 5%nat.
  rewrite urlopen_eq. run. rewrite Hr, Hh.
  assert (is_retry feed_retries 5 (status_code r) (RetryAfter secs) = true) as ->.
  { unfold is_retry. cbn [has_retry_after Nat.eqb negb andb].
    rewrite (bool_decide_eq_true_2 (status_code r ∈ RETRY_AFTER_STATUS_CODES)) by done.
    apply orb_true_r. }
  rewrite bind_run, Retry_sleep_run. cbn [sleep_returns sleep_events].
  rewrite (proj2 (N.eqb_neq secs 0) Hsecs), add_trace_app.
  destruct (urlopen_first w feed_retries url 4 1
              (add_trace st ([EvRequest url] ++ [EvSleep secs]))) as [t ->].
  exists t. cbn [add_trace trace]. by rewrite <- !app_assoc.
Qed.

Lemma X_retry_after_honoured_witness :
  http_or_https feed_url = true
  /\ http w_retry_after feed_url 0 = status 429
  /\ retry_after w_retry_after feed_url 0 = RetryAfter 7
  /\ exists t,
      trace (session_get w_retry_after create_session_with_retries feed_url
               (fresh (fun _ => O))).2
      = trace (fresh (fun _ => O))
        ++ [EvRequest feed_url; EvSleep 7; EvRequest feed_url] ++ t.
Proof.
  split; [reflexivity|]. split; [reflexivity|]. split; [reflexivity|].
  apply (X_retry_after_honoured w_retry_after feed_url (fresh (fun _ => O))
           {| status_code := 429; content := [] |} 7); try reflexivity; [|discriminate].
  right. left.
Defined.

(** ** The image capture *)

Lemma letters_length (n : nat) : forall draws, length (letters n draws) = n.
Proof. induction n as [|n IH]; intros draws; simpl; [done|]. by rewrite IH. Qed.

Lemma letters_ascii (n : nat) :
  forall draws, Forall (fun c => c ∈ ascii_letters) (letters n draws).
Proof.
  induction n as [|n IH]; intros draws; cbn [letters]; constructor; [|apply IH].
  apply list_elem_of_In, nth_In.
  apply Nat.mod_upper_bound. discriminate.
Qed.



(** X4: When the request for the image fails (the URL is of no http or https
    scheme, the request gets no response, or the response has a 4xx or
    5xx status), the capture returns [None] and leaves nothing behind: no
    file is created, no draw is made, at most one request was sent and
    there is no wait and no retry. *)
Theorem X_image_failure_clean (w : World) (url : str) (st : State) :
  image_answered w url = false ->
  exists t,
    download_image w url st = (Val None, add_trace st t)
    /\ (length (requests t) <= 1)%nat
    /\ sleeps t = []
    /\ article_downloads t = []
    /\ writes t = [].
Proof.
  intros Hfail.
  destruct (proj1 (proj2 (download_image_run w url st)) Hfail) as (t & Hrun & [->| ->]);
    eexists; (split; [exact Hrun|]); simpl; repeat split; lia.
Qed.

Lemma X_image_failure_clean_witness :
  image_answered w_image_404 (py "https://img.example/a1") = false
  /\ exists t,
      download_image w_image_404 (py "https://img.example/a1") (fresh (fun _ => O))
      = (Val None, add_trace (fresh (fun _ => O)) t)
      /\ (length (requests t) <= 1)%nat
      /\ sleeps t = []
      /\ article_downloads t = []
      /\ writes t = [].
Proof.
  split; [reflexivity|].
  apply (X_image_failure_clean w_image_404). reflexivity.
Defined.

Lemma image_answered_scheme (w : World) (url : str) :
  http_or_https url = false -> image_answered w url = false.
Proof.
  intros Hurl. unfold image_answered.
  by rewrite (get_adapter_scheme requests_Session url default_adapter eq_refl), Hurl.
Qed.

Lemma build_chapter_no_scheme (w : World) (url cat : str) (article : Article)
    (book : EpubBook) (chapters : list EpubHtml) (st : State) :
  http_or_https (top_img article) = false ->
  download_image w (top_img article) st = (Val None, add_trace st [EvLog STDOUT])
  /\ build_chapter w url cat article book chapters st
     = (Val (book, chapters), add_trace st [EvLog STDOUT; EvLog ERROR]).
Proof.
  intros Hurl.
  assert (download_image w (top_img article) st
          = (Val None, add_trace st [EvLog STDOUT])) as Himg.
  { rewrite download_image_eq, (image_answered_scheme w _ Hurl).
    by rewrite (get_adapter_scheme requests_Session _ default_adapter eq_refl), Hurl. }
  split; [exact Himg|].
  unfold build_chapter. run. rewrite Himg. run. rewrite open_rb_None. run.
  by rewrite add_trace_app.
Qed.

(** X5: An article whose lead image URL is, leading whitespace apart, neither
    an http nor an https URL (the empty string of a page without image,
    for one) does not become a chapter: the capture returns [None]
    without sending a request, [open(None)] raises in the guarded part,
    and the turn of the loop for an article extracted and dated today
    ends with the book and the chapter list as they were, no request
    sent, no file created and no draw made. *)
Theorem X_no_image_no_chapter (w : World) (url cat : str) (article : Article)
    (d : datetime) (book : EpubBook) (chapters : list EpubHtml) (st : State) :
  extracted w url = Some article ->
  publish_date article = Some d ->
  dt_date d = today w ->
  http_or_https (top_img article) = false ->
  download_image w (top_img article) st = (Val None, add_trace st [EvLog STDOUT])
  /\ build_chapter w url cat article book chapters st
     = (Val (book, chapters), add_trace st [EvLog STDOUT; EvLog ERROR])
  /\ exists t,
      loop_body w url cat book chapters st = (Val (book, chapters), add_trace st t)
      /\ requests t = [] /\ writes t = [].
Proof.
  intros Hex Hd Hday Hurl.
  destruct (build_chapter_no_scheme w url cat article book chapters st Hurl)
    as [Himg Hbuild].
  split; [exact Himg|]. split; [exact Hbuild|].
  unfold loop_body. rewrite bind_run.
  destruct (download_article_run w url st) as (t & -> & Hw & Hr).
  rewrite Hex. unfold publish_date_date. rewrite Hd. run.
  rewrite bool_decide_eq_false_2 by (by intros Hne; apply Hne).
  rewrite (proj2 (build_chapter_no_scheme w url cat article book chapters _ Hurl)).
  rewrite !add_trace_app. eexists. split; [reflexivity|].
  by rewrite !requests_app, !writes_app, Hr, Hw.
Qed.

Lemma X_no_image_no_chapter_witness :
  extracted w_no_image (py "a1") = Some bare_article
  /\ http_or_https (top_img bare_article) = false
  /\ download_image w_no_image (top_img bare_article) (fresh (fun _ => O))
     = (Val None, add_trace (fresh (fun _ => O)) [EvLog STDOUT])
  /\ build_chapter w_no_image (py "a1") (py "mundo") bare_article new_book []
       (fresh (fun _ => O))
     = (Val (new_book, []), add_trace (fresh (fun _ => O)) [EvLog STDOUT; EvLog ERROR])
  /\ exists t,
      loop_body w_no_image (py "a1") (py "mundo") new_book [] (fresh (fun _ => O))
      = (Val (new_book, []), add_trace (fresh (fun _ => O)) t)
      /\ requests t = [] /\ writes t = [].
Proof.
  split; [reflexivity|]. split; [reflexivity|].
  exact (X_no_image_no_chapter w_no_image (py "a1") (py "mundo") bare_article
           {| dt_date := 20000; dt_seconds := 0 |} new_book []
           (fresh (fun _ => O)) eq_refl eq_refl eq_refl eq_refl).
Defined.

(** X23: When the request for the image is answered but the copy to the
    scratch file fails (the file cannot be opened, or the stream breaks),
    the exception is no [RequestException] and leaves [download_image];
    the guarded part of the loop catches it and drops the chapter: the
    book and the chapter list stay as they were, the 10 draws of the name
    were made, and what was copied before the failure stays in the
    scratch file. *)
Theorem X_image_copy_fails (w : World) (url cat : str) (article : Article)
    (book : EpubBook) (chapters : list EpubHtml) (st : State) :
  image_answered w (top_img article) = true ->
  copyfile w (top_img article) <> CopyWhole ->
  (exists e, (download_image w (top_img article) st).1 = Exc e
             /\ is_RequestException e = false)
  /\ build_chapter w url cat article book chapters st
     = (Val (book, chapters),
        {| fs := with_scratch (scratch_name (rng st))
                   (capture_file w (top_img article)) (fs st);
           rng := advance 10 (rng st);
           trace := trace st ++ [EvRequest (top_img article); EvLog ERROR] |}).
Proof.
  intros Hans Hcopy.
  assert (image_ok w (top_img article) = false) as Hok.
  { unfold image_ok. rewrite Hans. by destruct (copyfile w (top_img article)). }
  destruct (proj2 (proj2 (download_image_run w (top_img article) st)) Hans Hok)
    as (e & Hrun & He).
  split.
  - exists e. rewrite Hrun. split; [done|]. by destruct He as [-> | ->].
  - unfold build_chapter. run. rewrite Hrun. run.
    unfold add_trace. cbn [fs rng trace]. by rewrite <- app_assoc.
Qed.

Lemma X_image_copy_fails_witness :
  image_answered w_broken_stream (py "https://img.example/a1") = true
  /\ copyfile w_broken_stream (py "https://img.example/a1") = StreamBreaks 1
  /\ (exists e, (download_image w_broken_stream (py "https://img.example/a1")
                   (fresh (fun _ => O))).1 = Exc e
                /\ is_RequestException e = false)
  /\ build_chapter w_broken_stream (py "a1") (py "mundo")
       (sample_article (py "a1") (Some 20000)) new_book [] (fresh (fun _ => O))
     = (Val (new_book, []),
        {| fs := <[py "aaaaaaaaaa.jpeg" := Bytes [255]]> ∅;
           rng := advance 10 (fun _ => O);
           trace := [EvRequest (py "https://img.example/a1"); EvLog ERROR] |}).
Proof.
  split; [reflexivity|]. split; [reflexivity|].
  apply (X_image_copy_fails w_broken_stream (py "a1") (py "mundo")
           (sample_article (py "a1") (Some 20000)) new_book [] (fresh (fun _ => O)));
    [reflexivity|discriminate].
Defined.

(** A run in which every stream breaks makes no chapter and returns
    [False]; the truncated scratch files are in the directory. *)
Example w_broken_stream_run :
  let run := create_epub w_broken_stream feed_url out_path (fresh (fun _ => O)) in
  run.1 = Val false
  /\ writes (trace run.2) = []
  /\ fs run.2 !! py "aaaaaaaaaa.jpeg" = Some (Bytes [255]).
Proof. vm_compute. repeat split; reflexivity. Qed.

(** ** The loop, exactly *)

Lemma add_trace_inj st t1 t2 : add_trace st t1 = add_trace st t2 -> t1 = t2.
Proof.
  intros H. apply (f_equal trace) in H. simpl in H. by apply app_inv_head in H.
Qed.

Lemma loop_cost_app n1 n2 t1 t2 :
  loop_cost n1 t1 -> loop_cost n2 t2 -> loop_cost (n1 + n2) (t1 ++ t2).
Proof.
  intros (Hw1 & Hd1 & Hr1 & Hs1) (Hw2 & Hd2 & Hr2 & Hs2). unfold loop_cost.
  rewrite writes_app, article_downloads_app, requests_app, total_sleep_app,
    !length_app, Hw1, Hw2.
  repeat split; lia.
Qed.

Lemma download_article_cost (w : World) (url : str) (st : State) :
  exists t,
    download_article_with_retry w url 3 st = (Val (extracted w url), add_trace st t)
    /\ writes t = [] /\ requests t = []
    /\ (length (article_downloads t) <= 3)%nat
    /\ total_sleep t <= 3.
Proof.
  destruct (download_article_run w url st) as (t & Hrun & Hw & Hr).
  destruct (download_article_with_retry_spec w url st)
    as (k & r & t' & Hrun' & Hk & Hdl & Hsl & _).
  rewrite Hrun in Hrun'. injection Hrun' as _ Ht. apply app_inv_head in Ht.
  subst t'. exists t. split; [done|]. split; [done|]. split; [done|].
  split; [rewrite Hdl, repeat_length; lia|].
  unfold total_sleep. rewrite Hsl.
  destruct k as [|[|[|[|k]]]]; try lia; vm_compute; discriminate.
Qed.

(** What a turn draws and leaves, by the verdict on its item. *)
Lemma classify_captured (w : World) (url : str) :
  match classify w url with
  | Kept a =>
      captured w url = Some (top_img a)
      /\ capture_file w (top_img a) = Some (image_body w (top_img a))
  | Crashed => captured w url = None
  | Skipped => True
  end.
Proof.
  unfold classify, captured, image_ok, capture_file.
  destruct (extracted w url) as [a|]; [|done].
  destruct (publish_date a) as [d|]; [|done].
  case_bool_decide; [done|].
  destruct (image_answered w (top_img a)); [|done]. cbn [andb].
  destruct (copyfile w (top_img a)) eqn:Hcopy; [|done..].
  by rewrite Hcopy.
Qed.

(** One turn of the loop, exactly: its result by the verdict on the
    item, the directory and the generator it leaves, and its costs. *)
Lemma loop_body_exact (w : World) (url cat : str) (book : EpubBook)
    (chapters : list EpubHtml) (st : State) :
  exists t,
    loop_cost 1 t
    /\ loop_body w url cat book chapters st
       = (match classify w url with
          | Skipped => Val (book, chapters)
          | Crashed => Exc AttributeError
          | Kept a =>
              Val (add_item (HtmlItem (chapter_of w a cat (Some (scratch_name (rng st)))))
                     (add_item (EpubItem (scratch_name (rng st)) (scratch_name (rng st))
                                  (py "image/jpeg") (image_body w (top_img a))) book),
                   chapters ++ [chapter_of w a cat (Some (scratch_name (rng st)))])
          end,
          {| fs := next_files w url (rng st) (fs st);
             rng := next_draws w url (rng st);
             trace := trace st ++ t |}).
Proof.
  unfold classify, next_files, next_draws, captured, image_ok, loop_body.
  rewrite bind_run.
  destruct (download_article_cost w url st) as (t & -> & Hw & Hr & Hd & Hs).
  assert (forall t', writes t' = [] -> article_downloads t' = [] ->
                     (length (requests t') <= 1)%nat -> total_sleep t' = 0 ->
                     loop_cost 1 (t ++ t')) as Hcost.
  { intros t' Hw' Hd' Hr' Hs'. unfold loop_cost.
    rewrite writes_app, article_downloads_app, requests_app, total_sleep_app,
      !length_app, Hw, Hw', Hd', Hr, Hs'. simpl. repeat split; lia. }
  destruct (extracted w url) as [a|].
  - unfold publish_date_date. destruct (publish_date a) as [d|]; run.
    + case_bool_decide as Hday.
      * run. rewrite add_trace_app. eexists. split; [|reflexivity].
        apply Hcost; [done|done|simpl; lia|done].
      * unfold build_chapter. run. rewrite download_image_eq.
        destruct (image_answered w (top_img a)) eqn:Hans; cbn [andb].
        -- unfold capture_file.
           destruct (copyfile w (top_img a)) as [| |copied]; cbn [with_scratch]; run;
             [rewrite open_rb_scratch; run|..];
             unfold add_trace; cbn [fs rng trace]; rewrite <- !app_assoc;
             (eexists; split; [|reflexivity]);
             (apply Hcost; [done|done|simpl; lia|done]).
        -- run. rewrite open_rb_None. run. rewrite !add_trace_app.
           eexists. split; [|reflexivity].
           destruct (get_adapter requests_Session (prepare_url (top_img a)));
             (apply Hcost; [done|done|simpl; lia|done]).
    + eexists. split; [|reflexivity].
      rewrite <- (app_nil_r t). apply Hcost; [done|done|simpl; lia|done].
  - run. rewrite add_trace_app. eexists. split; [|reflexivity].
    apply Hcost; [done|done|simpl; lia|done].
Qed.

Lemma loop_cost_le n m t : loop_cost n t -> (n <= m)%nat -> loop_cost m t.
Proof. intros (Hw & Hd & Hr & Hs) Hnm. unfold loop_cost. repeat split; [done|lia..]. Qed.

Lemma loop_cost_nil : loop_cost 0 [].
Proof. unfold loop_cost. simpl. repeat split; try done; lia. Qed.

Lemma add_items_app (l1 l2 : list item) (book : EpubBook) :
  add_items (l1 ++ l2) book = add_items l2 (add_items l1 book).
Proof. unfold add_items. apply foldl_app. Qed.

(** Without a crash the loop builds exactly the chapters, the items and
    the scratch files of its articles. *)
Lemma for_articles_exact (w : World) :
  forall (articles : list (str * str)) (book : EpubBook)
         (chapters : list EpubHtml) (st : State),
    crashes w articles = false ->
    exists t,
      for_articles w articles book chapters st
      = (Val (add_items (items_from w (rng st) articles) book,
              chapters ++ chapters_from w (rng st) articles),
         {| fs := files_from w (rng st) articles (fs st);
            rng := draws_after w articles (rng st);
            trace := trace st ++ t |})
      /\ loop_cost (length articles) t.
Proof.
  induction articles as [|[url cat] articles IH]; intros book chapters st Hc.
  - exists []. simpl. rewrite !app_nil_r.
    split; [by destruct st|]. apply loop_cost_nil.
  - simpl in Hc. apply orb_false_elim in Hc as [Hhd Htl].
    simpl for_articles. rewrite bind_run.
    destruct (loop_body_exact w url cat book chapters st) as (t1 & Hc1 & ->).
    cbn [items_from chapters_from files_from draws_after].
    destruct (classify w url) as [| |a]; [|discriminate|]; cbn [fst snd].
    + edestruct IH as (t2 & -> & Hc2); [exact Htl|].
      exists (t1 ++ t2). cbn [fs rng trace app]. rewrite <- (app_assoc (trace st)).
      split; [reflexivity|]. by apply (loop_cost_app 1 (length articles)).
    + edestruct IH as (t2 & -> & Hc2); [exact Htl|].
      exists (t1 ++ t2). cbn [fs rng trace].
      rewrite <- (app_assoc (trace st)), <- (app_assoc chapters), add_items_app.
      split; [reflexivity|]. by apply (loop_cost_app 1 (length articles)).
Qed.

Lemma next_files_keeps (w : World) (url : str) (draws : nat -> nat)
    (files : gmap str file) (p : str) :
  is_Some (files !! p) -> is_Some (next_files w url draws files !! p).
Proof.
  intros Hp. unfold next_files, with_scratch.
  destruct (captured w url) as [image|]; [|done].
  destruct (capture_file w image) as [b|]; [|done].
  destruct (decide (scratch_name draws = p)) as [->|Hne].
  - rewrite lookup_insert_eq. eauto.
  - by rewrite lookup_insert_ne.
Qed.

(** Whatever becomes of the items, the loop stays within its costs and
    removes no file. *)
Lemma for_articles_bound (w : World) :
  forall (articles : list (str * str)) (book : EpubBook)
         (chapters : list EpubHtml) (st : State),
    exists t,
      trace (for_articles w articles book chapters st).2 = trace st ++ t
      /\ loop_cost (length articles) t
      /\ forall p, is_Some (fs st !! p) ->
                   is_Some (fs (for_articles w articles book chapters st).2 !! p).
Proof.
  induction articles as [|[url cat] articles IH]; intros book chapters st.
  - exists []. simpl. rewrite app_nil_r. split; [done|]. split; [apply loop_cost_nil|done].
  - simpl for_articles. rewrite bind_run.
    destruct (loop_body_exact w url cat book chapters st) as (t1 & Hc1 & ->).
    assert (forall bc,
              exists t,
                trace (for_articles w articles bc.1 bc.2
                         {| fs := next_files w url (rng st) (fs st);
                            rng := next_draws w url (rng st);
                            trace := trace st ++ t1 |}).2 = trace st ++ t
                /\ loop_cost (S (length articles)) t
                /\ forall p, is_Some (fs st !! p) ->
                             is_Some (fs (for_articles w articles bc.1 bc.2
                                            {| fs := next_files w url (rng st) (fs st);
                                               rng := next_draws w url (rng st);
                                               trace := trace st ++ t1 |}).2 !! p))
      as Hgo.
    { intros bc. edestruct IH as (t2 & Htr & Hc2 & Hfs).
      exists (t1 ++ t2). split; [by rewrite Htr; simpl; rewrite app_assoc|].
      split; [by apply (loop_cost_app 1 (length articles))|].
      intros p Hp. apply Hfs. simpl. by apply next_files_keeps. }
    destruct (classify w url) as [| |a]; cbn [fst snd].
    + apply (Hgo (book, chapters)).
    + exists t1. split; [done|]. split; [by apply (loop_cost_le 1); [|simpl; lia]|].
      intros p Hp. simpl. by apply next_files_keeps.
    + apply (Hgo (_, _)).
Qed.

Lemma for_articles_app (w : World) (l1 l2 : list (str * str)) :
  forall (book : EpubBook) (chapters : list EpubHtml) (st : State),
    for_articles w (l1 ++ l2) book chapters st
    = (bc ← for_articles w l1 book chapters; for_articles w l2 bc.1 bc.2) st.
Proof.
  induction l1 as [|[url cat] l1 IH]; intros book chapters st; [done|].
  simpl for_articles. rewrite !bind_run.
  destruct (loop_body w url cat book chapters st) as [[bc|e] st1]; [|done].
  by rewrite IH, bind_run.
Qed.

(** ** The whole run, exactly *)

(** X16: A run is bounded by the size of the feed: with [n] items it makes at
    most [3 * n] article downloads and calls [epub.write_epub] at most
    once; this holds also when the run fails or raises. *)
Theorem X_run_cost (w : World) (rss_feed output_filename : str) (st : State) :
  exists t,
    trace (create_epub w rss_feed output_filename st).2 = trace st ++ t
    /\ (length (article_downloads t) <= 3 * item_count w rss_feed)%nat
    /\ (length (writes t) <= 1)%nat.
Proof.
  unfold create_epub, item_count. cbv zeta. rewrite bind_run.
  destruct (fetch_run w rss_feed st) as (t0 & -> & Hd0 & Hw0 & _).
  assert (forall n t1 x,
            loop_cost n t1 ->
            article_downloads x = [] ->
            (length (writes x) <= 1)%nat ->
            (length (article_downloads (t0 ++ t1 ++ x)) <= 3 * n)%nat
            /\ (length (writes (t0 ++ t1 ++ x)) <= 1)%nat) as Hsum.
  { intros n t1 x (Hw1 & Hd1 & _ & _) Hxd Hxw.
    rewrite !article_downloads_app, !writes_app, !length_app, Hd0, Hw0, Hw1, Hxd.
    simpl. split; lia. }
  destruct (feed_doc w rss_feed) as [r|]; run.
  2:{ exists t0. split; [done|].
      rewrite <- (app_nil_r t0). apply (Hsum 0%nat [] []); auto using loop_cost_nil. }
  rewrite link_category_run.
  destruct (pairs_of (find_all_item w (content r))) as [articles|] eqn:Hpairs.
  2:{ exists t0. split; [done|].
      rewrite <- (app_nil_r t0).
      eapply (Hsum _ [] []); auto.
      apply (loop_cost_le 0); [apply loop_cost_nil|lia]. }
  run. rewrite add_trace_app.
  destruct (for_articles_bound w (sort_reverse articles) new_book []
              (add_trace st (t0 ++ [EvLog INFO]))) as (t1 & Htr & Hc1 & _).
  rewrite (Permutation_length (sort_reverse_perm articles)),
    (pairs_of_length _ _ Hpairs) in Hc1.
  assert (loop_cost (length (find_all_item w (content r))) ([EvLog INFO] ++ t1))
    as Hc1'.
  { apply (loop_cost_app 0 _ [EvLog INFO] t1); [|done].
    unfold loop_cost. simpl. repeat split; try done; lia. }
  destruct (for_articles w (sort_reverse articles) new_book []
              (add_trace st (t0 ++ [EvLog INFO]))) as [[bc|e] st2].
  - cbn [fst snd] in *. simpl in Htr.
    destruct bc.2 as [|c chs]; run.
    + exists (t0 ++ ([EvLog INFO] ++ t1) ++ [EvLog ERROR]).
      split; [simpl; rewrite Htr, <- !app_assoc; done|].
      apply Hsum; auto.
    + unfold write_epub.
      destruct (write_epub_error w output_filename); run.
      * eexists (t0 ++ ([EvLog INFO] ++ t1) ++ [EvWrite output_filename _; EvLog ERROR]).
        split; [simpl; rewrite Htr, <- !app_assoc; done|].
        apply Hsum; auto.
      * eexists (t0 ++ ([EvLog INFO] ++ t1) ++ [EvWrite output_filename _; EvLog INFO]).
        split; [simpl; rewrite Htr, <- !app_assoc; done|].
        apply Hsum; auto.
  - cbn [fst snd] in *. simpl in Htr.
    exists (t0 ++ ([EvLog INFO] ++ t1) ++ []).
    split; [rewrite Htr, <- !app_assoc, app_nil_r; done|].
    apply Hsum; auto.
Qed.

Lemma add_items_eq (l : list item) :
  forall book,
    add_items l book
    = {| identifier := identifier book; book_title := book_title book;
         language := language book; authors := authors book;
         items := items book ++ l; toc := toc book; spine := spine book |}.
Proof.
  induction l as [|i l IH]; intros book; unfold add_items in *; simpl.
  - rewrite app_nil_r. by destruct book.
  - rewrite IH. simpl. by rewrite <- app_assoc.
Qed.

Lemma finalize_archive (w : World) (draws : nat -> nat) (l : list (str * str)) :
  finalize (add_items (items_from w draws l) new_book) (chapters_from w draws l)
  = archive_of w draws l.
Proof.
  rewrite add_items_eq. unfold finalize, archive_of, set_spine, set_toc, add_item.
  simpl. by rewrite <- !app_assoc.
Qed.

Lemma written_app t1 t2 : written (t1 ++ t2) = written t1 ++ written t2.
Proof. apply omap_app. Qed.

Lemma written_nil (t : list event) : writes t = [] -> written t = [].
Proof.
  induction t as [|e t IH]; [done|]. destruct e; simpl; try exact IH. discriminate.
Qed.

(** A run that returns [True], exactly. *)
Lemma create_epub_written (w : World) (rss_feed output_filename : str) (st : State) :
  (create_epub w rss_feed output_filename st).1 = Val true ->
  exists r articles t,
    feed_doc w rss_feed = Some r
    /\ pairs_of (find_all_item w (content r)) = Some articles
    /\ writes t = []
    /\ create_epub w rss_feed output_filename st
       = (Val true,
          {| fs := <[output_filename
                     := Epub (archive_of w (rng st) (sort_reverse articles))]>
                     (files_from w (rng st) (sort_reverse articles) (fs st));
             rng := draws_after w (sort_reverse articles) (rng st);
             trace := trace st ++ t
                      ++ [EvWrite output_filename
                            (archive_of w (rng st) (sort_reverse articles));
                          EvLog INFO] |}).
Proof.
  intros Htrue.
  destruct (create_epub_run w rss_feed output_filename st) as (st' & Hrun & _).
  rewrite Hrun in Htrue. simpl in Htrue.
  destruct (outcome_true _ _ _ Htrue)
    as (r & articles & Hdoc & Hpairs & Hcrash & Hwrite & _).
  exists r, articles.
  assert ((create_epub w rss_feed output_filename st).1 = Val true) as Htrue'
    by (by rewrite Hrun).
  clear Hrun Htrue st'. revert Htrue'.
  unfold create_epub. cbv zeta. rewrite bind_run.
  destruct (fetch_run w rss_feed st) as (t0 & -> & _ & Hw0 & _). rewrite Hdoc. run.
  rewrite link_category_run, Hpairs. run.
  destruct (for_articles_exact w (sort_reverse articles) new_book []
              (add_trace (add_trace st t0) [EvLog INFO]) Hcrash)
    as (t1 & -> & (Hw1 & _)).
  cbn [rng fs trace add_trace fst snd app].
  destruct (chapters_from w (rng st) (sort_reverse articles)) as [|c chs] eqn:Hch; run;
    [discriminate|].
  intros _. unfold write_epub. rewrite Hwrite. run.
  cbn [rng fs trace add_trace]. rewrite <- Hch, finalize_archive.
  exists (t0 ++ [EvLog INFO] ++ t1). split; [done|]. split; [done|].
  split; [by rewrite !writes_app, Hw0, Hw1|].
  unfold add_trace. cbn [fs rng trace]. by rewrite <- !app_assoc.
Qed.

(** X15: When [create_epub] returns [True], it has called [epub.write_epub]
    once, with the output path and exactly the book of the sorted feed:
    the set metadata, for each article that became a chapter its image
    item followed by its chapter, then the NCX, the navigation and the
    stylesheet, with the chapters as table of contents and, after the
    navigation, as spine; and the rest of the directory holds the scratch
    files of the captures. *)
Theorem X_archive_exact (w : World) (rss_feed output_filename : str) (st : State) :
  (create_epub w rss_feed output_filename st).1 = Val true ->
  exists r articles,
    feed_doc w rss_feed = Some r
    /\ pairs_of (find_all_item w (content r)) = Some articles
    /\ written (trace (create_epub w rss_feed output_filename st).2)
       = written (trace st)
         ++ [(output_filename, archive_of w (rng st) (sort_reverse articles))]
    /\ forall name,
         name <> output_filename ->
         fs (create_epub w rss_feed output_filename st).2 !! name
         = files_from w (rng st) (sort_reverse articles) (fs st) !! name.
Proof.
  intros Htrue.
  destruct (create_epub_written w rss_feed output_filename st Htrue)
    as (r & articles & t & Hdoc & Hpairs & Ht & ->).
  exists r, articles. split; [done|]. split; [done|]. cbn [snd trace fs]. split.
  - rewrite !written_app, (written_nil t Ht). reflexivity.
  - intros name Hname. by rewrite lookup_insert_ne.
Qed.

Lemma X_archive_exact_witness :
  (create_epub w_five feed_url out_path (fresh (fun _ => O))).1 = Val true
  /\ exists r articles,
      feed_doc w_five feed_url = Some r
      /\ pairs_of (find_all_item w_five (content r)) = Some articles
      /\ written (trace (create_epub w_five feed_url out_path (fresh (fun _ => O))).2)
         = written (trace (fresh (fun _ => O)))
           ++ [(out_path, archive_of w_five (rng (fresh (fun _ => O)))
                                     (sort_reverse articles))]
      /\ forall name,
           name <> out_path ->
           fs (create_epub w_five feed_url out_path (fresh (fun _ => O))).2 !! name
           = files_from w_five (rng (fresh (fun _ => O))) (sort_reverse articles)
               (fs (fresh (fun _ => O))) !! name.
Proof.
  split; [vm_compute; reflexivity|].
  apply (X_archive_exact w_five feed_url out_path (fresh (fun _ => O))).
  vm_compute. reflexivity.
Defined.

(** The book of the sample feed: three chapters, each after its image. *)
Example w_five_archive :
  map (fun i => match i with
                | EpubItem uid _ _ _ => uid
                | HtmlItem chap => chap_file_name chap
                | EpubNcx => py "ncx"
                | EpubNav => py "nav"
                end)
      (items (archive_of w_five (fun i => i)
                (sort_reverse [(py "a1", py "mundo"); (py "a2", py "sociedad");
                               (py "a3", py "sociedad"); (py "a4", py "mundo");
                               (py "a5", py "mundo")])))
  = [py "abcdefghij.jpeg"; py "About_a3.xhtml";
     py "klmnopqrst.jpeg"; py "About_a1.xhtml";
     py "uvwxyzABCD.jpeg"; py "About_a5.xhtml";
     py "ncx"; py "nav"; py "style_nav"].
Proof. vm_compute. reflexivity. Qed.

Lemma classify_kept (w : World) (url : str) (a : Article) :
  classify w url = Kept a ->
  extracted w url = Some a
  /\ exists d, publish_date a = Some d /\ dt_date d = today w
               /\ image_ok w (top_img a) = true.
Proof.
  unfold classify. destruct (extracted w url) as [a'|]; [|done].
  destruct (publish_date a') as [d|] eqn:Hd; [|done].
  case_bool_decide as Hday; [done|].
  destruct (image_ok w (top_img a')) eqn:Himg; [|done].
  intros [= ->]. split; [done|]. exists d.
  repeat split; try done; by destruct (decide (dt_date d = today w)).
Qed.

Lemma kept_sound (w : World) (l : list (str * str)) (a : Article) (cat : str) :
  (a, cat) ∈ kept w l -> exists url, (url, cat) ∈ l /\ classify w url = Kept a.
Proof.
  intros Hin. apply list_elem_of_omap in Hin as ([url c] & Hin & Hk).
  simpl in Hk. destruct (classify w url) as [| |a'] eqn:Hc; try done.
  injection Hk as -> ->. by exists url.
Qed.

(** X14: Every chapter of a written archive comes from an item of the feed
    whose article was extracted, is dated today and had its lead image
    captured, and carries that item's category: an article that could not
    be extracted or is of another day is in no chapter. *)
Theorem X_chapters_sound (w : World) (rss_feed output_filename : str) (st : State) :
  (create_epub w rss_feed output_filename st).1 = Val true ->
  exists r articles chapters,
    feed_doc w rss_feed = Some r
    /\ pairs_of (find_all_item w (content r)) = Some articles
    /\ archive_has (create_epub w rss_feed output_filename st).2
                   output_filename chapters
    /\ Forall (fun chap =>
                 exists url cat a d path,
                   (url, cat) ∈ articles
                   /\ extracted w url = Some a
                   /\ publish_date a = Some d /\ dt_date d = today w
                   /\ image_ok w (top_img a) = true
                   /\ chap = chapter_of w a cat (Some path)) chapters.
Proof.
  intros Htrue.
  destruct (create_epub_run w rss_feed output_filename st) as (st' & Hrun & Hst).
  rewrite Hrun in Htrue |- *. simpl in Htrue.
  destruct (outcome_true _ _ _ Htrue) as (r & articles & Hdoc & Hpairs & _ & _ & Hout).
  rewrite Hout in Hst. destruct Hst as (chapters & Hch & Harch & _).
  exists r, articles, chapters. split; [done|]. split; [done|]. split; [done|].
  assert (forall ac, ac ∈ kept w (sort_reverse articles) ->
                     exists url, (url, ac.2) ∈ articles /\ classify w url = Kept ac.1)
    as Hsound.
  { intros [a cat] Hin. apply kept_sound in Hin as (url & Hin & Hk).
    exists url. split; [|done]. by rewrite <- (sort_reverse_perm articles). }
  clear Hout Harch. induction Hch as [|[a cat] chap k chs [path ->] _ IH];
    constructor.
  - destruct (Hsound (a, cat)) as (url & Hin & Hk); [left|].
    apply classify_kept in Hk as (Hex & d & Hd & Hday & Himg).
    by exists url, cat, a, d, path.
  - apply IH. intros ac Hin. apply Hsound. by right.
Qed.

Lemma X_chapters_sound_witness :
  (create_epub w_five feed_url out_path (fresh (fun _ => O))).1 = Val true
  /\ exists r articles chapters,
      feed_doc w_five feed_url = Some r
      /\ pairs_of (find_all_item w_five (content r)) = Some articles
      /\ archive_has (create_epub w_five feed_url out_path (fresh (fun _ => O))).2
                     out_path chapters
      /\ Forall (fun chap =>
                   exists url cat a d path,
                     (url, cat) ∈ articles
                     /\ extracted w_five url = Some a
                     /\ publish_date a = Some d /\ dt_date d = today w_five
                     /\ image_ok w_five (top_img a) = true
                     /\ chap = chapter_of w_five a cat (Some path)) chapters.
Proof.
  split; [vm_compute; reflexivity|].
  apply (X_chapters_sound w_five feed_url out_path (fresh (fun _ => O))).
  vm_compute. reflexivity.
Defined.

(** X13: A feed without items: [create_epub] returns [False]; nothing is
    downloaded, nothing is written. *)
Theorem X_empty_feed (w : World) (rss_feed output_filename : str) (st : State)
    (r : Response) :
  feed_doc w rss_feed = Some r ->
  find_all_item w (content r) = [] ->
  exists t,
    create_epub w rss_feed output_filename st = (Val false, add_trace st t)
    /\ article_downloads t = []
    /\ writes t = []
    /\ (length (requests t) <= 6)%nat.
Proof.
  intros Hdoc Hitems. unfold create_epub. cbv zeta. rewrite bind_run.
  destruct (fetch_run w rss_feed st) as (t & -> & Hd & Hw & Hr).
  rewrite Hdoc. run. rewrite Hitems. simpl link_category. run.
  simpl sort_reverse. simpl for_articles. run.
  rewrite !add_trace_app. eexists. split; [reflexivity|].
  rewrite !article_downloads_app, !writes_app, !requests_app, Hd, Hw, !length_app.
  simpl. repeat split; lia.
Qed.

Lemma X_empty_feed_witness :
  feed_doc w_empty_feed feed_url = Some {| status_code := 200; content := [1] |}
  /\ exists t,
      create_epub w_empty_feed feed_url out_path (fresh (fun _ => O))
      = (Val false, add_trace (fresh (fun _ => O)) t)
      /\ article_downloads t = []
      /\ writes t = []
      /\ (length (requests t) <= 6)%nat.
Proof.
  split; [reflexivity|].
  exact (X_empty_feed w_empty_feed feed_url out_path (fresh (fun _ => O))
           {| status_code := 200; content := [1] |} eq_refl eq_refl).
Defined.

(** ** The entry point *)

Lemma startswith_prefix (p r : str) : startswith p (p ++ r) = true.
Proof. induction p as [|c p IH]; [done|]. simpl. by rewrite N.eqb_refl. Qed.

Lemma letters_no (x : char) (n : nat) :
  x ∉ ascii_letters -> forall draws, x ∉ letters n draws.
Proof.
  intros Hx draws Hin.
  pose proof (letters_ascii n draws) as Hall.
  rewrite Forall_forall in Hall. by apply Hx, Hall.
Qed.

(** The name of a scratch image is one [glob] lists. *)
Lemma scratch_name_matches (draws : nat -> nat) :
  matches_jpeg (scratch_name draws) = true.
Proof.
  unfold matches_jpeg, scratch_name.
  assert (endswith (py ".jpeg") (letters 10 draws ++ py ".jpeg") = true) as ->.
  { unfold endswith. rewrite rev_app_distr. apply startswith_prefix. }
  assert (startswith (py ".") (letters 10 draws ++ py ".jpeg") = false) as ->.
  { pose proof (letters_ascii 10 draws) as Hall.
    destruct (letters 10 draws) as [|c l] eqn:Hl.
    - pose proof (letters_length 10 draws) as Hlen. by rewrite Hl in Hlen.
    - apply Forall_cons in Hall as [Hc _].
      change (py ".") with [46]. cbn [startswith app].
      destruct (N.eqb_spec 46 c) as [<-|]; [|done].
      exfalso. vm_compute in Hc.
      repeat (apply elem_of_cons in Hc as [Hc|Hc]; [done|]).
      by apply not_elem_of_nil in Hc. }
  assert (existsb (N.eqb 47) (letters 10 draws ++ py ".jpeg") = false) as ->; [|done].
  rewrite existsb_app. apply orb_false_intro; [|done].
  apply not_true_is_false. intros Hex.
  apply existsb_exists in Hex as (c & Hin & Hc).
  apply N.eqb_eq in Hc. subst c. apply list_elem_of_In in Hin. revert Hin.
  apply letters_no. intros Hin. vm_compute in Hin.
  repeat (apply elem_of_cons in Hin as [Hin|Hin]; [done|]).
  by apply not_elem_of_nil in Hin.
Qed.

Lemma for_remove_run (l : list str) :
  forall st,
    NoDup l ->
    (forall x, x ∈ l -> is_Some (fs st !! x)) ->
    exists st',
      for_remove l st = (Val tt, st')
      /\ trace st' = trace st
      /\ forall name, fs st' !! name = if decide (name ∈ l) then None else fs st !! name.
Proof.
  induction l as [|i l IH]; intros st Hnd Hall.
  - exists st. split; [done|]. split; [done|]. intros name.
    destruct (decide (name ∈ [])) as [Hin|]; [|done]. by apply not_elem_of_nil in Hin.
  - apply NoDup_cons in Hnd as [Hi Hnd].
    simpl for_remove. rewrite bind_run. unfold os_remove at 1.
    destruct (Hall i) as [v Hv]; [left|]. rewrite Hv.
    destruct (IH {| fs := delete i (fs st); rng := rng st; trace := trace st |} Hnd)
      as (st' & Hrun & Htr & Hfs).
    { intros x Hx. simpl. rewrite lookup_delete_ne; [apply Hall; by right|].
      intros ->. done. }
    exists st'. split; [done|]. split; [done|]. intros name. rewrite Hfs. simpl.
    destruct (decide (name ∈ l)) as [Hin|Hnin].
    + rewrite decide_True; [done|by right].
    + destruct (decide (name = i)) as [->|Hne].
      * rewrite decide_True; [|left]. apply lookup_delete_eq.
      * rewrite decide_False; [by apply lookup_delete_ne|].
        intros Hin. apply elem_of_cons in Hin as [?|?]; done.
Qed.

(** The sweep: every listed file is removed, no other file is touched,
    and no removal fails. *)
Lemma sweep_run (st : State) :
  exists st',
    (removing_files ← glob_jpeg; for_remove removing_files) st = (Val tt, st')
    /\ trace st' = trace st
    /\ forall name,
         fs st' !! name = if matches_jpeg name then None else fs st !! name.
Proof.
  rewrite bind_run. unfold glob_jpeg at 1.
  set (l := List.filter matches_jpeg (map_to_list (fs st)).*1).
  assert (forall x, x ∈ l <-> matches_jpeg x = true /\ is_Some (fs st !! x)) as Hl.
  { intros x. unfold l. rewrite list_elem_of_In, filter_In, <- list_elem_of_In.
    rewrite list_elem_of_fmap. split.
    - intros [([k v] & -> & Hin) Hm]. split; [done|].
      apply elem_of_map_to_list in Hin. simpl. eauto.
    - intros [Hm [v Hv]]. split; [|done]. exists (x, v). split; [done|].
      by apply elem_of_map_to_list. }
  destruct (for_remove_run l st) as (st' & Hrun & Htr & Hfs).
  { unfold l. apply NoDup_ListNoDup, List.NoDup_filter, NoDup_ListNoDup,
      NoDup_fst_map_to_list. }
  { intros x Hx. by apply Hl in Hx as [_ Hx]. }
  exists st'. split; [done|]. split; [done|]. intros name. rewrite Hfs.
  destruct (decide (name ∈ l)) as [Hin|Hnin].
  - apply Hl in Hin as [-> _]. done.
  - destruct (matches_jpeg name) eqn:Hm; [|done].
    destruct (fs st !! name) as [v|] eqn:Hv; [|done].
    exfalso. apply Hnin, Hl. eauto.
Qed.

Lemma next_files_frame (w : World) (url : str) (draws : nat -> nat)
    (files : gmap str file) (name : str) :
  matches_jpeg name = false -> next_files w url draws files !! name = files !! name.
Proof.
  intros Hname. unfold next_files, with_scratch.
  destruct (captured w url) as [image|]; [|done].
  destruct (capture_file w image) as [b|]; [|done].
  apply lookup_insert_ne. intros Heq.
  by rewrite <- Heq, scratch_name_matches in Hname.
Qed.

Lemma for_articles_frame (w : World) (name : str) :
  matches_jpeg name = false ->
  forall (articles : list (str * str)) (book : EpubBook)
         (chapters : list EpubHtml) (st : State),
    fs (for_articles w articles book chapters st).2 !! name = fs st !! name.
Proof.
  intros Hname. induction articles as [|[url cat] articles IH];
    intros book chapters st; [done|].
  simpl for_articles. rewrite bind_run.
  destruct (loop_body_exact w url cat book chapters st) as (t1 & _ & ->).
  destruct (classify w url) as [| |a]; cbn [fst snd];
    try rewrite IH; cbn [fs]; by apply next_files_frame.
Qed.

(** [create_epub] touches the archive and scratch images only, and the
    archive only when it calls [epub.write_epub]. *)
Lemma create_epub_frame (w : World) (rss_feed output_filename : str)
    (st : State) (name : str) :
  matches_jpeg name = false ->
  name <> output_filename
  \/ writes (trace (create_epub w rss_feed output_filename st).2) = writes (trace st) ->
  fs (create_epub w rss_feed output_filename st).2 !! name = fs st !! name.
Proof.
  intros Hname. unfold create_epub. cbv zeta. rewrite bind_run.
  destruct (fetch_run w rss_feed st) as (t0 & -> & _ & Hw0 & _).
  destruct (feed_doc w rss_feed) as [r|]; run; [|done].
  rewrite link_category_run.
  destruct (pairs_of (find_all_item w (content r))) as [articles|]; [|done].
  run. rewrite add_trace_app.
  pose proof (for_articles_frame w name Hname (sort_reverse articles) new_book []
                (add_trace st (t0 ++ [EvLog INFO]))) as Hframe.
  destruct (for_articles_bound w (sort_reverse articles) new_book []
              (add_trace st (t0 ++ [EvLog INFO]))) as (t1 & Htr & (Hw1 & _) & _).
  destruct (for_articles w (sort_reverse articles) new_book []
              (add_trace st (t0 ++ [EvLog INFO]))) as [[bc|e] st2];
    cbn [fst snd] in *; [|done].
  destruct bc.2 as [|c chs]; run; [done|].
  assert (forall book (x : list event),
            writes (trace st2 ++ EvWrite output_filename book :: x) <> writes (trace st))
    as Hcalled.
  { intros book x Heq. rewrite Htr in Heq. simpl in Heq.
    rewrite !writes_app, Hw0, Hw1 in Heq. simpl in Heq.
    apply (f_equal length) in Heq. rewrite !app_nil_r, length_app in Heq.
    simpl in Heq. lia. }
  unfold write_epub. destruct (write_epub_error w output_filename); run;
    cbn [fs trace add_trace]; rewrite <- ?app_assoc;
    (intros [Hout|Heq]; [|by apply Hcalled in Heq]).
  - destruct (write_epub_partial w output_filename); [|done].
    by rewrite lookup_insert_ne.
  - by rewrite lookup_insert_ne.
Qed.

(** X19: After [main] has returned, no file named [*.jpeg] is left in the
    working directory, neither a scratch image of the run nor an image
    that was there before it, and every other file but [el_pais.epub] is
    as it was before the run. *)
Theorem X_main_sweep (w : World) (st : State) (b : bool) :
  (create_epub w RSS_FEED el_pais_epub st).1 = Val b ->
  exists st',
    main w st = (Val tt, st')
    /\ (forall name, matches_jpeg name = true -> fs st' !! name = None)
    /\ (forall name, matches_jpeg name = false -> name <> el_pais_epub ->
                     fs st' !! name = fs st !! name).
Proof.
  intros Hval. unfold main. rewrite bind_run.
  pose proof (create_epub_frame w RSS_FEED el_pais_epub st) as Hframe.
  destruct (create_epub w RSS_FEED el_pais_epub st) as [[b'|e] st1];
    cbn [fst snd] in *; [|done].
  destruct (sweep_run st1) as (st' & Hrun & _ & Hfs).
  exists st'. split; [exact Hrun|]. split.
  - intros name Hm. by rewrite Hfs, Hm.
  - intros name Hm Hne. rewrite Hfs, Hm. apply Hframe; auto.
Qed.

Lemma X_main_sweep_witness :
  (create_epub w_five RSS_FEED el_pais_epub used_directory).1 = Val true
  /\ exists st',
      main w_five used_directory = (Val tt, st')
      /\ (forall name, matches_jpeg name = true -> fs st' !! name = None)
      /\ (forall name, matches_jpeg name = false -> name <> el_pais_epub ->
                       fs st' !! name = fs used_directory !! name).
Proof.
  split; [vm_compute; reflexivity|].
  apply (X_main_sweep w_five used_directory true). vm_compute. reflexivity.
Defined.

Example used_directory_after_main :
  let after := fs (main w_five used_directory).2 in
  fs used_directory !! py "vacaciones.jpeg" = Some (Bytes [255; 216; 1])
  /\ after !! py "vacaciones.jpeg" = None
  /\ after !! py "notas.txt" = Some (Bytes [104; 105])
  /\ after !! scratch_name (rng used_directory) = None
  /\ size after = 2%nat.
Proof. vm_compute. repeat split; reflexivity. Qed.

(** X20: The sweep of [main] leaves [el_pais.epub] alone: after [main] the
    path holds what [create_epub] left there; and when the run did not
    call [epub.write_epub] (the feed failed, or no article became a
    chapter), an archive of an earlier run is still there as it was. *)
Theorem X_main_archive (w : World) (st : State) (b : bool) :
  (create_epub w RSS_FEED el_pais_epub st).1 = Val b ->
  exists st',
    main w st = (Val tt, st')
    /\ fs st' !! el_pais_epub
       = fs (create_epub w RSS_FEED el_pais_epub st).2 !! el_pais_epub
    /\ trace st' = trace (create_epub w RSS_FEED el_pais_epub st).2
    /\ (writes (trace st') = writes (trace st) ->
        fs st' !! el_pais_epub = fs st !! el_pais_epub).
Proof.
  intros Hval. unfold main. rewrite bind_run.
  pose proof (create_epub_frame w RSS_FEED el_pais_epub st el_pais_epub eq_refl)
    as Hframe.
  destruct (create_epub w RSS_FEED el_pais_epub st) as [[b'|e] st1];
    cbn [fst snd] in *; [|done].
  destruct (sweep_run st1) as (st' & Hrun & Htr & Hsweep).
  exists st'. split; [exact Hrun|].
  assert (fs st' !! el_pais_epub = fs st1 !! el_pais_epub) as Hkeep.
  { rewrite Hsweep. by change (matches_jpeg el_pais_epub) with false. }
  split; [exact Hkeep|]. split; [exact Htr|].
  intros Hw. rewrite Hkeep. apply Hframe. right. by rewrite <- Htr.
Qed.

Lemma X_main_archive_witness :
  (create_epub w_empty_feed RSS_FEED el_pais_epub
     {| fs := <[el_pais_epub := Epub new_book]> ∅; rng := fun _ => O; trace := [] |}).1
  = Val false
  /\ exists st',
      main w_empty_feed
        {| fs := <[el_pais_epub := Epub new_book]> ∅; rng := fun _ => O; trace := [] |}
      = (Val tt, st')
      /\ fs st' !! el_pais_epub = Some (Epub new_book).
Proof.
  split; [vm_compute; reflexivity|].
  destruct (X_main_archive w_empty_feed
              {| fs := <[el_pais_epub := Epub new_book]> ∅; rng := fun _ => O; trace := [] |}
              false) as (st' & Hrun & _ & Htr & Hkeep); [vm_compute; reflexivity|].
  exists st'. split; [exact Hrun|].
  rewrite Hkeep; [apply lookup_insert_eq|].
  rewrite Htr. vm_compute. reflexivity.
Defined.

(** X21: When an article without publish date follows, anywhere later in the
    sorted feed, an article that became a chapter, the exception leaves
    [main] too, the sweep does not run, and the scratch image of that
    chapter stays in the working directory. *)
Theorem X_main_leaks_scratch (w : World) (st : State) (r : Response)
    (articles before rest : list (str * str)) (url cat : str) (a : Article) :
  feed_doc w RSS_FEED = Some r ->
  pairs_of (find_all_item w (content r)) = Some articles ->
  sort_reverse articles = before ++ (url, cat) :: rest ->
  crashes w before = false ->
  classify w url = Kept a ->
  crashes w rest = true ->
  exists st',
    main w st = (Exc AttributeError, st')
    /\ matches_jpeg (scratch_name (draws_after w before (rng st))) = true
    /\ is_Some (fs st' !! scratch_name (draws_after w before (rng st))).
Proof.
  intros Hdoc Hpairs Hsort Hbefore Hk Hcrash.
  unfold main. rewrite bind_run. unfold create_epub. cbv zeta. rewrite bind_run.
  destruct (fetch_run w RSS_FEED st) as (t0 & -> & _). rewrite Hdoc. run.
  rewrite link_category_run, Hpairs. run. rewrite Hsort.
  rewrite for_articles_app, bind_run.
  destruct (for_articles_exact w before new_book []
              (add_trace (add_trace st t0) [EvLog INFO]) Hbefore) as (t1 & -> & _).
  cbn [fst snd rng fs trace add_trace].
  simpl for_articles. rewrite bind_run.
  match goal with
  | |- context [loop_body w url cat ?b ?c ?s] =>
      destruct (loop_body_exact w url cat b c s) as (t2 & _ & ->)
  end.
  pose proof (classify_captured w url) as Hcap. rewrite Hk in Hcap |- *.
  destruct Hcap as [Hcap Hfile].
  cbn [fst snd rng fs trace].
  match goal with
  | |- context [for_articles w rest ?b ?c ?s] =>
      destruct (for_articles_crash w rest b c s Hcrash) as (st2 & Hrun & _);
      destruct (for_articles_bound w rest b c s) as (_ & _ & _ & Hkeep);
      rewrite Hrun in Hkeep |- *
  end.
  exists st2. split; [done|]. split; [apply scratch_name_matches|].
  apply Hkeep. cbn [fs]. unfold next_files. rewrite Hcap, Hfile.
  cbn [with_scratch]. rewrite lookup_insert_eq. eauto.
Qed.

Lemma X_main_leaks_scratch_witness :
  feed_doc w_skip_keep_crash RSS_FEED
  = Some {| status_code := 200; content := [255; 216] |}
  /\ classify w_skip_keep_crash (py "a1") = Skipped
  /\ classify w_skip_keep_crash (py "a2") = Kept (sample_article (py "a2") (Some 20000))
  /\ crashes w_skip_keep_crash [(py "a3", py "deportes")] = true
  /\ exists st',
      main w_skip_keep_crash used_directory = (Exc AttributeError, st')
      /\ matches_jpeg (scratch_name (rng used_directory)) = true
      /\ is_Some (fs st' !! scratch_name (rng used_directory)).
Proof.
  split; [reflexivity|]. split; [reflexivity|]. split; [reflexivity|].
  split; [reflexivity|].
  exact (X_main_leaks_scratch w_skip_keep_crash used_directory
           {| status_code := 200; content := [255; 216] |}
           [(py "a1", py "sociedad"); (py "a2", py "mundo"); (py "a3", py "deportes")]
           [(py "a1", py "sociedad")] [(py "a3", py "deportes")]
           (py "a2") (py "mundo") (sample_article (py "a2") (Some 20000))
           eq_refl eq_refl eq_refl eq_refl eq_refl eq_refl).
Defined.

(** ** What leaves [create_epub] *)

Lemma pairs_of_None (l : list FeedItem) :
  pairs_of l = None -> Exists lacks_tag l.
Proof.
  induction l as [|i l IH]; [done|]. simpl. unfold pair_of, lacks_tag.
  destruct (link i) eqn:Hl; [|by left; left].
  destruct (category i) eqn:Hc; [|by left; right].
  destruct (pairs_of l); [done|]. intros _. right. by apply IH.
Qed.

Lemma classify_crashed (w : World) (url : str) :
  classify w url = Crashed <->
  exists a, extracted w url = Some a /\ publish_date a = None.
Proof.
  unfold classify. split.
  - destruct (extracted w url) as [a|]; [|done].
    destruct (publish_date a) as [d|] eqn:Hd; [|by exists a].
    case_bool_decide; [done|]. by destruct (image_ok w (top_img a)).
  - intros (a & -> & ->). done.
Qed.

(** X17: The only exception that leaves [create_epub] is an [AttributeError],
    and one leaves it exactly when the feed was fetched and either an item
    lacks its link or its category, or an extracted article lacks its
    publish date; in every other case [create_epub] returns a boolean. *)
Theorem X_only_attribute_error (w : World) (rss_feed output_filename : str)
    (st : State) :
  (forall e, (create_epub w rss_feed output_filename st).1 = Exc e ->
             e = AttributeError)
  /\ ((exists e, (create_epub w rss_feed output_filename st).1 = Exc e) <->
      exists r,
        feed_doc w rss_feed = Some r
        /\ (Exists lacks_tag (find_all_item w (content r))
            \/ exists articles url cat a,
                 pairs_of (find_all_item w (content r)) = Some articles
                 /\ (url, cat) ∈ articles
                 /\ extracted w url = Some a
                 /\ publish_date a = None)).
Proof.
  destruct (create_epub_run w rss_feed output_filename st) as (st' & -> & _).
  cbn [fst]. unfold outcome.
  destruct (feed_doc w rss_feed) as [r|].
  2:{ split; [done|]. split; [by intros [e He]|by intros (r & Hr & _)]. }
  destruct (pairs_of (find_all_item w (content r))) as [articles|] eqn:Hpairs.
  2:{ split; [by intros e [= <-]|]. split; [|by eauto].
      intros _. exists r. split; [done|]. left. by apply pairs_of_None. }
  destruct (crashes w (sort_reverse articles)) eqn:Hcrash.
  - split; [by intros e [= <-]|]. split; [|by eauto].
    intros _. exists r. split; [done|]. right.
    apply crashes_true in Hcrash as ([url cat] & Hin & Hc).
    rewrite (sort_reverse_perm articles) in Hin.
    apply classify_crashed in Hc as (a & Hex & Hd).
    by exists articles, url, cat, a.
  - assert (forall b : bool, ~ exists e : exn, @Val bool b = Exc e) as Hval
      by (intros b [e He]; done).
    assert (~ exists r0,
                Some r = Some r0
                /\ (Exists lacks_tag (find_all_item w (content r0))
                    \/ exists articles0 url cat a,
                         pairs_of (find_all_item w (content r0)) = Some articles0
                         /\ (url, cat) ∈ articles0
                         /\ extracted w url = Some a
                         /\ publish_date a = None)) as Hno.
    { intros (r0 & [= <-] & [Hlack|(articles0 & url & cat & a & Hp & Hin & Hex & Hd)]).
      - apply pairs_of_lacks in Hlack. congruence.
      - rewrite Hpairs in Hp. injection Hp as <-.
        apply not_true_iff_false in Hcrash. apply Hcrash, crashes_true.
        exists (url, cat). split; [by rewrite (sort_reverse_perm articles)|].
        apply classify_crashed. eauto. }
    destruct (kept w (sort_reverse articles)) as [|ac l];
      [|destruct (write_epub_error w output_filename)];
      cbn [returned]; (split; [done|]);
      (split; intros H; [by destruct (Hval _ H)|by destruct (Hno H)]).
Qed.

(** X18: Whatever exception [write_epub] raises, [create_epub] catches it and
    returns [False]. *)
Theorem X_write_failure (w : World) (rss_feed output_filename : str)
    (st : State) (r : Response) (articles : list (str * str)) (e : exn) :
  feed_doc w rss_feed = Some r ->
  pairs_of (find_all_item w (content r)) = Some articles ->
  crashes w articles = false ->
  (exists url cat a, (url, cat) ∈ articles /\ classify w url = Kept a) ->
  write_epub_error w output_filename = Some e ->
  (create_epub w rss_feed output_filename st).1 = Val false.
Proof.
  intros Hdoc Hpairs Hcrash (url & cat & a & Hin & Hk) Hwrite.
  rewrite <- crashes_sort in Hcrash.
  destruct (create_epub_run w rss_feed output_filename st) as (st' & -> & _).
  unfold outcome. rewrite Hdoc, Hpairs, Hcrash.
  rewrite <- (sort_reverse_perm articles) in Hin.
  pose proof (kept_elem w _ url cat a Hin Hk) as Hne.
  destruct (kept w (sort_reverse articles)); [done|]. by rewrite Hwrite.
Qed.

Lemma X_write_failure_witness :
  feed_doc w_write_fails feed_url = Some {| status_code := 200; content := [1] |}
  /\ write_epub_error w_write_fails out_path = Some ValueError
  /\ (create_epub w_write_fails feed_url out_path (fresh (fun _ => O))).1 = Val false.
Proof.
  split; [reflexivity|]. split; [reflexivity|].
  apply (X_write_failure w_write_fails feed_url out_path (fresh (fun _ => O))
           {| status_code := 200; content := [1] |} [(py "a1", py "mundo")] ValueError);
    try reflexivity.
  exists (py "a1"), (py "mundo"), (sample_article (py "a1") (Some 20000)).
  split; [left|reflexivity].
Defined.

(** A write that raises after it began: [create_epub] returns [False],
    and the output path holds the truncated file. *)
Example w_write_truncated_run :
  let run := create_epub w_write_truncated feed_url out_path (fresh (fun _ => O)) in
  run.1 = Val false
  /\ writes (trace run.2) = [out_path]
  /\ fs run.2 !! out_path = Some (Bytes [80; 75]).
Proof. vm_compute. repeat split; reflexivity. Qed.
